(** * Document extraction pipeline (crm/helpers/strategies.py, crm/helpers/doc_extract.py)

    A shallow embedding of the extraction core of the CRM: the
    [ExtractionResult] record and its confidence bookkeeping, the strategy
    objects with their fallback links, [chain_strategies] and
    [_merge_results], the strategy dispatch [get_strategy], the candidate
    selection of the country resolver, the date helpers and the expiration
    date resolver, and the temporary-file handling of [_pipeline_extract].

    Conventions of the embedding.
    - Python [float] is IEEE 754 binary64: Rocq's primitive [float].
    - Python [str] is [string]; the texts considered are ASCII, on which
      Python's [\d], [\s], [\w], [\b] and [re.I] are the ASCII classes
      defined below.
    - [None] is [None]; an [Optional[T]] is [option T].
    - A raised exception is the left injection of a sum; the exception
      classes that matter are the constructors of [exn].
    - [date.today()] is a parameter [today] of every function that reads
      the clock.
    - Third-party code ([dateparser.parse], the OCR, the MRZ reader, the
      file-type detection) is a [Variable] of the section that calls it.

    The first part holds the program, the second part its properties. *)

From Stdlib Require Import ZArith QArith Qabs List String Ascii Bool Lia Lqa PeanoNat.
From Stdlib Require Import Floats.
Import ListNotations.

Set Warnings "-inexact-float".

Local Open Scope string_scope.
Local Open Scope list_scope.
Local Open Scope Z_scope.

(** ** Python values used by the pipeline *)

(** Truthiness of a [str]: only the empty string is falsy. *)
Definition str_truthy (s : string) : bool :=
  match s with
  | EmptyString => false
  | String _ _ => true
  end.

(** Truthiness of an [Optional[str]]. *)
Definition opt_str_truthy (o : option string) : bool :=
  match o with
  | Some s => str_truthy s
  | None => false
  end.

(** [a or b] on two [Optional[str]]: [a] when it is truthy, otherwise [b]. *)
Definition or_str (a b : option string) : option string :=
  if opt_str_truthy a then a else b.

(** Builtin [min(a, b)] and [max(a, b)] on floats: the first argument is
    kept unless the second is strictly smaller (resp. larger). *)
Definition float_min (a b : float) : float :=
  if PrimFloat.ltb b a then b else a.

Definition float_max (a b : float) : float :=
  if PrimFloat.ltb a b then b else a.

(** The exact rational value of a finite binary64 number (0 for the
    non-finite ones, which the confidence arithmetic never produces). *)
Definition float_to_Q (f : float) : Q :=
  match Prim2SF f with
  | S754_finite s m e =>
      let mag := if (0 <=? e)%Z
                 then inject_Z (Zpos m * 2 ^ e)
                 else Qmake (Zpos m) (Z.to_pos (2 ^ (- e))) in
      if s then Qopp mag else mag
  | _ => 0%Q
  end.

(** Exception classes raised along the paths modelled here. *)
Inductive exn : Type :=
| ValueError (msg : string)
| AttributeError (attr : string)
| TypeError (msg : string)
| OtherError (msg : string).

(** ** datetime.date *)

Record date : Type := mkdate { year : Z; month : Z; day : Z }.

Definition is_leap (y : Z) : bool :=
  (y mod 4 =? 0) && (negb (y mod 100 =? 0) || (y mod 400 =? 0)).

Definition days_in_month (y m : Z) : Z :=
  if (m =? 2) && is_leap y then 29
  else nth (Z.to_nat m) [0; 31; 28; 31; 30; 31; 30; 31; 31; 30; 31; 30; 31] 0.

Definition days_before_month (y m : Z) : Z :=
  nth (Z.to_nat m) [0; 0; 31; 59; 90; 120; 151; 181; 212; 243; 273; 304; 334] 0
  + (if (2 <? m) && is_leap y then 1 else 0).

Definition days_before_year (y : Z) : Z :=
  let y1 := y - 1 in
  y1 * 365 + y1 / 4 - y1 / 100 + y1 / 400.

(** The constructor [date(y, m, d)]: [None] stands for the [ValueError]
    raised on a year outside 1..9999, a month outside 1..12 or a day
    outside the month. *)
Definition date_new (y m d : Z) : option date :=
  if (1 <=? y) && (y <=? 9999) && (1 <=? m) && (m <=? 12)
     && (1 <=? d) && (d <=? days_in_month y m)
  then Some (mkdate y m d) else None.

Definition valid_date (d : date) : Prop :=
  date_new (year d) (month d) (day d) = Some d.

(** [date.toordinal()]: days since 0001-01-01, counted from 1. *)
Definition toordinal (d : date) : Z :=
  days_before_year (year d) + days_before_month (year d) (month d) + day d.

(** Comparison of dates. Python compares (year, month, day)
    lexicographically; on valid dates that is the order of the ordinals
    (lemma [date_ltb_lex] below), which also gives a meaning to the
    comparisons with [today ± timedelta(days=n)]. *)
Definition date_ltb (a b : date) : bool := toordinal a <? toordinal b.
Definition date_leb (a b : date) : bool := toordinal a <=? toordinal b.

Definition date_lex_ltb (a b : date) : bool :=
  (year a <? year b)
  || ((year a =? year b)
      && ((month a <? month b) || ((month a =? month b) && (day a <? day b)))).

Definition date_eqb (a b : date) : bool :=
  (year a =? year b) && (month a =? month b) && (day a =? day b).

Definition date_max (a b : date) : date := if date_ltb a b then b else a.

(** Decimal rendering, zero padded to [width] digits. *)
Definition digit_char (n : Z) : ascii := ascii_of_nat (48 + Z.to_nat (n mod 10)).

Fixpoint pad_digits (width : nat) (n : Z) (acc : string) : string :=
  match width with
  | O => acc
  | S w => pad_digits w (n / 10) (String (digit_char n) acc)
  end.

(** [str(d)], i.e. [d.isoformat()]: YYYY-MM-DD. *)
Definition date_str (d : date) : string :=
  (pad_digits 4 (year d) "" ++ "-" ++ pad_digits 2 (month d) "" ++ "-"
   ++ pad_digits 2 (day d) "")%string.

(** [d.strftime('%y%m%d')]. *)
Definition strftime_yymmdd (d : date) : string :=
  (pad_digits 2 (year d mod 100) "" ++ pad_digits 2 (month d) ""
   ++ pad_digits 2 (day d) "")%string.

(** ** ExtractionResult *)

Record ExtractionResult : Type := mkResult {
  number : option string;
  issued_country : option string;
  expiration_date : option date;
  confidence : float;
  validation_errors : list string;
  warnings : list string
}.

Definition is_complete (r : ExtractionResult) : bool :=
  match number r, issued_country r, expiration_date r with
  | Some _, Some _, Some _ => true
  | _, _, _ => false
  end.

Definition is_valid (r : ExtractionResult) : bool :=
  (List.length (validation_errors r) =? 0)%nat.

(** [ExtractionResult.add_error] *)
Definition add_error (r : ExtractionResult) (error : string) : ExtractionResult :=
  mkResult (number r) (issued_country r) (expiration_date r)
           (float_max 0 (confidence r - 0.2))
           (validation_errors r ++ [error]) (warnings r).

(** [ExtractionResult.add_warning] *)
Definition add_warning (r : ExtractionResult) (warning : string) : ExtractionResult :=
  mkResult (number r) (issued_country r) (expiration_date r)
           (float_max 0 (confidence r - 0.1))
           (validation_errors r) (warnings r ++ [warning]).

(** A [date] object is always truthy, so [a or b] on [Optional[date]]
    keeps [a] exactly when it is not [None]. *)
Definition or_date (a b : option date) : option date :=
  match a with
  | Some _ => a
  | None => b
  end.

(** [DocumentExtractionStrategy._merge_results] *)
Definition _merge_results (primary fallback : ExtractionResult) : ExtractionResult :=
  mkResult (or_str (number primary) (number fallback))
           (or_str (issued_country primary) (issued_country fallback))
           (or_date (expiration_date primary) (expiration_date fallback))
           (float_min (confidence primary) (confidence fallback))
           (validation_errors primary ++ validation_errors fallback)
           (warnings primary ++ warnings fallback).

(** ** Strings: the [str] methods the pipeline calls (ASCII) *)

Definition chars := list ascii.

Fixpoint chars_of (s : string) : chars :=
  match s with
  | EmptyString => []
  | String c s' => c :: chars_of s'
  end.

Fixpoint string_of (l : chars) : string :=
  match l with
  | [] => EmptyString
  | c :: l' => String c (string_of l')
  end.

Definition in_range (lo hi : nat) (c : ascii) : bool :=
  let n := nat_of_ascii c in ((lo <=? n) && (n <=? hi))%nat.

Definition is_digit (c : ascii) : bool := in_range 48 57 c.
Definition is_upper (c : ascii) : bool := in_range 65 90 c.
Definition is_lower (c : ascii) : bool := in_range 97 122 c.
Definition is_alpha (c : ascii) : bool := is_upper c || is_lower c.

(** [\s]: space, \t, \n, \v, \f, \r and the separators \x1c..\x1f. *)
Definition is_space (c : ascii) : bool :=
  in_range 9 13 c || in_range 28 32 c.

(** [\w]: letters, digits and the underscore. *)
Definition is_word (c : ascii) : bool :=
  is_alpha c || is_digit c || (nat_of_ascii c =? 95)%nat.

Definition to_lower (c : ascii) : ascii :=
  if is_upper c then ascii_of_nat (nat_of_ascii c + 32) else c.

Definition to_upper (c : ascii) : ascii :=
  if is_lower c then ascii_of_nat (nat_of_ascii c - 32) else c.

(** [s.lower()] and [s.upper()] *)
Definition lower (s : string) : string := string_of (map to_lower (chars_of s)).
Definition upper (s : string) : string := string_of (map to_upper (chars_of s)).

Definition newline : ascii := ascii_of_nat 10.

(** [s.split('\n')]: always at least one piece. *)
Fixpoint split_nl (l : chars) : list chars :=
  match l with
  | [] => [[]]
  | c :: l' =>
      if Ascii.eqb c newline then [] :: split_nl l'
      else match split_nl l' with
           | [] => [[c]]
           | p :: ps => (c :: p) :: ps
           end
  end.

(** The line boundaries of [str.splitlines()] that are single ASCII
    characters: \n, \v, \f, \r, \x1c, \x1d, \x1e (a \r\n pair is one
    boundary). *)
Definition is_linebreak (c : ascii) : bool :=
  in_range 10 13 c || in_range 28 30 c.

Fixpoint splitlines_aux (l : chars) (cur : chars) : list chars :=
  match l with
  | [] => match cur with [] => [] | _ => [rev cur] end
  | c :: l' =>
      if is_linebreak c then
        match l' with
        | c' :: l'' =>
            if Ascii.eqb c (ascii_of_nat 13) && Ascii.eqb c' newline
            then rev cur :: splitlines_aux l'' []
            else rev cur :: splitlines_aux l' []
        | [] => [rev cur]
        end
      else splitlines_aux l' (c :: cur)
  end.

(** [s.splitlines()] *)
Definition splitlines (s : string) : list string :=
  map string_of (splitlines_aux (chars_of s) []).

Fixpoint lstrip (l : chars) : chars :=
  match l with
  | c :: l' => if is_space c then lstrip l' else l
  | [] => []
  end.

(** [s.strip()] *)
Definition strip (s : string) : string :=
  string_of (rev (lstrip (rev (lstrip (chars_of s))))).

(** [int(s)]: surrounding whitespace is dropped, a sign may come first,
    and single underscores may separate digits. [None] stands for the
    [ValueError] raised on anything else. *)
Fixpoint int_of_digits (l : chars) (acc : Z) (after_digit : bool) : option Z :=
  match l with
  | [] => if after_digit then Some acc else None
  | c :: l' =>
      if is_digit c
      then int_of_digits l' (10 * acc + Z.of_nat (nat_of_ascii c - 48)) true
      else if Ascii.eqb c "_"%char && after_digit
           then int_of_digits l' acc false
           else None
  end.

Definition int_of_string (s : string) : option Z :=
  match chars_of (strip s) with
  | c :: l =>
      if Ascii.eqb c "-"%char then option_map Z.opp (int_of_digits l 0 false)
      else if Ascii.eqb c "+"%char then int_of_digits l 0 false
      else int_of_digits (c :: l) 0 false
  | [] => None
  end.

(** The slice [s[i:j]] for [0 <= i <= j]. *)
Definition slice (s : string) (i j : nat) : string :=
  string_of (firstn (j - i) (skipn i (chars_of s))).

(** ** Regular expressions

    The patterns of the source are written in a small abstract syntax and
    run by a backtracking matcher with the semantics of Python's [re]:
    alternatives are tried left to right, a greedy repetition takes as
    many iterations as it can before giving some back, a lazy one as few
    as it can, and the first way to complete the whole match wins. *)

Inductive regex : Type :=
| Eps
| Chr (p : ascii -> bool)
| Seq (r1 r2 : regex)
| Alt (r1 r2 : regex)
| Rep (greedy : bool) (lo : nat) (hi : option nat) (r : regex)
| Grp (n : nat) (r : regex)
| Bol (multiline : bool)
| Eol (multiline : bool)
| WordB.

(** A position in the subject: its index, the character before it and
    the characters from it on. *)
Record mstate : Type := mkState { pos : nat; prev : option ascii; rest : chars }.

(** Captured groups: group number to the captured text. *)
Definition captures := list (nat * chars).

Definition set_cap (n : nat) (v : chars) (caps : captures) : captures :=
  (n, v) :: filter (fun p => negb (fst p =? n)%nat) caps.

Fixpoint get_cap (n : nat) (caps : captures) : option chars :=
  match caps with
  | [] => None
  | (m, v) :: caps' => if (m =? n)%nat then Some v else get_cap n caps'
  end.

Definition opt_is (p : ascii -> bool) (o : option ascii) : bool :=
  match o with
  | Some c => p c
  | None => false
  end.

Definition at_bol (multiline : bool) (st : mstate) : bool :=
  match prev st with
  | None => true
  | Some c => multiline && Ascii.eqb c newline
  end.

Definition at_eol (multiline : bool) (st : mstate) : bool :=
  match rest st with
  | [] => true
  | c :: l => Ascii.eqb c newline && (multiline || match l with [] => true | _ => false end)
  end.

Definition at_word_boundary (st : mstate) : bool :=
  xorb (opt_is is_word (prev st)) (opt_is is_word (hd_error (rest st))).

Definition under (hi : option nat) (count : nat) : bool :=
  match hi with
  | Some h => (count <? h)%nat
  | None => true
  end.

Definition mresult := option (mstate * captures).

Definition or_else (a : mresult) (b : mresult) : mresult :=
  match a with
  | Some x => Some x
  | None => b
  end.

Fixpoint rmatch (r : regex) (st : mstate) (caps : captures)
  (k : mstate -> captures -> mresult) {struct r} : mresult :=
  match r with
  | Eps => k st caps
  | Chr p =>
      match rest st with
      | c :: l => if p c then k (mkState (S (pos st)) (Some c) l) caps else None
      | [] => None
      end
  | Seq r1 r2 => rmatch r1 st caps (fun st' caps' => rmatch r2 st' caps' k)
  | Alt r1 r2 => or_else (rmatch r1 st caps k) (rmatch r2 st caps k)
  | Grp n r1 =>
      rmatch r1 st caps
        (fun st' caps' => k st' (set_cap n (firstn (pos st' - pos st) (rest st)) caps'))
  | Rep greedy lo hi r1 =>
      (fix loop (fuel count : nat) (st : mstate) (caps : captures) {struct fuel} : mresult :=
         let stop := if (lo <=? count)%nat then k st caps else None in
         match fuel with
         | O => stop
         | S fuel' =>
             let more :=
               if under hi count
               then rmatch r1 st caps
                      (fun st' caps' =>
                         if (pos st <? pos st')%nat || (count <? lo)%nat
                         then loop fuel' (S count) st' caps'
                         else None)
               else None in
             if greedy then or_else more stop else or_else stop more
         end) (List.length (rest st) + lo)%nat O st caps
  | Bol ml => if at_bol ml st then k st caps else None
  | Eol ml => if at_eol ml st then k st caps else None
  | WordB => if at_word_boundary st then k st caps else None
  end.

(** A match object: where it starts and ends, the text matched
    ([group(0)]) and the groups. *)
Record rematch : Type := mkMatch {
  m_start : nat; m_end : nat; m_text : string; m_groups : captures
}.

Definition group (m : rematch) (n : nat) : option string :=
  option_map string_of (get_cap n (m_groups m)).

Definition match_here (r : regex) (st : mstate) : option (rematch * mstate) :=
  match rmatch r st [] (fun st' caps' => Some (st', caps')) with
  | Some (st', caps') =>
      Some (mkMatch (pos st) (pos st')
              (string_of (firstn (pos st' - pos st) (rest st))) caps', st')
  | None => None
  end.

Definition step_char (st : mstate) : option mstate :=
  match rest st with
  | c :: l => Some (mkState (S (pos st)) (Some c) l)
  | [] => None
  end.

(** The leftmost match at or after [st]. *)
Fixpoint search_from (r : regex) (fuel : nat) (st : mstate) : option (rematch * mstate) :=
  match match_here r st with
  | Some x => Some x
  | None =>
      match fuel, step_char st with
      | S fuel', Some st' => search_from r fuel' st'
      | _, _ => None
      end
  end.

Definition start_state (s : string) : mstate := mkState O None (chars_of s).

(** [re.match(r, s)]: a match starting at index 0. *)
Definition re_match (r : regex) (s : string) : option rematch :=
  option_map fst (match_here r (start_state s)).

(** [re.search(r, s)] *)
Definition re_search (r : regex) (s : string) : option rematch :=
  option_map fst (search_from r (String.length s) (start_state s)).

(** [re.finditer(r, s)]: the non-overlapping matches, left to right. An
    empty match is followed by a step of one character. *)
Fixpoint finditer_from (r : regex) (fuel : nat) (st : mstate) : list rematch :=
  match fuel with
  | O => []
  | S fuel' =>
      match search_from r (List.length (rest st)) st with
      | None => []
      | Some (m, st') =>
          if (m_start m <? m_end m)%nat then m :: finditer_from r fuel' st'
          else match step_char st' with
               | Some st'' => m :: finditer_from r fuel' st''
               | None => [m]
               end
      end
  end.

Definition re_finditer (r : regex) (s : string) : list rematch :=
  finditer_from r (S (String.length s)) (start_state s).

(** Pattern combinators, named after the syntax they stand for. *)
Definition ch (c : ascii) : regex := Chr (Ascii.eqb c).
Definition ch_i (c : ascii) : regex := Chr (fun x => Ascii.eqb (to_lower x) (to_lower c)).
Definition one_of (s : string) : regex :=
  Chr (fun x => existsb (Ascii.eqb x) (chars_of s)).
Definition digit : regex := Chr is_digit.
Definition space : regex := Chr is_space.
Definition upper_AZ : regex := Chr is_upper.
Definition alpha : regex := Chr is_alpha.
Definition upper_or_digit : regex := Chr (fun c => is_upper c || is_digit c).
Definition any_char : regex := Chr (fun c => negb (Ascii.eqb c newline)).
Definition range (lo hi : ascii) : regex :=
  Chr (in_range (nat_of_ascii lo) (nat_of_ascii hi)).

Fixpoint seqs (l : list regex) : regex :=
  match l with
  | [] => Eps
  | [r] => r
  | r :: l' => Seq r (seqs l')
  end.

Fixpoint alts (l : list regex) : regex :=
  match l with
  | [] => Chr (fun _ => false)
  | [r] => r
  | r :: l' => Alt r (alts l')
  end.

Definition lit (s : string) : regex := seqs (map ch (chars_of s)).
Definition lit_i (s : string) : regex := seqs (map ch_i (chars_of s)).
Definition opt (r : regex) : regex := Rep true 0 (Some 1%nat) r.
Definition star (r : regex) : regex := Rep true 0 None r.
Definition plus (r : regex) : regex := Rep true 1 None r.
Definition lazy_star (r : regex) : regex := Rep false 0 None r.
Definition times (lo hi : nat) (r : regex) : regex := Rep true lo (Some hi) r.
Definition exactly (n : nat) (r : regex) : regex := Rep true n (Some n) r.
Definition at_least (n : nat) (r : regex) : regex := Rep true n None r.

(** Decimal rendering of an integer ([str(n)]). *)
Fixpoint Z_digits (fuel : nat) (n : Z) (acc : string) : string :=
  match fuel with
  | O => acc
  | S fuel' =>
      let acc' := String (digit_char n) acc in
      if n <? 10 then acc' else Z_digits fuel' (n / 10) acc'
  end.

Definition Z_str (z : Z) : string :=
  if z <? 0 then ("-" ++ Z_digits (S (Z.to_nat (Z.log2 (- z)))) (- z) "")%string
  else Z_digits (S (Z.to_nat (Z.log2 z))) z "".

(** A dictionary with string keys, as an association list; [dict_get] is
    [d.get(key)]. *)
Fixpoint dict_get {A : Type} (d : list (string * A)) (key : string) : option A :=
  match d with
  | [] => None
  | (k, v) :: d' => if String.eqb k key then Some v else dict_get d' key
  end.

(** ** Dates: constructor errors, [timedelta] comparisons *)

(** [date(y, m, d)] with the text of the [ValueError] it raises (the
    texts are those of CPython 3.12's [datetime]). *)
Definition date_new_err (y m d : Z) : string + date :=
  match date_new y m d with
  | Some dt => inr dt
  | None =>
      if negb ((1 <=? y) && (y <=? 9999))
      then inl ("year " ++ Z_str y ++ " is out of range")%string
      else if negb ((1 <=? m) && (m <=? 12))
           then inl "month must be in 1..12"
           else inl "day is out of range for month"
  end.

(** [a < b - timedelta(days=n)] and [a > b + timedelta(days=n)], read on
    ordinals. *)
Definition before_minus_days (a b : date) (n : Z) : bool :=
  toordinal a <? toordinal b - n.

Definition after_plus_days (a b : date) (n : Z) : bool :=
  toordinal b + n <? toordinal a.

(** ** dateparser

    [dateparser.parse] is a third-party function: it is a parameter of
    everything that calls it. Its result is read through [.date()];
    [inl] is an exception raised by the library. *)
Record dp_settings : Type := mkSettings {
  PREFER_LOCALE_DATE_ORDER : option bool;
  PREFER_DAY_OF_MONTH : string
}.

Definition exn_str (e : exn) : string :=
  match e with
  | ValueError m => m
  | AttributeError a => a
  | TypeError m => m
  | OtherError m => m
  end.

(** ** DocumentExtractionStrategy._parse_date_with_pivot_and_validation *)

Definition date_sep : regex := one_of "/-.".
Definition opt_underscore : regex := opt (ch "_").

(** The five fallback patterns, in the order of [regex_patterns]. *)
Definition regex_patterns : list regex :=
  [ (* ^([0-3]?\d)[/\-\.]_?([01]?\d)[/\-\.]_?(\d{4})$ *)
    seqs [Bol false; Grp 1 (Seq (opt (range "0" "3")) digit); date_sep; opt_underscore;
          Grp 2 (Seq (opt (range "0" "1")) digit); date_sep; opt_underscore;
          Grp 3 (exactly 4 digit); Eol false];
    (* ^([01]?\d)[/\-\.]_?([0-3]?\d)[/\-\.]_?(\d{4})$ *)
    seqs [Bol false; Grp 1 (Seq (opt (range "0" "1")) digit); date_sep; opt_underscore;
          Grp 2 (Seq (opt (range "0" "3")) digit); date_sep; opt_underscore;
          Grp 3 (exactly 4 digit); Eol false];
    (* ^(\d{4})[/\-\.]_?([01]?\d)[/\-\.]_?([0-3]?\d)$ *)
    seqs [Bol false; Grp 1 (exactly 4 digit); date_sep; opt_underscore;
          Grp 2 (Seq (opt (range "0" "1")) digit); date_sep; opt_underscore;
          Grp 3 (Seq (opt (range "0" "3")) digit); Eol false];
    (* ^(\d{2})([01]\d)([0-3]\d)$ *)
    seqs [Bol false; Grp 1 (exactly 2 digit); Grp 2 (Seq (range "0" "1") digit);
          Grp 3 (Seq (range "0" "3") digit); Eol false];
    (* ^([0-3]?\d)\s+([A-Za-z]{3,})\s+(\d{4})$ *)
    seqs [Bol false; Grp 1 (Seq (opt (range "0" "3")) digit); plus space;
          Grp 2 (at_least 3 alpha); plus space; Grp 3 (exactly 4 digit); Eol false] ].

Definition month_map : list (string * Z) :=
  [("JAN", 1); ("FEB", 2); ("MAR", 3); ("APR", 4); ("MAY", 5); ("JUN", 6);
   ("JUL", 7); ("AUG", 8); ("SEP", 9); ("OCT", 10); ("NOV", 11); ("DEC", 12)].

(** The integer value of a captured group of digits. *)
Definition group_int (m : rematch) (n : nat) : Z :=
  match group m n with
  | Some s => match int_of_string s with Some z => z | None => 0 end
  | None => 0
  end.

Definition group_str (m : rematch) (n : nat) : string :=
  match group m n with
  | Some s => s
  | None => ""
  end.

(** The two-digit year window of the YYMMDD fallback: the current
    century when the year is at most 20 below the current two-digit
    year, the next century otherwise (second component: the pivot
    warning is recorded). *)
Definition sliding_pivot_year (today : date) (year_int : Z) : Z * bool :=
  let current_year_yy := year today mod 100 in
  let century := year today / 100 in
  if current_year_yy - 20 <=? year_int
  then (year_int + century * 100, false)
  else (year_int + (century + 1) * 100, true).

(** What the body of the [try] does for pattern [i] once it matched. *)
Inductive attempt : Type :=
| Parsed (d : date) (new_warnings : list string)
| Skipped                                  (* [continue] *)
| Failed (ve : string) (new_warnings : list string). (* [except ValueError as ve] *)

Definition try_pattern (today : date) (raw_date_str : string) (i : nat) (m : rematch)
  : attempt :=
  match i with
  | 0%nat | 1%nat =>
      match date_new (group_int m 3) (group_int m 2) (group_int m 1) with
      | Some d => Parsed d []
      | None =>
          match date_new (group_int m 3) (group_int m 1) (group_int m 2) with
          | Some d => Parsed d []
          | None => Skipped
          end
      end
  | 2%nat =>
      match date_new_err (group_int m 1) (group_int m 2) (group_int m 3) with
      | inr d => Parsed d []
      | inl ve => Failed ve []
      end
  | 3%nat =>
      let (full_year, pivoted) := sliding_pivot_year today (group_int m 1) in
      let ws := if pivoted
                then [("Applied pivot year rule to YYMMDD date '" ++ raw_date_str ++ "'")%string]
                else [] in
      match date_new_err full_year (group_int m 2) (group_int m 3) with
      | inr d => Parsed d ws
      | inl ve => Failed ve ws
      end
  | _ =>
      match dict_get month_map (upper (group_str m 2)) with
      | None => Skipped
      | Some month_int =>
          match date_new_err (group_int m 3) month_int (group_int m 1) with
          | inr d => Parsed d []
          | inl ve => Failed ve []
          end
      end
  end.

Definition regex_failure_warning (raw_date_str : string) (i : nat) (ve : string) : string :=
  ("Regex matched '" ++ raw_date_str ++ "' (pattern " ++ Z_str (Z.of_nat (S i))
   ++ ") but failed to create date object: " ++ ve)%string.

(** The loop over [regex_patterns]: it stops at the first pattern that
    produces a date. *)
Fixpoint regex_fallbacks (today : date) (raw_date_str : string) (i : nat)
  (patterns : list regex) (warnings : list string) : option date * list string :=
  match patterns with
  | [] => (None, warnings)
  | pattern :: patterns' =>
      match re_match pattern raw_date_str with
      | None => regex_fallbacks today raw_date_str (S i) patterns' warnings
      | Some m =>
          match try_pattern today raw_date_str i m with
          | Parsed d ws => (Some d, warnings ++ ws)
          | Skipped => regex_fallbacks today raw_date_str (S i) patterns' warnings
          | Failed ve ws =>
              regex_fallbacks today raw_date_str (S i) patterns'
                (warnings ++ ws ++ [regex_failure_warning raw_date_str i ve])
          end
      end
  end.

(** The final validation of a parsed date: rejected when earlier than
    [today - timedelta(days=1)], flagged when later than
    [today + timedelta(days=365*20)]. *)
Definition validate_parsed_date (today : date) (raw_date_str : string)
  (parsed_date : option date) (errors warnings : list string)
  : option date * list string * list string :=
  match parsed_date with
  | Some d =>
      if before_minus_days d today 1
      then (None, errors ++ [("Date " ++ date_str d ++ " is in the past")%string], warnings)
      else if after_plus_days d today (365 * 20)
           then (Some d, errors,
                 warnings ++ [("Suspiciously far future date: " ++ date_str d)%string])
           else (Some d, errors, warnings)
  | None =>
      (None,
       errors ++ [("Could not parse date from string '" ++ raw_date_str
                   ++ "' using any method.")%string],
       warnings)
  end.

Definition settings_pivot : dp_settings := mkSettings (Some false) "first".
Definition settings_fallback : dp_settings := mkSettings None "first".

Section ParseDate.

Variable dateparser_parse : dp_settings -> string -> exn + option date.

(** Returns [(parsed_date, errors, warnings)]. *)
Definition _parse_date_with_pivot_and_validation (today : date) (raw_date_str : string)
  : option date * list string * list string :=
  if negb (str_truthy raw_date_str)
  then (None, [("Invalid date string input: " ++ raw_date_str)%string], [])
  else
    let '(parsed_date, warnings) :=
      match dateparser_parse settings_pivot raw_date_str with
      | inr p => (p, [])
      | inl e =>
          (None, [("dateparser failed for '" ++ raw_date_str ++ "': " ++ exn_str e)%string])
      end in
    let '(parsed_date, warnings) :=
      match parsed_date with
      | Some d => (Some d, warnings)
      | None => regex_fallbacks today raw_date_str 0 regex_patterns warnings
      end in
    validate_parsed_date today raw_date_str parsed_date [] warnings.

End ParseDate.

(** ** _find_expiration_date *)

Definition MONTH_MAP : list (string * Z) :=
  [ (* English *)
    ("JAN", 1); ("FEB", 2); ("MAR", 3); ("APR", 4); ("MAY", 5); ("JUN", 6);
    ("JUL", 7); ("AUG", 8); ("SEP", 9); ("OCT", 10); ("NOV", 11); ("DEC", 12);
    (* Spanish *)
    ("ENE", 1); ("ABR", 4); ("AGO", 8); ("DIC", 12);
    (* German *)
    ("MÄR", 3); ("MAER", 3); ("OKT", 10); ("DEZ", 12);
    (* French (short) *)
    ("JANV", 1); ("FÉV", 2); ("FEV", 2); ("AVR", 4); ("JUIL", 7); ("AOÛ", 8);
    ("AOUT", 8) ].

(** [[\s\./\-]] *)
Definition loose_sep : regex :=
  Chr (fun c => is_space c || existsb (Ascii.eqb c) (chars_of "./-")).

Definition day_digits : regex := Seq (opt (range "0" "3")) digit.
Definition month_digits : regex := Seq (opt (range "0" "1")) digit.

(** (?P<d>[0-3]?\d)[\s\./\-](?P<m>[01]?\d)[\s\./\-](?P<y>\d{2,4}) *)
Definition FULL_NUM : regex :=
  seqs [Grp 1 day_digits; loose_sep; Grp 2 month_digits; loose_sep;
        Grp 3 (times 2 4 digit)].

(** (?P<d>[0-3]?\d)?[\s\-\/\.]?(?P<mname>[A-Z]{3,5})[\s\-\/\.]?(?P<y>\d{2,4}),
    case-insensitive *)
Definition NAME_MID : regex :=
  seqs [opt (Grp 1 day_digits); opt loose_sep; Grp 2 (times 3 5 alpha);
        opt loose_sep; Grp 3 (times 2 4 digit)].

(** \b(20\d{2})\b *)
Definition YEAR_ONLY : regex :=
  seqs [WordB; Grp 1 (Seq (lit "20") (exactly 2 digit)); WordB].

(** (?P<d>[0-3]?\d)\s+(?P<mname>[A-Z]{3,5})\s+(?P<y>\d{4}), case-insensitive *)
Definition DD_MON_YYYY : regex :=
  seqs [Grp 1 day_digits; plus space; Grp 2 (times 3 5 alpha); plus space;
        Grp 3 (exactly 4 digit)].

Definition KEYWORDS : list string :=
  ["EXP"; "EXPIRES"; "EXPIRY"; "EXPIRATION"; "VALID UNTIL"; "VALID THRU";
   "VÁLIDO HASTA"; "GÜLTIG BIS"; "VIGENCIA"].

Definition KEYWORD_RE : regex := alts (map lit_i KEYWORDS).

(** \b(\d{1,2}[\s\./-][A-Za-z]{3,}|\d{1,2}[\s\./-]\d{1,2}[\s\./-]\d{2,4}|[A-Za-z]{3,}\s+\d{4}|\d{4})\b *)
Definition date_like_re : regex :=
  seqs [WordB;
        Grp 1 (alts [seqs [times 1 2 digit; loose_sep; at_least 3 alpha];
                     seqs [times 1 2 digit; loose_sep; times 1 2 digit; loose_sep;
                           times 2 4 digit];
                     seqs [at_least 3 alpha; plus space; exactly 4 digit];
                     exactly 4 digit]);
        WordB].

(** [_clean]: [re.sub(r'\s+', ' ', text)]. *)
Fixpoint clean_chars (l : chars) (in_space : bool) : chars :=
  match l with
  | [] => []
  | c :: l' =>
      if is_space c
      then if in_space then clean_chars l' true else " "%char :: clean_chars l' true
      else c :: clean_chars l' false
  end.

Definition _clean (text : string) : string := string_of (clean_chars (chars_of text) false).

(** [_normalize_month_name]: the key is the name stripped of diacritics
    and upper-cased; on the ASCII letters the patterns capture that is
    [upper]. *)
Definition _normalize_month_name (s : string) : option Z := dict_get MONTH_MAP (upper s).

(** The year expansion inside [_build_date]. *)
Definition build_date_year (y : Z) (today : date) : Z :=
  if y <? 100
  then y + (if y <=? year today mod 100 + 10 then 2000 else 1900)
  else y.

Definition _build_date (d m y : Z) (today : date) : option date :=
  match date_new (build_date_year y today) m d with
  | Some dt => if date_ltb today dt then Some dt else None
  | None => None
  end.

(** The result of [_find_expiration_date]: a date, a bare year, or
    [None]. *)
Inductive expiry : Type :=
| ExpDate (d : date)
| ExpYear (y : Z)
| ExpNone.

(** "\n".join(lines) *)
Fixpoint join_nl (lines : list chars) : chars :=
  match lines with
  | [] => []
  | [l] => l
  | l :: ls => l ++ newline :: join_nl ls
  end.

(** Stage 1: the MRZ value, when it is a string of length 6. *)
Definition stage_mrz (mrz : option (list (string * option string))) (today : date)
  : option date :=
  match mrz with
  | Some (entry :: entries) =>
      match dict_get (entry :: entries) "expiration_date" with
      | Some (Some mrz_date) =>
          if (String.length mrz_date =? 6)%nat then
            match int_of_string (slice mrz_date 0 2), int_of_string (slice mrz_date 2 4),
                  int_of_string (slice mrz_date 4 6) with
            | Some y, Some m, Some d => _build_date d m y today
            | _, _, _ => None
            end
          else None
      | _ => None
      end
  | _ => None
  end.

(** Stage 2: the first DD MON YYYY match that builds a future date. *)
Fixpoint first_dd_mon_yyyy (ms : list rematch) (today : date) : option date :=
  match ms with
  | [] => None
  | m :: ms' =>
      match _normalize_month_name (group_str m 2) with
      | Some mo =>
          match _build_date (group_int m 1) mo (group_int m 3) today with
          | Some dt => Some dt
          | None => first_dd_mon_yyyy ms' today
          end
      | None => first_dd_mon_yyyy ms' today
      end
  end.

Definition stage_dd_mon_yyyy (text : string) (today : date) : option date :=
  first_dd_mon_yyyy (re_finditer DD_MON_YYYY text) today.

(** Stage 3, on one keyword line: the block of up to 4 lines is tried
    with FULL_NUM, NAME_MID and YEAR_ONLY in turn. *)
Definition try_block (block : string) (today : date) : expiry :=
  let full :=
    match re_search FULL_NUM block with
    | Some m => _build_date (group_int m 1) (group_int m 2) (group_int m 3) today
    | None => None
    end in
  match full with
  | Some dt => ExpDate dt
  | None =>
      let named :=
        match re_search NAME_MID block with
        | Some m =>
            let d := match group m 1 with
                     | Some s => if str_truthy s then group_int m 1 else 1
                     | None => 1
                     end in
            match _normalize_month_name (group_str m 2) with
            | Some mo => _build_date d mo (group_int m 3) today
            | None => None
            end
        | None => None
        end in
      match named with
      | Some dt => ExpDate dt
      | None =>
          match re_search YEAR_ONLY block with
          | Some m =>
              let y := group_int m 1 in
              if (year today <? y) && (y <=? year today + 20) then ExpYear y else ExpNone
          | None => ExpNone
          end
      end
  end.

Fixpoint scan_lines (lines : list chars) (today : date) : expiry :=
  match lines with
  | [] => ExpNone
  | line :: lines' =>
      match re_search KEYWORD_RE (string_of line) with
      | Some _ =>
          match try_block (_clean (string_of (join_nl (firstn 4 lines)))) today with
          | ExpNone => scan_lines lines' today
          | found => found
          end
      | None => scan_lines lines' today
      end
  end.

Definition stage_keyword_window (text : string) (today : date) : expiry :=
  scan_lines (split_nl (chars_of text)) today.

(** [max] of a non-empty collection of dates. *)
Definition furthest (d : date) (ds : list date) : date := fold_left date_max ds d.

Section FindExpirationDate.

Variable dateparser_parse : dp_settings -> string -> exn + option date.

(** Stage 4, first loop: every date-like substring is parsed and kept
    when strictly after today. An exception of the parser propagates. *)
Fixpoint parse_candidates (ms : list rematch) (today : date) : exn + list date :=
  match ms with
  | [] => inr []
  | m :: ms' =>
      match dateparser_parse settings_fallback (m_text m) with
      | inl e => inl e
      | inr parsed =>
          match parse_candidates ms' today with
          | inl e => inl e
          | inr ds =>
              match parsed with
              | Some dt => if date_ltb today dt then inr (dt :: ds) else inr ds
              | None => inr ds
              end
          end
      end
  end.

(** Stage 4, second loop: a bare year within 20 years adds 31 December
    of it, only while no candidate has been found. *)
Fixpoint add_year_candidates (ms : list rematch) (today : date) (cands : list date)
  : list date :=
  match ms with
  | [] => cands
  | m :: ms' =>
      let y := group_int m 1 in
      let cands' :=
        if (year today <? y) && (y <=? year today + 20)
        then match cands with
             | [] => [mkdate y 12 31]
             | _ => cands
             end
        else cands in
      add_year_candidates ms' today cands'
  end.

Definition stage_fallback (text : string) (today : date) : exn + expiry :=
  match parse_candidates (re_finditer date_like_re text) today with
  | inl e => inl e
  | inr parsed =>
      match add_year_candidates (re_finditer YEAR_ONLY text) today parsed with
      | [] => inr ExpNone
      | d :: ds => inr (ExpDate (furthest d ds))
      end
  end.

Definition _find_expiration_date (text : string) (doc_type : string)
  (mrz : option (list (string * option string))) (today : date) : exn + expiry :=
  match stage_mrz mrz today with
  | Some dt => inr (ExpDate dt)
  | None =>
      match stage_dd_mon_yyyy text today with
      | Some dt => inr (ExpDate dt)
      | None =>
          match stage_keyword_window text today with
          | ExpNone => stage_fallback text today
          | found => inr found
          end
      end
  end.

End FindExpirationDate.

(** ** MRZData and the strategy objects *)

Record MRZData : Type := mkMRZ {
  document_type : option string;
  country_code : option string;
  mrz_number : option string;              (* [number] *)
  mrz_expiration_date : option date;       (* [expiration_date] *)
  expiration_date_str : option string
}.

Inductive strategy_class : Type :=
| MRZStrategy
| ESPassportStrategy
| EGYPassportStrategy
| USPassportStrategy
| VisaStrategy
| EUGenericStrategy
| GenericStrategy
| IDCardStrategy.

Definition class_name (c : strategy_class) : string :=
  match c with
  | MRZStrategy => "MRZStrategy"
  | ESPassportStrategy => "ESPassportStrategy"
  | EGYPassportStrategy => "EGYPassportStrategy"
  | USPassportStrategy => "USPassportStrategy"
  | VisaStrategy => "VisaStrategy"
  | EUGenericStrategy => "EUGenericStrategy"
  | GenericStrategy => "GenericStrategy"
  | IDCardStrategy => "IDCardStrategy"
  end.

Definition class_eqb (a b : strategy_class) : bool :=
  String.eqb (class_name a) (class_name b).

(** Strategy instances live in a heap and are named by their address;
    [_fallback_strategy] holds an address or [None]. *)
Definition ref := nat.

Record strategy : Type := mkStrategy {
  cls : strategy_class;
  _validation_errors : list string;
  _warnings : list string;
  _confidence : float;
  _fallback_strategy : option ref
}.

Definition heap := list strategy.

(** [DocumentExtractionStrategy.__init__] *)
Definition strategy_init (c : strategy_class) : strategy := mkStrategy c [] [] 1 None.

(** Instantiation [C()]: the new object gets the next free address. *)
Definition new_strategy (c : strategy_class) (h : heap) : ref * heap :=
  (List.length h, h ++ [strategy_init c]).

Fixpoint heap_update (h : heap) (r : ref) (f : strategy -> strategy) : heap :=
  match h, r with
  | [], _ => []
  | o :: h', O => f o :: h'
  | o :: h', S r' => o :: heap_update h' r' f
  end.

Definition set_fallback (target : option ref) (o : strategy) : strategy :=
  mkStrategy (cls o) (_validation_errors o) (_warnings o) (_confidence o) target.

(** [self.add_fallback_strategy(strategy)]: one assignment to
    [self._fallback_strategy]. *)
Definition add_fallback_strategy (self : ref) (strategy : ref) (h : heap) : heap :=
  heap_update h self (set_fallback (Some strategy)).

Definition fallback_of (h : heap) (r : ref) : option ref :=
  match nth_error h r with
  | Some o => _fallback_strategy o
  | None => None
  end.

Definition class_of (h : heap) (r : ref) : option strategy_class :=
  option_map cls (nth_error h r).

(** [DocumentExtractionStrategy.add_error] / [add_warning] *)
Definition strategy_add_error (o : strategy) (error : string) : strategy :=
  mkStrategy (cls o) (_validation_errors o ++ [error]) (_warnings o)
             (float_max 0 (_confidence o - 0.2)) (_fallback_strategy o).

Definition strategy_add_warning (o : strategy) (warning : string) : strategy :=
  mkStrategy (cls o) (_validation_errors o) (_warnings o ++ [warning])
             (float_max 0 (_confidence o - 0.1)) (_fallback_strategy o).

(** [for err in errors: self.add_error(err)] followed by
    [for warn in warnings: self.add_warning(warn)]. *)
Definition record_all (o : strategy) (errors warnings : list string) : strategy :=
  fold_left strategy_add_warning warnings (fold_left strategy_add_error errors o).

(** [DocumentExtractionStrategy._create_result] *)
Definition _create_result (o : strategy) (number : option string)
  (issued_country : option string) (expiration_date : option date) : ExtractionResult :=
  mkResult number issued_country expiration_date (_confidence o)
           (_validation_errors o) (_warnings o).

(** [DocumentExtractionStrategy._validate_input]: [Some] is the
    [ValueError] raised. [mrz_data] is an [MRZData] or [None] by its type. *)
Definition _validate_input (text : string) (mrz_data : option MRZData) : option exn :=
  if str_truthy text then None else Some (ValueError "text must be a non-empty string").

Fixpoint all_chars (p : ascii -> bool) (l : chars) : bool :=
  match l with
  | [] => true
  | c :: l' => p c && all_chars p l'
  end.

(** [DocumentExtractionStrategy._validate_country_code] (the base
    version, which the passport strategies inherit). [isalpha] and
    [isupper] are taken on ASCII text. *)
Definition _validate_country_code (o : strategy) (country_code : string) : bool * strategy :=
  let l := chars_of country_code in
  if negb (str_truthy country_code)
  then (false, strategy_add_error o "Invalid country code type")
  else if negb (List.length l =? 3)%nat
  then (false, strategy_add_error o
                 ("Invalid country code length: " ++ Z_str (Z.of_nat (List.length l)))%string)
  else if negb (all_chars is_alpha l)
  then (false, strategy_add_error o
                 ("Country code contains non-letters: " ++ country_code)%string)
  else if negb (all_chars is_upper l)
  then (false, strategy_add_error o ("Country code not uppercase: " ++ country_code)%string)
  else (true, o).

(** ^[A-Z0-9]{lo,hi}$ and ^[0-9]{8,9}$ *)
Definition number_format (lo hi : nat) : regex :=
  seqs [Bol false; times lo hi upper_or_digit; Eol false].

Definition visa_number_format : regex := seqs [Bol false; times 8 9 (range "0" "9"); Eol false].

Definition is_match (r : regex) (s : string) : bool :=
  match re_match r s with
  | Some _ => true
  | None => false
  end.

(** [len(number) > 2 and len(set(number)) == 1 and number.isdigit()] *)
Definition all_same_digit (number : string) : bool :=
  match chars_of number with
  | c :: l => (2 <? List.length (c :: l))%nat && all_chars (Ascii.eqb c) l && is_digit c
  | [] => false
  end.

(** [_looks_valid_number]: [(is_valid, errors, warnings)]. *)
Definition _looks_valid_number (number doc_type : string) : bool * list string * list string :=
  if negb (str_truthy number)
  then (false, [("Invalid number: " ++ number)%string], [])
  else if negb (str_truthy (strip number))
  then (false, ["Number is empty or whitespace"], [])
  else if all_same_digit number
  then (false, [("Number contains all same digits: " ++ number)%string], [])
  else if String.eqb doc_type "passport"
  then if is_match (number_format 6 10) number then (true, [], [])
       else (false, [("Invalid passport number format: " ++ number)%string], [])
  else if String.eqb doc_type "id_card"
  then if is_match (number_format 6 12) number then (true, [], [])
       else (false, [("Invalid ID card number format: " ++ number)%string], [])
  else if String.eqb doc_type "visa"
  then if is_match visa_number_format number then (true, [], [])
       else (false, [("Invalid visa number format: " ++ number)%string], [])
  else if String.eqb doc_type "generic"
  then if is_match (number_format 6 12) number then (true, [], [])
       else (true, [], [("Number format may be invalid: " ++ number)%string])
  else (true, [], []).

(** ** Attribute lookup and the dataclass constructor *)

(** The Python values that reach an attribute or a keyword argument. *)
Inductive pyval : Type :=
| PyNone
| PyStr (s : string)
| PyDate (d : date)
| PyFloat (f : float)
| PyStrList (l : list string)
| PyRef (r : ref)
| PyClassAttr (name : string).

(** The names defined in the body of [DocumentExtractionStrategy]. *)
Definition base_class_attributes : list string :=
  ["add_fallback_strategy"; "chain_strategies"; "_merge_results"; "_validate_input";
   "_validate_country_code"; "_validate_document_number"; "_validate_date";
   "add_error"; "add_warning"; "_create_result"; "extract"; "_score_candidate";
   "_parse_date_with_pivot_and_validation"].

(** The names each subclass adds in its own body. *)
Definition own_class_attributes (c : strategy_class) : list string :=
  match c with
  | MRZStrategy => []
  | ESPassportStrategy => ["_NUM_RE"; "_EXP_RE"]
  | EGYPassportStrategy => ["_NUM_RE"; "_EXP_RE"; "_MRZ_LINE_RE"]
  | USPassportStrategy => []
  | VisaStrategy => ["_COUNTRY_PATTERNS"; "_FUZZY_COUNTRY_KEYWORDS"; "_NUMBER_PATTERNS"]
  | EUGenericStrategy => ["_NUM_RE"; "_EXP_RE"]
  | GenericStrategy => ["_NUM_PATTERNS"]
  | IDCardStrategy =>
      ["_COUNTRY_PATTERNS"; "_FUZZY_COUNTRY_KEYWORDS"; "_NUMBER_PATTERNS_COUNTRY_SPECIFIC";
       "_NUMBER_FALLBACK_PATTERN"]
  end.

Definition opt_ref_val (o : option ref) : pyval :=
  match o with
  | Some r => PyRef r
  | None => PyNone
  end.

(** [getattr(self, name)] on a strategy instance: the four instance
    attributes set by [__init__], then the names of its class and of the
    base class; anything else raises [AttributeError]. (The names every
    Python object inherits from [object] and [ABC] are special names and
    are left out.) *)
Definition strategy_getattr (self : strategy) (name : string) : exn + pyval :=
  if String.eqb name "_validation_errors" then inr (PyStrList (_validation_errors self))
  else if String.eqb name "_warnings" then inr (PyStrList (_warnings self))
  else if String.eqb name "_confidence" then inr (PyFloat (_confidence self))
  else if String.eqb name "_fallback_strategy" then inr (opt_ref_val (_fallback_strategy self))
  else if existsb (String.eqb name) (own_class_attributes (cls self) ++ base_class_attributes)
  then inr (PyClassAttr name)
  else inl (AttributeError name).

(** The fields of the dataclass [ExtractionResult], none with a default. *)
Definition ExtractionResult_fields : list string :=
  ["number"; "issued_country"; "expiration_date"; "confidence"; "validation_errors";
   "warnings"].

Definition as_opt_str (v : pyval) : option (option string) :=
  match v with
  | PyNone => Some None
  | PyStr s => Some (Some s)
  | _ => None
  end.

Definition as_opt_date (v : pyval) : option (option date) :=
  match v with
  | PyNone => Some None
  | PyDate d => Some (Some d)
  | _ => None
  end.

(** The call [ExtractionResult(...)] with keyword arguments: an argument that names no
    field, or a field left without argument, raises [TypeError]. The
    dataclass stores its arguments unchecked; a value outside the
    declared field type is not a value of the record and is reported as
    [OtherError] (no call of the source passes one). *)
Definition ExtractionResult_new (kwargs : list (string * pyval)) : exn + ExtractionResult :=
  match find (fun kv => negb (existsb (String.eqb (fst kv)) ExtractionResult_fields)) kwargs with
  | Some (k, _) =>
      inl (TypeError ("got an unexpected keyword argument '" ++ k ++ "'")%string)
  | None =>
      match find (fun f => match dict_get kwargs f with None => true | Some _ => false end)
                 ExtractionResult_fields with
      | Some f =>
          inl (TypeError ("missing required argument '" ++ f ++ "'")%string)
      | None =>
          match option_map as_opt_str (dict_get kwargs "number"),
                option_map as_opt_str (dict_get kwargs "issued_country"),
                option_map as_opt_date (dict_get kwargs "expiration_date"),
                dict_get kwargs "confidence",
                dict_get kwargs "validation_errors",
                dict_get kwargs "warnings" with
          | Some (Some n), Some (Some c), Some (Some d), Some (PyFloat f),
            Some (PyStrList es), Some (PyStrList ws) => inr (mkResult n c d f es ws)
          | _, _, _, _, _, _ => inl (OtherError "field value outside the declared type")
          end
      end
  end.

Definition opt_str_val (o : option string) : pyval :=
  match o with
  | Some s => PyStr s
  | None => PyNone
  end.

Definition opt_date_val (o : option date) : pyval :=
  match o with
  | Some d => PyDate d
  | None => PyNone
  end.

(** ** The extract methods

    A method of a strategy reads and updates the bookkeeping of [self]
    and may raise: a computation in the monad [M]. *)

Definition M (A : Type) : Type := strategy -> exn + (A * strategy).

Definition ret {A : Type} (a : A) : M A := fun self => inr (a, self).

Definition bind {A B : Type} (c : M A) (k : A -> M B) : M B :=
  fun self =>
    match c self with
    | inl e => inl e
    | inr (a, self') => k a self'
    end.

Definition raise {A : Type} (e : exn) : M A := fun _ => inl e.

(** A statement that only updates [self]. *)
Definition update (f : strategy -> strategy) : M unit := fun self => inr (tt, f self).

(** The evaluation of an expression that may raise. *)
Definition eval {A : Type} (f : strategy -> exn + A) : M A :=
  fun self =>
    match f self with
    | inl e => inl e
    | inr a => inr (a, self)
    end.

Declare Scope py_scope.
Delimit Scope py_scope with py.
Notation "x <- c ;; k" := (bind c (fun x => k))
  (at level 61, c at next level, right associativity) : py_scope.
Notation "c ;;; k" := (bind c (fun _ => k))
  (at level 61, right associativity) : py_scope.

(** P<USA.*?<<.*?<<.*?$ with re.MULTILINE *)
Definition US_MRZ_LINE : regex :=
  seqs [lit "P<USA"; lazy_star any_char; lit "<<"; lazy_star any_char; lit "<<";
        lazy_star any_char; Eol true].

(** \b[A-Z]\d{8}\b *)
Definition US_NUMBER : regex := seqs [WordB; upper_AZ; exactly 8 digit; WordB].

(** \d{2}(\d{2})(\d{2})(\d{2}) *)
Definition US_EXPIRY : regex :=
  seqs [exactly 2 digit; Grp 1 (exactly 2 digit); Grp 2 (exactly 2 digit);
        Grp 3 (exactly 2 digit)].

(** [text[i:]] *)
Definition suffix_from (text : string) (i : nat) : string :=
  string_of (skipn i (chars_of text)).

Section Strategies.

Variable dateparser_parse : dp_settings -> string -> exn + option date.
Variable today : date.

(** The validation of a candidate number as a passport number, with its
    errors and warnings recorded on [self]: the candidate when valid. *)
Definition checked_passport_number (candidate : string) : M (option string) :=
  fun self =>
    let '(is_valid, errors, warnings) := _looks_valid_number candidate "passport" in
    inr (if is_valid then Some candidate else None, record_all self errors warnings).

(** [_parse_date_with_pivot_and_validation] with its errors and
    warnings recorded on [self]. *)
Definition recorded_parse_date (raw_date_str : string) : M (option date) :=
  fun self =>
    let '(parsed_date, errors, warnings) :=
      _parse_date_with_pivot_and_validation dateparser_parse today raw_date_str in
    inr (parsed_date, record_all self errors warnings).

Definition first_some {A : Type} (a b : option A) : option A :=
  match a with
  | Some _ => a
  | None => b
  end.

(** Step 1 of [USPassportStrategy.extract]: the MRZ record. *)
Definition us_from_mrz (mrz_data : option MRZData) : M (option string * option date) :=
  match mrz_data with
  | None => ret (None, None)
  | Some mrz =>
      (number <-
         (if opt_str_truthy (mrz_number mrz)
          then checked_passport_number (match mrz_number mrz with Some n => n | None => "" end)
          else ret None) ;;
       expiration_date <-
         (match mrz_expiration_date mrz with
          | Some d => ret (Some d)
          | None =>
              if opt_str_truthy (expiration_date_str mrz)
              then recorded_parse_date
                     (match expiration_date_str mrz with Some s => s | None => "" end)
              else ret None
          end) ;;
       ret (number, expiration_date))%py
  end.

(** Step 2: the MRZ line found in the text, and the line after it. *)
Definition us_from_text (text : string) (number : option string)
  (expiration_date : option date) : M (option string * option date) :=
  match opt_str_truthy number, expiration_date with
  | true, Some _ => ret (number, expiration_date)
  | _, _ =>
      match re_search US_MRZ_LINE text with
      | None => ret (number, expiration_date)
      | Some mrz_match =>
          let lines := splitlines (suffix_from text (m_end mrz_match)) in
          let next_line := match lines with l :: _ => strip l | [] => "" end in
          (number <-
             (match re_search US_NUMBER next_line with
              | Some num_match =>
                  checked <- checked_passport_number (m_text num_match) ;;
                  ret (first_some checked number)
              | None => ret number
              end) ;;
           expiration_date <-
             (match expiration_date with
              | Some _ => ret expiration_date
              | None =>
                  match re_search US_EXPIRY next_line with
                  | Some exp_match =>
                      recorded_parse_date
                        (group_str exp_match 1 ++ group_str exp_match 2
                         ++ group_str exp_match 3)%string
                  | None => ret None
                  end
              end) ;;
           ret (number, expiration_date))%py
      end
  end.

(** [USPassportStrategy.extract]. The [return] statement evaluates its
    keyword arguments left to right and then calls the constructor. *)
Definition USPassportStrategy_extract (text : string) (mrz_data : option MRZData)
  (file_path : option string) : M ExtractionResult :=
  match _validate_input text mrz_data with
  | Some e => raise e
  | None =>
      (fields <- us_from_mrz mrz_data ;;
       fields <- us_from_text text (fst fields) (snd fields) ;;
       let issued_country := "USA" in
       update (fun self => snd (_validate_country_code self issued_country)) ;;;
       errors <- eval (fun self => strategy_getattr self "errors") ;;
       warnings <- eval (fun self => strategy_getattr self "warnings") ;;
       eval (fun _ =>
               ExtractionResult_new
                 [("number", opt_str_val (fst fields));
                  ("expiration_date", opt_date_val (snd fields));
                  ("issued_country", PyStr issued_country);
                  ("errors", errors);
                  ("warnings", warnings)]))%py
  end.

(** The [extract] methods of the other classes call the OCR text
    resolvers, the MRZ reader and the country table; they are a
    parameter. *)
Variable extract_other :
  strategy_class -> string -> option MRZData -> option string -> M ExtractionResult.

(** Method dispatch on the class of [self]. *)
Definition extract (c : strategy_class) : string -> option MRZData -> option string ->
                                        M ExtractionResult :=
  match c with
  | USPassportStrategy => USPassportStrategy_extract
  | _ => extract_other c
  end.

(** An [extract] method assigns the bookkeeping attributes of [self]
    only: the class and the fallback link keep their values. *)
Definition keep_links (old new : strategy) : strategy :=
  mkStrategy (cls old) (_validation_errors new) (_warnings new) (_confidence new)
             (_fallback_strategy old).

(** The [while strategy:] loop of [chain_strategies]. The result is
    [None] when the fuel runs out (a cyclic chain never ends); otherwise
    the addresses on which [extract] was called, in order, and either the
    exception that escaped or the list of results with the final heap. *)
Fixpoint chain_loop (fuel : nat) (text : string) (mrz_data : option MRZData)
  (file_path : option string) (h : heap) (strategy : option ref)
  (results : list ExtractionResult) (calls : list ref)
  : option (list ref * (exn + (list ExtractionResult * heap))) :=
  match strategy with
  | None => Some (calls, inr (results, h))
  | Some r =>
      match fuel with
      | O => None
      | S fuel' =>
          match nth_error h r with
          | None => Some (calls, inl (OtherError "dangling reference"))
          | Some o =>
              match extract (cls o) text mrz_data file_path o with
              | inl e => Some (calls ++ [r], inl e)
              | inr (result, o') =>
                  chain_loop fuel' text mrz_data file_path
                    (heap_update h r (fun _ => keep_links o o'))
                    (_fallback_strategy o) (results ++ [result]) (calls ++ [r])
              end
          end
      end
  end.

(** [merged = results[0]; for r in results[1:]: merged = _merge_results(merged, r)] *)
Definition merge_all (results : list ExtractionResult) : option ExtractionResult :=
  match results with
  | [] => None
  | r0 :: rs => Some (fold_left _merge_results rs r0)
  end.

(** [self.chain_strategies(text, mrz_data, file_path)] *)
Definition chain_strategies (fuel : nat) (h : heap) (self : ref) (text : string)
  (mrz_data : option MRZData) (file_path : option string)
  : option (list ref * (exn + (ExtractionResult * heap))) :=
  match chain_loop fuel text mrz_data file_path h (Some self) [] [] with
  | None => None
  | Some (calls, inl e) => Some (calls, inl e)
  | Some (calls, inr (results, h')) =>
      match merge_all results with
      | Some merged => Some (calls, inr (merged, h'))
      | None => Some (calls, inl (OtherError "IndexError"))
      end
  end.

(** [extract_with_country_overwrite] *)
Definition country_strategies : list (string * strategy_class) :=
  [("EGY", EGYPassportStrategy); ("ESP", ESPassportStrategy); ("USA", USPassportStrategy)].

Definition extract_with_country_overwrite (text : string) (mrz_data : option MRZData)
  : exn + ExtractionResult :=
  match extract MRZStrategy text mrz_data None (strategy_init MRZStrategy) with
  | inl e => inl e
  | inr (mrz_result, _) =>
      match extract GenericStrategy text mrz_data None (strategy_init GenericStrategy) with
      | inl e => inl e
      | inr (generic_result, _) =>
          let merged := _merge_results mrz_result generic_result in
          match issued_country merged with
          | None => inr merged
          | Some country =>
              match dict_get country_strategies country with
              | None => inr merged
              | Some c =>
                  match extract c text mrz_data None (strategy_init c) with
                  | inl e => inl e
                  | inr (country_result, _) =>
                      inr (mkResult
                             (or_str (number country_result) (number merged))
                             (or_str (issued_country country_result) (issued_country merged))
                             (or_date (expiration_date country_result)
                                      (expiration_date merged))
                             (float_min (confidence merged) (confidence country_result))
                             (validation_errors merged ++ validation_errors country_result)
                             (warnings merged ++ warnings country_result))
                  end
              end
          end
      end
  end.

End Strategies.

(** ** get_strategy *)

Definition STRATEGY_REGISTRY : list (string * strategy_class) :=
  [("MRZ", MRZStrategy); ("ESP", ESPassportStrategy); ("EGY", EGYPassportStrategy);
   ("EU", EUGenericStrategy); ("USA", USPassportStrategy); ("GEN", GenericStrategy);
   ("VISA", VisaStrategy); ("ID", IDCardStrategy)].

(** [get_strategy(doc_type)]: the address of the strategy returned and
    the heap with the objects it created. [STRATEGY_REGISTRY["VISA"]],
    [["ID"]] and [["GEN"]] are written as the classes they hold. *)
Definition get_strategy (doc_type : string) (h : heap) : ref * heap :=
  let doc_type_lower := lower doc_type in
  if String.eqb doc_type_lower "passport" then
    let '(mrz, h) := new_strategy MRZStrategy h in
    let '(es, h) := new_strategy ESPassportStrategy h in
    let h := add_fallback_strategy mrz es h in
    let '(egy, h) := new_strategy EGYPassportStrategy h in
    let h := add_fallback_strategy mrz egy h in
    let '(eu, h) := new_strategy EUGenericStrategy h in
    let h := add_fallback_strategy mrz eu h in
    let '(us, h) := new_strategy USPassportStrategy h in
    let h := add_fallback_strategy mrz us h in
    let '(gen, h) := new_strategy GenericStrategy h in
    let h := add_fallback_strategy mrz gen h in
    (mrz, h)
  else if String.eqb doc_type_lower "visa" then new_strategy VisaStrategy h
  else if existsb (String.eqb doc_type_lower) ["id"; "id_card"; "drivers_license"]
  then new_strategy IDCardStrategy h
  else match dict_get STRATEGY_REGISTRY doc_type with
       | Some c => new_strategy c h
       | None => new_strategy GenericStrategy h
       end.

(** The nodes a chain started at [start] goes through, following the
    fallback links ([None]: more than [fuel] nodes). *)
Fixpoint chain_nodes (fuel : nat) (h : heap) (start : option ref) : option (list ref) :=
  match start with
  | None => Some []
  | Some r =>
      match fuel with
      | O => None
      | S fuel' => option_map (cons r) (chain_nodes fuel' h (fallback_of h r))
      end
  end.

(** ** The final selection of the country resolver *)

(** A candidate [(value, score, source)]. *)
Definition candidate : Type := string * float * string.

Definition cand_value (x : candidate) : string := fst (fst x).
Definition cand_score (x : candidate) : float := snd (fst x).
Definition cand_source (x : candidate) : string := snd x.

(** [lambda x: (x[1], x[2] != "MRZ", x[2] != "Header", x[2] != "Context")] *)
Definition sort_key (x : candidate) : float * bool * bool * bool :=
  (cand_score x,
   negb (String.eqb (cand_source x) "MRZ"),
   negb (String.eqb (cand_source x) "Header"),
   negb (String.eqb (cand_source x) "Context")).

(** [a < b] on [bool]: [False < True]. *)
Definition bool_lt (a b : bool) : bool := negb a && b.

(** [k1 < k2] on the key tuples: the first position where the two
    differ (by [==]) decides (by [<]). *)
Definition key_lt (k1 k2 : float * bool * bool * bool) : bool :=
  let '(s1, a1, b1, c1) := k1 in
  let '(s2, a2, b2, c2) := k2 in
  if negb (PrimFloat.eqb s1 s2) then PrimFloat.ltb s1 s2
  else if negb (Bool.eqb a1 a2) then bool_lt a1 a2
  else if negb (Bool.eqb b1 b2) then bool_lt b1 b2
  else if negb (Bool.eqb c1 c2) then bool_lt c1 c2
  else false.

(** [list.sort(key=..., reverse=True)] is stable: the result is in
    descending key order and candidates with equal keys keep their
    order. Each candidate is placed before the first one already placed
    whose key is strictly smaller. *)
Fixpoint insert_desc (x : candidate) (sorted : list candidate) : list candidate :=
  match sorted with
  | [] => [x]
  | y :: sorted' =>
      if key_lt (sort_key y) (sort_key x) then x :: y :: sorted'
      else y :: insert_desc x sorted'
  end.

Definition sort_candidates (country_candidates : list candidate) : list candidate :=
  fold_left (fun sorted x => insert_desc x sorted) country_candidates [].

(** [issued_country = country_candidates[0][0]] after the sort; [None]
    when there is no candidate. *)
Definition select_country (country_candidates : list candidate) : option string :=
  match sort_candidates country_candidates with
  | [] => None
  | best :: _ => Some (cand_value best)
  end.

(** ** MRZStrategy.extract: the expiration date of the MRZ reader *)

(** [year += 2000 if year < 50 else 1900] *)
Definition mrz_pivot_year (year : Z) : Z := year + (if year <? 50 then 2000 else 1900).

(** The block guarded by [if exp_str:] (lines 489-506): the YYMMDD
    string of the MRZ reader becomes a date, or [None] when any step
    raises. [_validate_date] accepts every [date]. *)
Definition MRZStrategy_expiration (exp_str : string) : option date :=
  if str_truthy exp_str then
    match int_of_string (slice exp_str 0 2), int_of_string (slice exp_str 2 4),
          int_of_string (slice exp_str 4 6) with
    | Some year, Some month, Some day => date_new (mrz_pivot_year year) month day
    | _, _, _ => None
    end
  else None.

(** ** _pipeline_extract and its temporary files *)

(** The temporary directory: the files that exist and the next fresh
    name. *)
Record fs_state : Type := mkFs { files : list nat; next_name : nat }.

(** [tempfile.NamedTemporaryFile(delete=False)]: a new file that stays
    after it is closed. *)
Definition mktemp (fs : fs_state) : nat * fs_state :=
  (next_name fs, mkFs (next_name fs :: files fs) (S (next_name fs))).

Definition exists_file (p : nat) (fs : fs_state) : bool := existsb (Nat.eqb p) (files fs).

Definition delete_file (p : nat) (fs : fs_state) : fs_state :=
  mkFs (filter (fun q => negb (Nat.eqb p q)) (files fs)) (next_name fs).

(** [os.remove(p)] inside [try: ... except Exception: (log)]: the file
    is removed when it exists, and a failure is only logged. *)
Definition try_remove (p : nat) (fs : fs_state) : fs_state :=
  if exists_file p fs then delete_file p fs else fs.

(** What [filetype.guess] reports. *)
Inductive file_kind : Type :=
| ImageKind
| PdfKind
| OtherKind.

(** The final payload. *)
Record payload : Type := mkPayload {
  p_number : option string;
  p_document_country : option string;
  p_expiration_date : option date;
  p_confidence : float;
  p_validation_errors : list string;
  p_warnings : list string
}.

(** [getattr(result, 'document_country', None) or getattr(result,
    'issued_country', None) or getattr(result, 'country', None)]: an
    [ExtractionResult] has neither [document_country] nor [country]. *)
Definition payload_of (result : ExtractionResult) : payload :=
  mkPayload (number result)
            (or_str (or_str None (issued_country result)) None)
            (expiration_date result) (confidence result)
            (validation_errors result) (warnings result).

Definition get_str (d : list (string * pyval)) (key : string) : option string :=
  match dict_get d key with
  | Some (PyStr s) => Some s
  | _ => None
  end.

Definition get_date (d : list (string * pyval)) (key : string) : option date :=
  match dict_get d key with
  | Some (PyDate dt) => Some dt
  | _ => None
  end.

(** Step 2: the [MRZData] built from the caller's dictionary (an empty
    dictionary is falsy). The fields are read at their declared types; a
    value of another type, which the dataclass would store unchecked, is
    read as [None]. *)
Definition standardize_mrz (raw_mrz_data : option (list (string * pyval)))
  : option MRZData :=
  match raw_mrz_data with
  | Some (entry :: entries) =>
      let d := entry :: entries in
      Some (mkMRZ (get_str d "document_type") (get_str d "issuing_state")
                  (get_str d "number") (get_date d "expiration_date")
                  (get_str d "expiration_date_str"))
  | _ => None
  end.

Section Pipeline.

Variable dateparser_parse : dp_settings -> string -> exn + option date.
Variable today : date.
Variable extract_other :
  strategy_class -> string -> option MRZData -> option string -> M ExtractionResult.

(** The outside world of one call: the kind of the file, the text the
    OCR and the PDF reader give, the pages [convert_from_path] renders
    (or the exception it raises) and whether saving the first page
    raises. *)
Variable filetype_guess : string -> option file_kind.
Variable _extract_from_image : string -> string.
Variable _extract_from_pdf : string -> string.
Variable convert_from_path : string -> exn + nat.
Variable save_raises : string -> bool.

(** The longest chain a call builds has three nodes. *)
Definition chain_fuel : nat := 8.

(** [_extract_text]: its temporary file is removed in a [finally]. *)
Definition _extract_text (file_content : string) (fs : fs_state) : string * fs_state :=
  match filetype_guess file_content with
  | None => ("", fs)
  | Some kind =>
      let '(temp_file_path, fs) := mktemp fs in
      let text :=
        match kind with
        | ImageKind => _extract_from_image file_content
        | PdfKind => _extract_from_pdf file_content
        | OtherKind => ""
        end in
      (text, if exists_file temp_file_path fs then delete_file temp_file_path fs else fs)
  end.

(** The temporary file handed to the strategies as [file_path]:
    [(temp_file, fs)]. *)
Definition materialize (file_content : string) (fs : fs_state) : option nat * fs_state :=
  match filetype_guess file_content with
  | Some ImageKind =>
      let '(tmp, fs) := mktemp fs in (Some tmp, fs)
  | Some PdfKind =>
      let '(pdf_path, fs) := mktemp fs in
      match convert_from_path file_content with
      | inl _ => (None, fs)
      | inr pages =>
          match pages with
          | O => (None, try_remove pdf_path fs)
          | S _ =>
              let '(img_tmp, fs) := mktemp fs in
              if save_raises file_content then (None, fs)
              else (Some img_tmp, try_remove pdf_path fs)
          end
      end
  | _ => (None, fs)
  end.

Definition path_name (p : nat) : string := ("/tmp/tmp" ++ Z_str (Z.of_nat p))%string.

(** The chain each document type builds (step 3), and its first node. *)
Definition build_chain (doc_type : string) (mrz_data_obj : option MRZData) (h : heap)
  : ref * heap :=
  let '(primary_strategy, h) := get_strategy doc_type h in
  let country_code_of :=
    match mrz_data_obj with
    | Some m => if opt_str_truthy (country_code m) then country_code m else None
    | None => None
    end in
  if String.eqb doc_type "PASSPORT" then
    let '(mrz_strategy, h) := new_strategy MRZStrategy h in
    let '(generic_strategy, h) := new_strategy GenericStrategy h in
    let h :=
      match country_code_of with
      | Some cc =>
          let '(country_strategy, h) := get_strategy ("PASSPORT_" ++ cc)%string h in
          add_fallback_strategy mrz_strategy country_strategy h
      | None => h
      end in
    (mrz_strategy, add_fallback_strategy mrz_strategy generic_strategy h)
  else if String.eqb doc_type "ID_CARD" then
    match country_code_of with
    | Some cc =>
        let '(country_strategy, h) := get_strategy ("ID_" ++ cc)%string h in
        let '(mrz_strategy, h) := new_strategy MRZStrategy h in
        let '(generic_strategy, h) := new_strategy GenericStrategy h in
        let h := add_fallback_strategy country_strategy mrz_strategy h in
        (country_strategy, add_fallback_strategy country_strategy generic_strategy h)
    | None => (primary_strategy, h)
    end
  else if String.eqb doc_type "VISA" then
    let '(visa_strategy, h) := new_strategy VisaStrategy h in
    let '(mrz_strategy, h) := new_strategy MRZStrategy h in
    let '(generic_strategy, h) := new_strategy GenericStrategy h in
    let h := add_fallback_strategy visa_strategy mrz_strategy h in
    (visa_strategy, add_fallback_strategy visa_strategy generic_strategy h)
  else (primary_strategy, h).

(** [_pipeline_extract]: the payload (or [None]) and the temporary
    directory the call leaves behind. An exception anywhere in the body
    is caught by the outer handler, which returns [None]. *)
Definition _pipeline_extract (file_content : string) (doc_type : string)
  (raw_mrz_data : option (list (string * pyval))) (fs : fs_state)
  : option payload * fs_state :=
  let '(text, fs) := _extract_text file_content fs in
  if negb (str_truthy text) then (None, fs)
  else
    let mrz_data_obj := standardize_mrz raw_mrz_data in
    let '(temp_file, fs) := materialize file_content fs in
    let file_path := option_map path_name temp_file in
    let '(primary_strategy, h) := build_chain doc_type mrz_data_obj [] in
    match chain_strategies dateparser_parse today extract_other chain_fuel h
            primary_strategy text mrz_data_obj file_path with
    | Some (_, inr (result, _)) =>
        let fs := match temp_file with
                  | Some p => try_remove p fs
                  | None => fs
                  end in
        (Some (payload_of result), fs)
    | _ => (None, fs)
    end.

End Pipeline.

(** The temporary directory after [_extract_text] on an image: its own
    file is gone. *)
Definition after_text (fs : fs_state) : fs_state :=
  mkFs (filter (fun q => negb (next_name fs =? q)%nat) (files fs)) (S (next_name fs)).

(** ** Further methods of the strategies *)

(** [DocumentExtractionStrategy._validate_document_number] *)
Definition _validate_document_number (o : strategy) (number doc_type : string)
  : bool * strategy :=
  let n := List.length (chars_of number) in
  if negb (str_truthy number)
  then (false, strategy_add_error o "Invalid document number type")
  else if (n <? 6)%nat
  then (false, strategy_add_error o
                 ("Document number too short: " ++ Z_str (Z.of_nat n))%string)
  else if (12 <? n)%nat
  then (false, strategy_add_error o
                 ("Document number too long: " ++ Z_str (Z.of_nat n))%string)
  else (true, o).

(** The dictionary the Generic, Visa and ID-card strategies hand to
    [_find_expiration_date]:
    [{'expiration_date': mrz_data.expiration_date_str or
       (mrz_data.expiration_date.strftime('%y%m%d')
        if mrz_data.expiration_date else None)}],
    for an [MRZData] whose fields hold values of their declared types:
    [expiration_date] a date or [None], [expiration_date_str] a string
    or [None]. (The dataclass does not check its fields; on another
    truthy value of [expiration_date] the call of [strftime] raises
    [AttributeError], which this definition does not cover.) *)
Definition mrz_dict_of (mrz_data : option MRZData)
  : option (list (string * option string)) :=
  match mrz_data with
  | None => None
  | Some m =>
      Some [("expiration_date",
             if opt_str_truthy (expiration_date_str m) then expiration_date_str m
             else option_map strftime_yymmdd (mrz_expiration_date m))]
  end.

(** [if isinstance(expiration_date, int): expiration_date =
    date(expiration_date, 12, 31)]; [inl]: the [ValueError] of [date]. *)
Definition expiry_as_date (e : expiry) : string + option date :=
  match e with
  | ExpDate d => inr (Some d)
  | ExpYear y =>
      match date_new_err y 12 31 with
      | inr d => inr (Some d)
      | inl ve => inl ve
      end
  | ExpNone => inr None
  end.

(** \b[A-Z]\d{7}[A-Z]\b *)
Definition ES_NUM_RE : regex := seqs [WordB; upper_AZ; exactly 7 digit; upper_AZ; WordB].

Section MoreStrategies.

Variable dateparser_parse : dp_settings -> string -> exn + option date.
Variable today : date.

(** The first statements of [GenericStrategy.extract],
    [VisaStrategy.extract] and [IDCardStrategy.extract]: the expiration
    date, with a bare year turned into its 31 December. *)
Definition resolve_expiration (text doc_type : string) (mrz_data : option MRZData)
  : exn + option date :=
  match _find_expiration_date dateparser_parse text doc_type (mrz_dict_of mrz_data)
          today with
  | inl e => inl e
  | inr found =>
      match expiry_as_date found with
      | inl ve => inl (ValueError ve)
      | inr d => inr d
      end
  end.

(** [ESPassportStrategy.extract] *)
Definition ESPassportStrategy_extract (text : string) (mrz_data : option MRZData)
  (file_path : option string) : M ExtractionResult :=
  match _validate_input text mrz_data with
  | Some e => raise e
  | None =>
      (number <-
         (match mrz_data with
          | Some mrz =>
              if opt_str_truthy (mrz_number mrz)
              then checked_passport_number
                     (match mrz_number mrz with Some n => n | None => "" end)
              else match re_search ES_NUM_RE text with
                   | Some num_match => checked_passport_number (m_text num_match)
                   | None => ret None
                   end
          | None =>
              match re_search ES_NUM_RE text with
              | Some num_match => checked_passport_number (m_text num_match)
              | None => ret None
              end
          end) ;;
       expiration_date <-
         (match mrz_data with
          | Some mrz =>
              match mrz_expiration_date mrz with
              | Some d => ret (Some d)
              | None =>
                  if opt_str_truthy (expiration_date_str mrz)
                  then recorded_parse_date dateparser_parse today
                         (match expiration_date_str mrz with Some s => s | None => "" end)
                  else ret None
              end
          | None => ret None
          end) ;;
       let issued_country := "ESP" in
       update (fun self => snd (_validate_country_code self issued_country)) ;;;
       (fun self =>
          inr (_create_result self number (Some issued_country) expiration_date, self)))%py
  end.

End MoreStrategies.

(** What a result of [_find_expiration_date] may be: a date after today,
    or a bare year among the next twenty. *)
Definition expiry_in_future (today : date) (e : expiry) : Prop :=
  match e with
  | ExpDate d => toordinal today < toordinal d
  | ExpYear y => year today < y <= year today + 20
  | ExpNone => True
  end.

(** What a call of [_find_expiration_date] may do: return such a result,
    or pass on an exception the parser raised on a date-like substring. *)
Definition resolver_outcome
  (dateparser_parse : dp_settings -> string -> exn + option date)
  (today : date) (text : string) (r : exn + expiry) : Prop :=
  match r with
  | inr found => expiry_in_future today found
  | inl e =>
      exists m, In m (re_finditer date_like_re text)
                /\ dateparser_parse settings_fallback (m_text m) = inl e
  end.

(** What the bookkeeping of a strategy may become during a call: the
    class and the fallback link stay, errors and warnings are only
    appended. *)
Definition bookkeeping_extends (self self' : strategy) : Prop :=
  cls self' = cls self
  /\ _fallback_strategy self' = _fallback_strategy self
  /\ (exists errors, _validation_errors self' = (_validation_errors self ++ errors)%list)
  /\ (exists warnings, _warnings self' = (_warnings self ++ warnings)%list).

(** A text in which whitespace is single spaces only: no whitespace
    character but the space, and no two spaces in a row
    ([after_space]: the character before was a space). *)
Fixpoint single_spaced (l : chars) (after_space : bool) : bool :=
  match l with
  | [] => true
  | c :: l' =>
      if is_space c
      then negb after_space && Ascii.eqb c " "%char && single_spaced l' true
      else single_spaced l' false
  end.

(** A character of the ASCII range. On text of such characters
    [is_alpha], [is_upper], [is_digit] and [is_space] are Python's
    [str.isalpha], [str.isupper], [str.isdigit] and [str.isspace];
    Python's own classes also hold characters outside that range. *)
Definition is_ascii (c : ascii) : bool := in_range 0 127 c.

(** ** Sequences of bookkeeping calls *)

(** A call of [add_error] or of [add_warning], with its message. *)
Inductive call : Type :=
| AddError (error : string)
| AddWarning (warning : string).

Definition apply_call (r : ExtractionResult) (c : call) : ExtractionResult :=
  match c with
  | AddError error => add_error r error
  | AddWarning warning => add_warning r warning
  end.

(** The calls of [calls] made in order on [r]. *)
Definition replay (r : ExtractionResult) (calls : list call) : ExtractionResult :=
  fold_left apply_call calls r.

Definition is_error (c : call) : bool :=
  match c with
  | AddError _ => true
  | AddWarning _ => false
  end.

Definition count_errors (calls : list call) : nat :=
  List.length (filter is_error calls).

Definition count_warnings (calls : list call) : nat :=
  List.length (filter (fun c => negb (is_error c)) calls).

(** What one call does to the confidence. *)
Definition confidence_step (c : float) (error : bool) : float :=
  if error then float_max 0 (c - 0.2) else float_max 0 (c - 0.1).

(** The closed form max(0, 1 - 0.2 e - 0.1 w), in exact arithmetic. *)
Definition closed_form (e w : nat) : Q :=
  let v := (1 - (2 # 10) * inject_Z (Z.of_nat e) - (1 # 10) * inject_Z (Z.of_nat w))%Q in
  if Qle_bool 0 v then v else 0%Q.

(** The closed form evaluated in binary64, as Python evaluates
    [max(0, 1 - 0.2*e - 0.1*w)]. *)
Definition closed_form_float (e w : nat) : float :=
  let fe := PrimFloat.of_uint63 (Uint63.of_Z (Z.of_nat e)) in
  let fw := PrimFloat.of_uint63 (Uint63.of_Z (Z.of_nat w)) in
  float_max 0 (1 - 0.2 * fe - 0.1 * fw).

(** The states (errors, warnings, confidence) reachable from
    confidence 1.0 in exactly [n] calls. *)
Definition conf_state : Type := nat * nat * float.

Definition next_states (s : conf_state) : list conf_state :=
  let '(e, w, c) := s in
  [(S e, w, confidence_step c true); (e, S w, confidence_step c false)].

Fixpoint reachable (n : nat) : list conf_state :=
  match n with
  | O => [(O, O, 1%float)]
  | S n' => flat_map next_states (reachable n')
  end.

(** The properties checked on every reachable state: the confidence is
    between 0 and 1, neither call raises it, and it is within 10^-15 of
    the closed form. *)
Definition state_ok (s : conf_state) : bool :=
  let '(e, w, c) := s in
  PrimFloat.leb 0 c && PrimFloat.leb c 1
  && PrimFloat.leb (confidence_step c true) c
  && PrimFloat.leb (confidence_step c false) c
  && Qle_bool (Qabs (float_to_Q c - closed_form e w)) (1 # 1000000000000000).

(** ** The example text of the fallback scan *)








(** ** Stand-ins for the outside world, used by the examples *)

(** An [extract] that finds nothing, for the examples. *)
Definition extract_nothing
  (c : strategy_class) (text : string) (mrz_data : option MRZData)
  (file_path : option string) : M ExtractionResult :=
  fun self => inr (_create_result self None None None, self).

Definition no_dateparser (settings : dp_settings) (raw : string) : exn + option date :=
  inr None.

(** * Properties *)

(** ** Merging two results *)

Lemma or_str_truthy (a b : option string) :
  opt_str_truthy a = true -> or_str a b = a.
Proof. unfold or_str. intros ->. reflexivity. Qed.

Lemma or_str_falsy (a b : option string) :
  opt_str_truthy a = false -> or_str a b = b.
Proof. unfold or_str. intros ->. reflexivity. Qed.

Lemma opt_str_truthy_spec (a : option string) :
  opt_str_truthy a = true <-> exists c s, a = Some (String c s).
Proof.
  split.
  - destruct a as [[|c s]|]; simpl; try discriminate. intros _. now exists c, s.
  - intros (c & s & ->). reflexivity.
Qed.

(** C1, as stated, fails: a primary whose number is the empty string (not
    null) loses it to the fallback's number. *)
Lemma merge_drops_empty_primary_number :
  ~ (forall a b : ExtractionResult,
        number (_merge_results a b)
        = match number a with Some _ => number a | None => number b end).
Proof.
  intro H.
  specialize (H (mkResult (Some "") None None 1 [] [])
                (mkResult (Some "X1234567") None None 1 [] [])).
  cbn in H. discriminate H.
Qed.

(** C1 (amended): merging a (primary) with b (fallback) keeps, for number
    and issued_country, a's value when it is neither null nor the empty
    string and b's value otherwise; keeps a's expiration_date when it is
    not null and b's otherwise; sets confidence to min(a.confidence,
    b.confidence); and concatenates the error and warning lists, a's
    first, order preserved. *)
Theorem merge_results_spec (a b : ExtractionResult) :
  (number (_merge_results a b) =
     match number a with
     | Some (String _ _) => number a
     | _ => number b
     end)
  /\ (issued_country (_merge_results a b) =
        match issued_country a with
        | Some (String _ _) => issued_country a
        | _ => issued_country b
        end)
  /\ (expiration_date (_merge_results a b) =
        match expiration_date a with
        | Some d => Some d
        | None => expiration_date b
        end)
  /\ confidence (_merge_results a b) = float_min (confidence a) (confidence b)
  /\ validation_errors (_merge_results a b) = validation_errors a ++ validation_errors b
  /\ warnings (_merge_results a b) = warnings a ++ warnings b
  /\ (forall i e, nth_error (validation_errors a) i = Some e ->
        nth_error (validation_errors (_merge_results a b)) i = Some e)
  /\ (forall j e, nth_error (validation_errors b) j = Some e ->
        nth_error (validation_errors (_merge_results a b))
                  (List.length (validation_errors a) + j) = Some e).
Proof.
  destruct a as [na ca da fa ea wa], b as [nb cb db fb eb wb]; cbn.
  repeat split.
  - destruct na as [[|c s]|]; reflexivity.
  - destruct ca as [[|c s]|]; reflexivity.
  - destruct da; reflexivity.
  - intros i e Hi. rewrite nth_error_app1; [exact Hi|].
    apply nth_error_Some. congruence.
  - intros j e Hj. rewrite nth_error_app2 by lia.
    replace (List.length ea + j - List.length ea)%nat with j by lia. exact Hj.
Qed.

(** ** Confidence bookkeeping *)

Lemma confidence_apply_call (r : ExtractionResult) (c : call) :
  confidence (apply_call r c) = confidence_step (confidence r) (is_error c).
Proof. destruct c; reflexivity. Qed.

Lemma confidence_replay (calls : list call) (r : ExtractionResult) :
  confidence (replay r calls)
  = fold_left confidence_step (map is_error calls) (confidence r).
Proof.
  unfold replay. revert r.
  induction calls as [|c calls IH]; intro r; cbn [fold_left map].
  - reflexivity.
  - rewrite IH, confidence_apply_call. reflexivity.
Qed.

Lemma count_errors_snoc (calls : list call) (c : call) :
  count_errors (calls ++ [c])
  = (count_errors calls + (if is_error c then 1 else 0))%nat.
Proof.
  unfold count_errors. rewrite filter_app, length_app. cbn [filter].
  destruct (is_error c); reflexivity.
Qed.

Lemma count_warnings_snoc (calls : list call) (c : call) :
  count_warnings (calls ++ [c])
  = (count_warnings calls + (if is_error c then 0 else 1))%nat.
Proof.
  unfold count_warnings. rewrite filter_app, length_app. cbn [filter].
  destruct (is_error c); reflexivity.
Qed.

Lemma count_total (calls : list call) :
  (count_errors calls + count_warnings calls = List.length calls)%nat.
Proof.
  unfold count_errors, count_warnings.
  induction calls as [|c calls IH]; cbn [filter List.length]; [reflexivity|].
  destruct (is_error c); cbn [negb List.length]; lia.
Qed.

(** Every sequence of calls ends in a state listed by [reachable]. *)
Lemma reachable_complete (calls : list call) :
  In (count_errors calls, count_warnings calls,
      fold_left confidence_step (map is_error calls) 1%float)
     (reachable (List.length calls)).
Proof.
  induction calls as [|c calls IH] using rev_ind.
  - left. reflexivity.
  - rewrite length_app, Nat.add_comm. cbn [List.length Nat.add reachable].
    apply in_flat_map. eexists. split; [exact IH|].
    rewrite count_errors_snoc, count_warnings_snoc, map_app, fold_left_app.
    cbn [map fold_left next_states].
    destruct (is_error c); rewrite !Nat.add_0_r, Nat.add_1_r; [left|right; left];
      reflexivity.
Qed.

Lemma reachable_ok_upto_11 :
  forallb (fun n => forallb state_ok (reachable n)) (seq 0 12) = true.
Proof. vm_compute. reflexivity. Qed.

Lemma reachable_11_zero :
  map (fun s : conf_state => snd s) (reachable 11) = repeat 0%float 2048.
Proof. vm_compute. reflexivity. Qed.

Lemma confidence_step_zero (error : bool) : confidence_step 0 error = 0%float.
Proof. destruct error; vm_compute; reflexivity. Qed.

Lemma fold_step_zero (l : list bool) : fold_left confidence_step l 0%float = 0%float.
Proof.
  induction l as [|b l IH]; cbn [fold_left]; [reflexivity|].
  rewrite confidence_step_zero. exact IH.
Qed.

(** Eleven calls bring any confidence that started at 1.0 to exactly 0. *)
Lemma zero_after_11 (calls : list call) :
  (11 <= List.length calls)%nat ->
  fold_left confidence_step (map is_error calls) 1%float = 0%float.
Proof.
  intro Hlen.
  rewrite <- (firstn_skipn 11 calls), map_app, fold_left_app.
  assert (Hin := reachable_complete (firstn 11 calls)).
  rewrite length_firstn, Nat.min_l in Hin by exact Hlen.
  apply (in_map (fun s : conf_state => snd s)) in Hin.
  rewrite reachable_11_zero in Hin. apply repeat_spec in Hin.
  cbn [snd] in Hin. rewrite Hin. apply fold_step_zero.
Qed.

Lemma inject_nat_nonneg (n : nat) : (0 <= inject_Z (Z.of_nat n))%Q.
Proof. change 0%Q with (inject_Z 0). rewrite <- Zle_Qle. lia. Qed.

(** With eleven calls or more the closed form is 0. *)
Lemma closed_form_zero (e w : nat) :
  (11 <= e + w)%nat -> closed_form e w = 0%Q.
Proof.
  intro H. unfold closed_form.
  destruct (Qle_bool 0 _) eqn:Hle; [|reflexivity].
  exfalso. apply Qle_bool_iff in Hle.
  assert (He := inject_nat_nonneg e).
  assert (Hw := inject_nat_nonneg w).
  assert (Hsum : (inject_Z 11 <= inject_Z (Z.of_nat e) + inject_Z (Z.of_nat w))%Q).
  { rewrite <- inject_Z_plus, <- Zle_Qle. lia. }
  change (inject_Z 11) with 11%Q in Hsum. lra.
Qed.

Lemma state_ok_zero (e w : nat) :
  (11 <= e + w)%nat -> state_ok (e, w, 0%float) = true.
Proof.
  intro H. unfold state_ok. rewrite !confidence_step_zero, closed_form_zero by exact H.
  vm_compute. reflexivity.
Qed.

(** Every state reached from confidence 1.0 passes [state_ok]. *)
Lemma state_ok_all (calls : list call) :
  state_ok (count_errors calls, count_warnings calls,
            fold_left confidence_step (map is_error calls) 1%float) = true.
Proof.
  destruct (Nat.le_gt_cases 11 (List.length calls)) as [Hlong|Hshort].
  - rewrite zero_after_11 by exact Hlong.
    apply state_ok_zero. rewrite count_total. exact Hlong.
  - assert (Hall := reachable_ok_upto_11).
    rewrite forallb_forall in Hall.
    assert (Hn : In (List.length calls) (seq 0 12)) by (apply in_seq; lia).
    specialize (Hall _ Hn). rewrite forallb_forall in Hall.
    apply Hall, reachable_complete.
Qed.

(** C2, as stated, fails in binary64: one error and one warning give two
    different confidences depending on their order, and five errors
    leave a positive confidence where the closed form is 0. *)
Lemma confidence_depends_on_order :
  let start := mkResult None None None 1 [] [] in
  let ew := confidence (replay start [AddError "e"; AddWarning "w"]) in
  let we := confidence (replay start [AddWarning "w"; AddError "e"]) in
  let e5 := confidence (replay start (repeat (AddError "e") 5)) in
  PrimFloat.eqb ew we = false
  /\ PrimFloat.eqb ew (closed_form_float 1 1) = true
  /\ PrimFloat.eqb we (closed_form_float 1 1) = false
  /\ PrimFloat.ltb 0 e5 = true
  /\ closed_form_float 5 0 = 0%float
  /\ (closed_form 5 0 == 0)%Q.
Proof. vm_compute. repeat split; reflexivity. Qed.

(** C2 (amended): for a result whose confidence starts at 1.0, after any
    interleaved sequence of e add_error and w add_warning calls the
    confidence lies between 0 and 1, neither call ever raises it (the
    floor at 0 is applied at every step), it differs from
    max(0, 1 - 0.2 e - 0.1 w) by at most 10^-15 (binary64 rounding, which
    depends on the order of the calls), and it is exactly 0 after eleven
    or more calls. *)
Theorem confidence_after_calls (r : ExtractionResult) (calls : list call) :
  confidence r = 1%float ->
  let c := confidence (replay r calls) in
  PrimFloat.leb 0 c = true
  /\ PrimFloat.leb c 1 = true
  /\ (forall next : call,
        PrimFloat.leb (confidence (apply_call (replay r calls) next)) c = true)
  /\ (Qabs (float_to_Q c - closed_form (count_errors calls) (count_warnings calls))
      <= 1 # 1000000000000000)%Q
  /\ ((11 <= List.length calls)%nat -> c = 0%float).
Proof.
  intros Hstart c.
  assert (Hc : c = fold_left confidence_step (map is_error calls) 1%float).
  { unfold c. rewrite confidence_replay, Hstart. reflexivity. }
  assert (Hok := state_ok_all calls). rewrite <- Hc in Hok.
  unfold state_ok in Hok.
  repeat (apply andb_prop in Hok; destruct Hok as [Hok ?]).
  repeat split; try assumption.
  - intro next. rewrite confidence_apply_call. fold c.
    destruct (is_error next); assumption.
  - apply Qle_bool_iff. assumption.
  - intro Hlen. rewrite Hc. apply zero_after_11. exact Hlen.
Qed.

Lemma confidence_after_calls_witness :
  let r := mkResult (Some "X1234567") None None 1 [] [] in
  let calls := [AddError "Invalid country code type"; AddWarning "far"; AddError "x"] in
  let c := confidence (replay r calls) in
  PrimFloat.leb 0 c = true
  /\ PrimFloat.leb c 1 = true
  /\ (forall next : call,
        PrimFloat.leb (confidence (apply_call (replay r calls) next)) c = true)
  /\ (Qabs (float_to_Q c - closed_form (count_errors calls) (count_warnings calls))
      <= 1 # 1000000000000000)%Q
  /\ ((11 <= List.length calls)%nat -> c = 0%float).
Proof.
  exact (confidence_after_calls (mkResult (Some "X1234567") None None 1 [] [])
           [AddError "Invalid country code type"; AddWarning "far"; AddError "x"]
           eq_refl).
Defined.

(** ** Strategy objects and chains *)


Lemma nth_error_heap_update (h : heap) (r x : ref) (f : strategy -> strategy) :
  nth_error (heap_update h r f) x
  = if (x =? r)%nat then option_map f (nth_error h x) else nth_error h x.
Proof.
  revert r x. induction h as [|o h IH]; intros r x.
  - destruct r, x; cbn; try reflexivity. now destruct (x =? r)%nat.
  - destruct r, x; cbn; try reflexivity. apply IH.
Qed.




(** An [extract] call leaves every fallback link as it was. *)
Lemma fallback_of_keep_links (h : heap) (r x : ref) (o o' : strategy) :
  nth_error h r = Some o ->
  fallback_of (heap_update h r (fun _ => keep_links o o')) x = fallback_of h x.
Proof.
  intro Hr. unfold fallback_of. rewrite nth_error_heap_update.
  destruct (x =? r)%nat eqn:E; [|reflexivity].
  apply Nat.eqb_eq in E. subst x. rewrite Hr. reflexivity.
Qed.

Lemma chain_nodes_ext (fuel : nat) (h h' : heap) (start : option ref) :
  (forall x, fallback_of h' x = fallback_of h x) ->
  chain_nodes fuel h' start = chain_nodes fuel h start.
Proof.
  intro Hext. revert start.
  induction fuel as [|fuel IH]; intros [r|]; cbn; try reflexivity.
  now rewrite Hext, IH.
Qed.

Section ChainFacts.

Variable dateparser_parse : dp_settings -> string -> exn + option date.
Variable today : date.
Variable extract_other :
  strategy_class -> string -> option MRZData -> option string -> M ExtractionResult.
Variables (text : string) (mrz_data : option MRZData) (file_path : option string).

Let loop := fun fuel => chain_loop dateparser_parse today extract_other fuel text
                          mrz_data file_path.

(** A chain that follows finitely many links ends: the loop returns, the
    calls it made are an initial part of the chain, and the whole chain
    when no [extract] raised. *)
Lemma chain_loop_calls (fuel : nat) :
  forall (h : heap) (start : option ref) (results : list ExtractionResult)
         (calls0 nodes : list ref),
    chain_nodes fuel h start = Some nodes ->
    exists calls out k,
      loop fuel h start results calls0 = Some (calls, out)
      /\ calls = calls0 ++ firstn k nodes
      /\ (forall res, out = inr res ->
            calls = calls0 ++ nodes
            /\ List.length (fst res) = (List.length results + List.length nodes)%nat).
Proof.
  unfold loop.
  induction fuel as [|fuel IH]; intros h [r|] results calls0 nodes Hnodes;
    cbn in Hnodes |- *.
  - discriminate.
  - injection Hnodes as <-. exists calls0, (inr (results, h)), O.
    cbn [firstn]. rewrite !app_nil_r. split; [reflexivity|]. split; [reflexivity|].
    intros res' [= <-]. cbn. split; [reflexivity|lia].
  - destruct (chain_nodes fuel h (fallback_of h r)) as [rest|] eqn:Hrest;
      [|discriminate].
    injection Hnodes as <-.
    destruct (nth_error h r) as [o|] eqn:Hr.
    + destruct (extract _ _ _ _ _ _ _ o) as [e|[result o']] eqn:Hex.
      * exists (calls0 ++ [r]), (inl e), 1%nat.
        split; [reflexivity|]. split; [reflexivity|]. intros res' [=].
      * assert (Hrest' : chain_nodes fuel (heap_update h r (fun _ => keep_links o o'))
                           (_fallback_strategy o) = Some rest).
        { rewrite (chain_nodes_ext fuel h) by (intro x; now apply fallback_of_keep_links).
          unfold fallback_of in Hrest. rewrite Hr in Hrest. exact Hrest. }
        destruct (IH _ _ (results ++ [result]) (calls0 ++ [r]) _ Hrest')
          as (calls & out & k & Hloop & Hcalls & Hfull).
        exists calls, out, (S k). split; [exact Hloop|]. split.
        -- rewrite Hcalls, <- app_assoc. reflexivity.
        -- intros res' Hres. destruct (Hfull res' Hres) as [Hc Hl]. split.
           ++ rewrite Hc, <- app_assoc. reflexivity.
           ++ rewrite Hl, length_app. cbn. lia.
    + exists calls0, (inl (OtherError "dangling reference")), O.
      cbn [firstn]. rewrite !app_nil_r. split; [reflexivity|]. split; [reflexivity|]. intros res' [=].
  - injection Hnodes as <-. exists calls0, (inr (results, h)), O.
    cbn [firstn]. rewrite !app_nil_r. split; [reflexivity|]. split; [reflexivity|].
    intros res' [= <-]. cbn. split; [reflexivity|lia].
Qed.

(** The same for [chain_strategies]. *)
Lemma chain_strategies_calls (fuel : nat) (h : heap) (self : ref) (nodes : list ref) :
  chain_nodes fuel h (Some self) = Some nodes ->
  exists calls out k,
    chain_strategies dateparser_parse today extract_other fuel h self text mrz_data
      file_path = Some (calls, out)
    /\ calls = firstn k nodes
    /\ (forall res, out = inr res -> calls = nodes).
Proof.
  intro Hnodes. unfold chain_strategies.
  destruct (chain_loop_calls fuel h (Some self) [] [] nodes Hnodes)
    as (calls & out & k & Hloop & Hcalls & Hfull).
  unfold loop in Hloop. rewrite Hloop. cbn [app] in Hcalls.
  destruct out as [e|[results h']].
  - exists calls, (inl e), k.
    split; [reflexivity|]. split; [exact Hcalls|]. intros res' [=].
  - destruct (Hfull _ eq_refl) as [Hc Hl]. cbn [app] in Hc.
    destruct (merge_all results) as [merged|] eqn:Hm.
    + exists calls, (inr (merged, h')), k.
      split; [reflexivity|]. split; [exact Hcalls|]. intros res' _. exact Hc.
    + exists calls, (inl (OtherError "IndexError")), k.
      split; [reflexivity|]. split; [exact Hcalls|]. intros res' [=].
Qed.

End ChainFacts.


Lemma in_firstn_in {A : Type} (k : nat) (l : list A) (x : A) :
  In x (firstn k l) -> In x l.
Proof.
  intro H. rewrite <- (firstn_skipn k l). apply in_or_app. now left.
Qed.



(** C3 (what the code does): the chain built for "passport" is the MRZ
    strategy followed by the Generic strategy only. The four
    country-specialized strategies are created, each is replaced as the
    fallback by the next call, and chain_strategies never calls them. *)
Theorem passport_chain_skips_country_strategies
  (dateparser_parse : dp_settings -> string -> exn + option date) (today : date)
  (extract_other :
     strategy_class -> string -> option MRZData -> option string -> M ExtractionResult)
  (text : string) (mrz_data : option MRZData) (file_path : option string) :
  let mrz := fst (get_strategy "passport" []) in
  let h := snd (get_strategy "passport" []) in
  map (class_of h) [0; 1; 2; 3; 4; 5]%nat
  = map Some [MRZStrategy; ESPassportStrategy; EGYPassportStrategy; EUGenericStrategy;
              USPassportStrategy; GenericStrategy]
  /\ mrz = 0%nat
  /\ chain_nodes 6 h (Some mrz) = Some [0; 5]%nat
  /\ exists calls out k,
       chain_strategies dateparser_parse today extract_other 6 h mrz text mrz_data
         file_path = Some (calls, out)
       /\ calls = firstn k [0; 5]%nat
       /\ (forall res, out = inr res -> calls = [0; 5]%nat)
       /\ (forall r, In r [1; 2; 3; 4]%nat -> ~ In r calls).
Proof.
  intros mrz h.
  assert (Hnodes : chain_nodes 6 h (Some mrz) = Some [0; 5]%nat) by reflexivity.
  split; [reflexivity|]. split; [reflexivity|]. split; [exact Hnodes|].
  destruct (chain_strategies_calls dateparser_parse today extract_other text mrz_data
              file_path 6 h mrz _ Hnodes) as (calls & out & k & Hrun & Hcalls & Hfull).
  exists calls, out, k. split; [exact Hrun|]. split; [exact Hcalls|].
  split; [exact Hfull|].
  intros r Hr Hin. rewrite Hcalls in Hin. apply in_firstn_in in Hin.
  cbn in Hr, Hin. intuition congruence.
Qed.

(** ** USPassportStrategy.extract *)

(** No strategy object has an attribute [errors]. *)
Lemma strategy_has_no_errors_attribute (self : strategy) :
  strategy_getattr self "errors" = inl (AttributeError "errors").
Proof.
  unfold strategy_getattr. cbn [String.eqb Ascii.eqb Bool.eqb].
  destruct (cls self); reflexivity.
Qed.

(** The keyword arguments of the [return] statement are rejected by the
    constructor, whatever their values. *)
Lemma us_return_keywords_rejected (n d e w : pyval) :
  ExtractionResult_new
    [("number", n); ("expiration_date", d); ("issued_country", PyStr "USA");
     ("errors", e); ("warnings", w)]
  = inl (TypeError "got an unexpected keyword argument 'errors'").
Proof. reflexivity. Qed.

Section USPassport.

Variable dateparser_parse : dp_settings -> string -> exn + option date.
Variable today : date.

Lemma checked_passport_number_returns (candidate : string) (self : strategy) :
  exists v self', checked_passport_number candidate self = inr (v, self').
Proof.
  unfold checked_passport_number.
  destruct (_looks_valid_number candidate "passport") as [[is_valid errors] warnings].
  eauto.
Qed.

Lemma recorded_parse_date_returns (raw : string) (self : strategy) :
  exists v self', recorded_parse_date dateparser_parse today raw self = inr (v, self').
Proof.
  unfold recorded_parse_date.
  destruct (_parse_date_with_pivot_and_validation _ _ _) as [[parsed errors] warnings].
  eauto.
Qed.

(** Steps 1 and 2 never raise. *)
Lemma us_from_mrz_returns (mrz_data : option MRZData) (self : strategy) :
  exists v self', us_from_mrz dateparser_parse today mrz_data self = inr (v, self').
Proof.
  unfold us_from_mrz. destruct mrz_data as [mrz|]; [|unfold ret; eauto].
  unfold bind.
  assert (Hnum : exists v self',
             (if opt_str_truthy (mrz_number mrz)
              then checked_passport_number
                     match mrz_number mrz with Some n => n | None => "" end
              else ret None) self = inr (v, self')).
  { destruct (opt_str_truthy (mrz_number mrz));
      [apply checked_passport_number_returns|unfold ret; eauto]. }
  destruct Hnum as (n & self1 & ->).
  assert (Hexp : exists v self',
             match mrz_expiration_date mrz with
             | Some d => ret (Some d)
             | None =>
                 if opt_str_truthy (expiration_date_str mrz)
                 then recorded_parse_date dateparser_parse today
                        match expiration_date_str mrz with Some s => s | None => "" end
                 else ret None
             end self1 = inr (v, self')).
  { destruct (mrz_expiration_date mrz); [unfold ret; eauto|].
    destruct (opt_str_truthy (expiration_date_str mrz));
      [apply recorded_parse_date_returns|unfold ret; eauto]. }
  destruct Hexp as (d & self2 & ->). unfold ret. eauto.
Qed.

Lemma us_from_text_returns (text : string) (number : option string)
  (expiration_date : option date) (self : strategy) :
  exists v self',
    us_from_text dateparser_parse today text number expiration_date self = inr (v, self').
Proof.
  unfold us_from_text.
  assert (Hret : forall (A : Type) (a : A) (s : strategy),
             exists v s', ret a s = inr (v, s')) by (intros; unfold ret; eauto).
  destruct (opt_str_truthy number), expiration_date as [d|]; try apply Hret;
    (destruct (re_search US_MRZ_LINE text) as [mrz_match|]; [|apply Hret]);
    unfold bind;
    match goal with
    | |- context [re_search US_NUMBER ?line] =>
        destruct (re_search US_NUMBER line) as [num_match|]
    end.
  all: try (destruct (checked_passport_number_returns (m_text num_match) self)
              as (n & self1 & ->)).
  all: unfold ret at 1.
  all: try match goal with
       | |- context [re_search US_EXPIRY ?line] =>
           destruct (re_search US_EXPIRY line) as [exp_match|]
       end.
  all: try match goal with
       | |- context [recorded_parse_date _ _ ?raw ?s] =>
           destruct (recorded_parse_date_returns raw s) as (d' & self2 & ->)
       end.
  all: unfold ret; eauto.
Qed.

(** [USPassportStrategy.extract] raises on every input: [ValueError]
    on an empty text, [AttributeError] on [self.errors] otherwise. *)
Lemma us_extract_raises (text : string) (mrz_data : option MRZData)
  (file_path : option string) (self : strategy) :
  USPassportStrategy_extract dateparser_parse today text mrz_data file_path self
  = if str_truthy text then inl (AttributeError "errors")
    else inl (ValueError "text must be a non-empty string").
Proof.
  unfold USPassportStrategy_extract, _validate_input.
  destruct (str_truthy text); [|reflexivity].
  unfold bind at 1.
  destruct (us_from_mrz_returns mrz_data self) as (f1 & self1 & ->).
  unfold bind at 1.
  destruct (us_from_text_returns text (fst f1) (snd f1) self1) as (f2 & self2 & ->).
  unfold bind at 1, update. unfold bind at 1, eval at 1.
  rewrite strategy_has_no_errors_attribute. reflexivity.
Qed.

End USPassport.

Lemma class_of_keep_links (h : heap) (r x : ref) (o o' : strategy) :
  nth_error h r = Some o ->
  class_of (heap_update h r (fun _ => keep_links o o')) x = class_of h x.
Proof.
  intro Hr. unfold class_of. rewrite nth_error_heap_update.
  destruct (x =? r)%nat eqn:E; [|reflexivity].
  apply Nat.eqb_eq in E. subst x. rewrite Hr. reflexivity.
Qed.

Lemma str_truthy_nonempty (s : string) : s <> "" -> str_truthy s = true.
Proof. destruct s; [congruence|reflexivity]. Qed.

Section USPassportFlows.

Variable dateparser_parse : dp_settings -> string -> exn + option date.
Variable today : date.
Variable extract_other :
  strategy_class -> string -> option MRZData -> option string -> M ExtractionResult.
Variables (text : string) (mrz_data : option MRZData) (file_path : option string).

(** A chain with a US passport strategy on it raises. *)
Lemma chain_loop_with_us_raises (fuel : nat) :
  forall (h : heap) (start : option ref) (results : list ExtractionResult)
         (calls0 nodes : list ref) (us : ref),
    chain_nodes fuel h start = Some nodes ->
    In us nodes ->
    class_of h us = Some USPassportStrategy ->
    exists calls e,
      chain_loop dateparser_parse today extract_other fuel text mrz_data file_path
        h start results calls0 = Some (calls, inl e).
Proof.
  induction fuel as [|fuel IH]; intros h [r|] results calls0 nodes us Hnodes Hin Hus;
    cbn in Hnodes |- *.
  - discriminate.
  - injection Hnodes as <-. destruct Hin.
  - destruct (chain_nodes fuel h (fallback_of h r)) as [rest|] eqn:Hrest;
      [|discriminate].
    injection Hnodes as <-.
    destruct (nth_error h r) as [o|] eqn:Hr; [|eauto].
    destruct (extract _ _ _ _ _ _ _ o) as [e|[result o']] eqn:Hex; [eauto|].
    assert (Hne : us <> r).
    { intros ->. unfold class_of in Hus. rewrite Hr in Hus. cbn in Hus.
      injection Hus as Hcls. rewrite Hcls in Hex. cbn [extract] in Hex.
      rewrite us_extract_raises in Hex. destruct (str_truthy text); discriminate. }
    destruct Hin as [Heq|Hin]; [congruence|].
    apply (IH _ _ _ _ rest us).
    + rewrite (chain_nodes_ext fuel h) by (intro x; now apply fallback_of_keep_links).
      unfold fallback_of in Hrest. rewrite Hr in Hrest. exact Hrest.
    + exact Hin.
    + rewrite class_of_keep_links by exact Hr. exact Hus.
  - injection Hnodes as <-. destruct Hin.
Qed.

End USPassportFlows.

(** C10: USPassportStrategy.extract never returns an ExtractionResult.
    On a non-empty text it raises AttributeError at self.errors, an
    attribute no strategy object has; the keyword arguments of its return
    statement ('errors' given, 'confidence' and 'validation_errors'
    missing) would be rejected by the constructor anyway; and the flows
    that invoke it propagate the exception: extract_with_country_overwrite
    when the merged issuing country is "USA", and every chain with a US
    passport strategy on it. *)
Theorem us_passport_extract_never_returns
  (dateparser_parse : dp_settings -> string -> exn + option date) (today : date)
  (extract_other :
     strategy_class -> string -> option MRZData -> option string -> M ExtractionResult)
  (text : string) (mrz_data : option MRZData) (file_path : option string)
  (self : strategy) :
  (forall out,
      USPassportStrategy_extract dateparser_parse today text mrz_data file_path self
      <> inr out)
  /\ (text <> "" ->
      USPassportStrategy_extract dateparser_parse today text mrz_data file_path self
      = inl (AttributeError "errors"))
  /\ (forall o : strategy, strategy_getattr o "errors" = inl (AttributeError "errors"))
  /\ (forall n d e w : pyval,
        ExtractionResult_new
          [("number", n); ("expiration_date", d); ("issued_country", PyStr "USA");
           ("errors", e); ("warnings", w)]
        = inl (TypeError "got an unexpected keyword argument 'errors'"))
  /\ (forall r1 s1 r2 s2,
        extract_other MRZStrategy text mrz_data None (strategy_init MRZStrategy)
        = inr (r1, s1) ->
        extract_other GenericStrategy text mrz_data None (strategy_init GenericStrategy)
        = inr (r2, s2) ->
        issued_country (_merge_results r1 r2) = Some "USA" ->
        exists e,
          extract_with_country_overwrite dateparser_parse today extract_other text
            mrz_data = inl e)
  /\ (forall fuel h s nodes us,
        chain_nodes fuel h (Some s) = Some nodes ->
        In us nodes ->
        class_of h us = Some USPassportStrategy ->
        exists calls e,
          chain_strategies dateparser_parse today extract_other fuel h s text mrz_data
            file_path = Some (calls, inl e)).
Proof.
  split; [|split; [|split; [|split; [|split]]]].
  - intros out. rewrite us_extract_raises. destruct (str_truthy text); discriminate.
  - intro Hne. rewrite us_extract_raises, (str_truthy_nonempty _ Hne). reflexivity.
  - apply strategy_has_no_errors_attribute.
  - apply us_return_keywords_rejected.
  - intros r1 s1 r2 s2 H1 H2 Hc. unfold extract_with_country_overwrite.
    cbn [extract]. rewrite H1, H2, Hc.
    change (dict_get country_strategies "USA") with (Some USPassportStrategy).
    cbn [extract]. rewrite us_extract_raises. destruct (str_truthy text); eauto.
  - intros fuel h s nodes us Hnodes Hin Hus. unfold chain_strategies.
    destruct (chain_loop_with_us_raises dateparser_parse today extract_other text
                mrz_data file_path fuel h (Some s) [] [] nodes us Hnodes Hin Hus)
      as (calls & e & ->).
    eauto.
Qed.

(** ** Temporary files of _pipeline_extract *)

Lemma exists_file_mktemp (fs : fs_state) :
  exists_file (fst (mktemp fs)) (snd (mktemp fs)) = true.
Proof. unfold exists_file, mktemp. cbn. now rewrite Nat.eqb_refl. Qed.

Lemma filter_fresh (n : nat) (l : list nat) :
  forallb (fun p => (p <? n)%nat) l = true ->
  filter (fun q => negb (n =? q)%nat) l = l.
Proof.
  induction l as [|p l IH]; cbn; [reflexivity|].
  intro H. apply andb_prop in H. destruct H as [Hp Hl].
  apply Nat.ltb_lt in Hp.
  replace (n =? p)%nat with false by (symmetry; apply Nat.eqb_neq; lia).
  cbn. now rewrite IH.
Qed.

Section PipelineFacts.

Variable dateparser_parse : dp_settings -> string -> exn + option date.
Variable today : date.
Variable extract_other :
  strategy_class -> string -> option MRZData -> option string -> M ExtractionResult.
Variable filetype_guess : string -> option file_kind.
Variable _extract_from_image : string -> string.
Variable _extract_from_pdf : string -> string.
Variable convert_from_path : string -> exn + nat.
Variable save_raises : string -> bool.

Let pipeline :=
  _pipeline_extract dateparser_parse today extract_other filetype_guess
    _extract_from_image _extract_from_pdf convert_from_path save_raises.

Lemma extract_text_image (file_content : string) (fs : fs_state) :
  filetype_guess file_content = Some ImageKind ->
  _extract_text filetype_guess _extract_from_image _extract_from_pdf file_content fs
  = (_extract_from_image file_content, after_text fs).
Proof.
  intro Hkind. unfold _extract_text, mktemp, exists_file, delete_file, after_text.
  rewrite Hkind. cbn. rewrite Nat.eqb_refl. cbn. reflexivity.
Qed.

(** On an image, when the chain raises, the call returns [None] and the
    file made for the strategies is still there. *)
Lemma pipeline_image_chain_raises (file_content doc_type : string)
  (raw_mrz_data : option (list (string * pyval))) (fs : fs_state)
  (calls : list ref) (e : exn) :
  filetype_guess file_content = Some ImageKind ->
  str_truthy (_extract_from_image file_content) = true ->
  (let '(primary, h) := build_chain doc_type (standardize_mrz raw_mrz_data) [] in
   chain_strategies dateparser_parse today extract_other chain_fuel h primary
     (_extract_from_image file_content) (standardize_mrz raw_mrz_data)
     (Some (path_name (S (next_name fs)))) = Some (calls, inl e)) ->
  pipeline file_content doc_type raw_mrz_data fs
  = (None, snd (mktemp (after_text fs))).
Proof.
  intros Hkind Htext Hchain. unfold pipeline, _pipeline_extract.
  rewrite (extract_text_image _ _ Hkind), Htext. cbn [negb].
  unfold materialize. rewrite Hkind. cbn [mktemp after_text next_name option_map].
  destruct (build_chain doc_type (standardize_mrz raw_mrz_data) []) as [primary h].
  rewrite Hchain. reflexivity.
Qed.

(** On an image, when the chain returns, the file is removed. *)
Lemma pipeline_image_chain_returns (file_content doc_type : string)
  (raw_mrz_data : option (list (string * pyval))) (fs : fs_state)
  (calls : list ref) (result : ExtractionResult) (h' : heap) :
  filetype_guess file_content = Some ImageKind ->
  str_truthy (_extract_from_image file_content) = true ->
  (let '(primary, h) := build_chain doc_type (standardize_mrz raw_mrz_data) [] in
   chain_strategies dateparser_parse today extract_other chain_fuel h primary
     (_extract_from_image file_content) (standardize_mrz raw_mrz_data)
     (Some (path_name (S (next_name fs)))) = Some (calls, inr (result, h'))) ->
  pipeline file_content doc_type raw_mrz_data fs
  = (Some (payload_of result),
     delete_file (S (next_name fs)) (snd (mktemp (after_text fs)))).
Proof.
  intros Hkind Htext Hchain. unfold pipeline, _pipeline_extract.
  rewrite (extract_text_image _ _ Hkind), Htext. cbn [negb].
  unfold materialize. rewrite Hkind. cbn [mktemp after_text next_name option_map].
  destruct (build_chain doc_type (standardize_mrz raw_mrz_data) []) as [primary h].
  rewrite Hchain. unfold try_remove, exists_file. cbn [files existsb].
  rewrite Nat.eqb_refl. reflexivity.
Qed.

End PipelineFacts.

(** C8 (what the code does): for an image whose OCR text is not empty
    and the document type "USA", the chain is the US passport strategy
    alone, its extract raises, _pipeline_extract returns None, and the
    temporary file created for the strategies (the second name of the
    call, new to the directory) still exists when the call returns. *)
Theorem pipeline_leaves_temp_file_when_chain_raises
  (dateparser_parse : dp_settings -> string -> exn + option date) (today : date)
  (extract_other :
     strategy_class -> string -> option MRZData -> option string -> M ExtractionResult)
  (filetype_guess : string -> option file_kind)
  (_extract_from_image _extract_from_pdf : string -> string)
  (convert_from_path : string -> exn + nat) (save_raises : string -> bool)
  (file_content : string) (raw_mrz_data : option (list (string * pyval)))
  (fs : fs_state) :
  filetype_guess file_content = Some ImageKind ->
  str_truthy (_extract_from_image file_content) = true ->
  forallb (fun p => (p <? next_name fs)%nat) (files fs) = true ->
  let out := _pipeline_extract dateparser_parse today extract_other filetype_guess
               _extract_from_image _extract_from_pdf convert_from_path save_raises
               file_content "USA" raw_mrz_data fs in
  let temp_file := S (next_name fs) in
  fst out = None
  /\ files (snd out) = temp_file :: files fs
  /\ exists_file temp_file (snd out) = true
  /\ exists_file temp_file fs = false.
Proof.
  intros Hkind Htext Hfresh out temp_file.
  assert (Hout : out = (None, snd (mktemp (after_text fs)))).
  { unfold out.
    apply (pipeline_image_chain_raises dateparser_parse today extract_other
             filetype_guess _extract_from_image _extract_from_pdf convert_from_path
             save_raises file_content "USA" raw_mrz_data fs [0%nat]
             (AttributeError "errors") Hkind Htext).
    change (build_chain "USA" (standardize_mrz raw_mrz_data) [])
      with (0%nat, [strategy_init USPassportStrategy]).
    unfold chain_strategies, chain_fuel. cbn [chain_loop nth_error strategy_init cls].
    cbn [extract]. rewrite us_extract_raises, Htext. reflexivity. }
  rewrite Hout. cbn [fst snd mktemp after_text files next_name].
  rewrite (filter_fresh _ _ Hfresh).
  split; [reflexivity|]. split; [reflexivity|]. split.
  - unfold exists_file. cbn [files existsb]. unfold temp_file.
    now rewrite Nat.eqb_refl.
  - unfold exists_file. destruct (existsb _ (files fs)) eqn:Hex; [|reflexivity].
    apply existsb_exists in Hex. destruct Hex as (p & Hp & Heq).
    apply Nat.eqb_eq in Heq. rewrite forallb_forall in Hfresh.
    specialize (Hfresh p Hp). apply Nat.ltb_lt in Hfresh. unfold temp_file in Heq. lia.
Qed.

Lemma pipeline_leaves_temp_file_witness :
  let out := _pipeline_extract no_dateparser (mkdate 2026 11 3) extract_nothing
               (fun _ => Some ImageKind) (fun _ => "P<USASMITH<<JOHN") (fun _ => "")
               (fun _ => inr 1%nat) (fun _ => false)
               "image bytes" "USA" None (mkFs [] 0) in
  fst out = None
  /\ files (snd out) = [1%nat]
  /\ exists_file 1 (snd out) = true
  /\ exists_file 1 (mkFs [] 0) = false.
Proof.
  exact (pipeline_leaves_temp_file_when_chain_raises no_dateparser (mkdate 2026 11 3)
           extract_nothing (fun _ => Some ImageKind) (fun _ => "P<USASMITH<<JOHN")
           (fun _ => "") (fun _ => inr 1%nat) (fun _ => false)
           "image bytes" None (mkFs [] 0) eq_refl eq_refl eq_refl).
Defined.

(** ** The final selection of the country resolver *)








(** A higher score still wins over the source: the MRZ candidate of
    score 10 is selected over a generic token of score 3. *)
Example select_country_by_score :
  select_country [("XYZ", 3%float, "Generic"); ("ESP", 10%float, "MRZ")] = Some "ESP".
Proof. vm_compute. reflexivity. Qed.

(** ** Two-digit years *)

(** The text YYMMDD of three two-digit numbers. *)
Lemma int_of_two_digits :
  forallb (fun n => match int_of_string (pad_digits 2 (Z.of_nat n) "") with
                    | Some z => z =? Z.of_nat n
                    | None => false
                    end) (seq 0 100) = true.
Proof. vm_compute. reflexivity. Qed.

Lemma int_of_pad2 (n : Z) :
  0 <= n < 100 -> int_of_string (pad_digits 2 n "") = Some n.
Proof.
  intro Hn. assert (H := int_of_two_digits). rewrite forallb_forall in H.
  specialize (H (Z.to_nat n)). rewrite Z2Nat.id in H by lia.
  destruct (int_of_string (pad_digits 2 n "")) as [z|].
  - f_equal. apply Z.eqb_eq. apply H. apply in_seq. lia.
  - discriminate H. apply in_seq. lia.
Qed.

Lemma slices_of_yymmdd (y m d : Z) :
  let s := (pad_digits 2 y "" ++ pad_digits 2 m "" ++ pad_digits 2 d "")%string in
  str_truthy s = true
  /\ slice s 0 2 = pad_digits 2 y ""
  /\ slice s 2 4 = pad_digits 2 m ""
  /\ slice s 4 6 = pad_digits 2 d "".
Proof. cbn. repeat split; reflexivity. Qed.

(** C5, as stated, fails: the paths do not share one pivot rule. With
    today = 2026-11-03, _build_date expands 40 to 1940 (and so finds no
    date) where the MRZ rule gives 2040, and the YYMMDD fallback of
    _parse_date_with_pivot_and_validation expands 50 to 2050 where the
    MRZ rule gives 1950. *)
Lemma pivot_rules_differ :
  let today := mkdate 2026 11 3 in
  MRZStrategy_expiration "400101" = Some (mkdate 2040 1 1)
  /\ build_date_year 40 today = 1940
  /\ _build_date 1 1 40 today = None
  /\ MRZStrategy_expiration "500101" = Some (mkdate 1950 1 1)
  /\ sliding_pivot_year today 50 = (2050, false)
  /\ _parse_date_with_pivot_and_validation no_dateparser today "500101"
     = (Some (mkdate 2050 1 1), [], ["Suspiciously far future date: 2050-01-01"]).
Proof. vm_compute. repeat split; reflexivity. Qed.

(** C5 (amended): MRZStrategy.extract expands the two-digit year Y of a
    YYMMDD string to 2000+Y when Y < 50 and to 1900+Y when Y >= 50 (49
    gives 2049, 50 gives 1950). The other paths expand by rules of their
    own: _build_date to 2000+Y when Y is at most the current two-digit
    year plus 10 and to 1900+Y otherwise; the YYMMDD fallback of
    _parse_date_with_pivot_and_validation to the current century when Y
    is at least the current two-digit year minus 20 and to the next
    century otherwise. *)
Theorem mrz_pivot_rule (y m d : Z) (today : date) :
  0 <= y < 100 -> 0 <= m < 100 -> 0 <= d < 100 ->
  MRZStrategy_expiration
    (pad_digits 2 y "" ++ pad_digits 2 m "" ++ pad_digits 2 d "")%string
  = date_new (if y <? 50 then 2000 + y else 1900 + y) m d
  /\ mrz_pivot_year 49 = 2049
  /\ mrz_pivot_year 50 = 1950
  /\ build_date_year y today
     = (if y <=? year today mod 100 + 10 then 2000 + y else 1900 + y)
  /\ fst (sliding_pivot_year today y)
     = (if year today mod 100 - 20 <=? y
        then 100 * (year today / 100) + y
        else 100 * (year today / 100 + 1) + y).
Proof.
  intros Hy Hm Hd.
  destruct (slices_of_yymmdd y m d) as (Ht & Hsy & Hsm & Hsd).
  split; [|split; [reflexivity|split; [reflexivity|split]]].
  - unfold MRZStrategy_expiration. rewrite Ht, Hsy, Hsm, Hsd.
    rewrite !int_of_pad2 by assumption. unfold mrz_pivot_year.
    destruct (y <? 50); f_equal; lia.
  - unfold build_date_year.
    replace (y <? 100) with true by (symmetry; apply Z.ltb_lt; lia).
    destruct (y <=? year today mod 100 + 10); lia.
  - unfold sliding_pivot_year.
    destruct (year today mod 100 - 20 <=? y); cbn [fst]; lia.
Qed.

Lemma mrz_pivot_rule_witness :
  MRZStrategy_expiration
    (pad_digits 2 49 "" ++ pad_digits 2 12 "" ++ pad_digits 2 31 "")%string
  = date_new (if 49 <? 50 then 2000 + 49 else 1900 + 49) 12 31
  /\ mrz_pivot_year 49 = 2049
  /\ mrz_pivot_year 50 = 1950
  /\ build_date_year 49 (mkdate 2026 11 3)
     = (if 49 <=? year (mkdate 2026 11 3) mod 100 + 10 then 2000 + 49 else 1900 + 49)
  /\ fst (sliding_pivot_year (mkdate 2026 11 3) 49)
     = (if year (mkdate 2026 11 3) mod 100 - 20 <=? 49
        then 100 * (year (mkdate 2026 11 3) / 100) + 49
        else 100 * (year (mkdate 2026 11 3) / 100 + 1) + 49).
Proof.
  apply (mrz_pivot_rule 49 12 31 (mkdate 2026 11 3)); lia.
Defined.

(** ** Validation of a parsed expiration date *)

Lemma add_errors_fields (errors : list string) (o : strategy) :
  _validation_errors (fold_left strategy_add_error errors o)
  = _validation_errors o ++ errors
  /\ _warnings (fold_left strategy_add_error errors o) = _warnings o.
Proof.
  revert o. induction errors as [|e errors IH]; intro o; cbn [fold_left].
  - now rewrite app_nil_r.
  - destruct (IH (strategy_add_error o e)) as [-> ->]. cbn.
    now rewrite <- app_assoc.
Qed.

Lemma add_warnings_fields (warnings : list string) (o : strategy) :
  _validation_errors (fold_left strategy_add_warning warnings o) = _validation_errors o
  /\ _warnings (fold_left strategy_add_warning warnings o) = _warnings o ++ warnings.
Proof.
  revert o. induction warnings as [|w warnings IH]; intro o; cbn [fold_left].
  - now rewrite app_nil_r.
  - destruct (IH (strategy_add_warning o w)) as [-> ->]. cbn.
    now rewrite <- app_assoc.
Qed.

(** The errors and warnings a helper returns are appended, in order, to
    those of the strategy. *)
Lemma record_all_fields (o : strategy) (errors warnings : list string) :
  _validation_errors (record_all o errors warnings) = _validation_errors o ++ errors
  /\ _warnings (record_all o errors warnings) = _warnings o ++ warnings.
Proof.
  unfold record_all.
  destruct (add_warnings_fields warnings (fold_left strategy_add_error errors o))
    as [-> ->].
  destruct (add_errors_fields errors o) as [-> ->]. split; reflexivity.
Qed.

(** Every result of [_parse_date_with_pivot_and_validation] on a
    non-empty string comes out of the final validation. *)
Lemma parse_date_goes_through_validation
  (dateparser_parse : dp_settings -> string -> exn + option date)
  (today : date) (raw : string) :
  str_truthy raw = true ->
  exists parsed warnings,
    _parse_date_with_pivot_and_validation dateparser_parse today raw
    = validate_parsed_date today raw parsed [] warnings.
Proof.
  intro Hraw. unfold _parse_date_with_pivot_and_validation. rewrite Hraw. cbn [negb].
  destruct (dateparser_parse settings_pivot raw) as [e|[d|]].
  - destruct (regex_fallbacks today raw 0 regex_patterns _) as [parsed ws]. eauto.
  - eauto.
  - destruct (regex_fallbacks today raw 0 regex_patterns []) as [parsed ws]. eauto.
Qed.

Lemma build_date_some (d m y : Z) (today dt : date) :
  _build_date d m y today = Some dt ->
  date_new (build_date_year y today) m d = Some dt /\ toordinal today < toordinal dt.
Proof.
  unfold _build_date, date_ltb.
  destruct (date_new (build_date_year y today) m d) as [dt'|]; [|discriminate].
  destruct (toordinal today <? toordinal dt') eqn:Hlt; [|discriminate].
  intros [= <-]. split; [reflexivity|]. now apply Z.ltb_lt.
Qed.

(** C6, as stated, fails: the paths are not uniform. With today =
    2026-11-03, the date 2026-11-03 is accepted by
    _parse_date_with_pivot_and_validation and rejected by _build_date,
    which also returns the date 2060-01-01 with no warning to record. *)
Lemma build_date_rejects_today :
  let today := mkdate 2026 11 3 in
  date_new 2026 11 3 = Some today
  /\ _build_date 3 11 2026 today = None
  /\ _parse_date_with_pivot_and_validation no_dateparser today "03.11.2026"
     = (Some today, [], [])
  /\ _build_date 1 1 2060 today = Some (mkdate 2060 1 1)
  /\ _parse_date_with_pivot_and_validation no_dateparser today "01.01.2060"
     = (Some (mkdate 2060 1 1), [], ["Suspiciously far future date: 2060-01-01"]).
Proof. vm_compute. repeat split; reflexivity. Qed.

(** C6 (amended): in _parse_date_with_pivot_and_validation, a parsed
    date earlier than the day before today is rejected (None is returned
    and the error "Date ... is in the past" is recorded), a date equal to
    today or later is returned, and a date more than 7300 days (365*20)
    after today is returned with the warning "Suspiciously far future
    date: ..." recorded; the strategy that called the helper appends these
    errors and warnings to its own. In _find_expiration_date, _build_date returns a
    date only when it is strictly after today (today itself gives None)
    and records neither an error nor a warning. *)
Theorem date_validation_by_path
  (dateparser_parse : dp_settings -> string -> exn + option date)
  (today : date) (raw : string) :
  str_truthy raw = true ->
  (exists parsed warnings,
      _parse_date_with_pivot_and_validation dateparser_parse today raw
      = validate_parsed_date today raw parsed [] warnings)
  /\ (forall d errors warnings,
        let out := validate_parsed_date today raw (Some d) errors warnings in
        (toordinal d < toordinal today - 1 ->
         out = (None, errors ++ [("Date " ++ date_str d ++ " is in the past")%string],
                warnings))
        /\ (toordinal today <= toordinal d <= toordinal today + 365 * 20 ->
            out = (Some d, errors, warnings))
        /\ (toordinal today + 365 * 20 < toordinal d ->
            out = (Some d, errors,
                   warnings ++ [("Suspiciously far future date: " ++ date_str d)%string])))
  /\ (forall self : strategy,
        exists self',
          recorded_parse_date dateparser_parse today raw self
          = inr (fst (fst (_parse_date_with_pivot_and_validation dateparser_parse
                             today raw)), self')
          /\ _validation_errors self'
             = _validation_errors self
               ++ snd (fst (_parse_date_with_pivot_and_validation dateparser_parse
                              today raw))
          /\ _warnings self'
             = _warnings self
               ++ snd (_parse_date_with_pivot_and_validation dateparser_parse today raw))
  /\ (forall dd mm yy dt,
        _build_date dd mm yy today = Some dt -> toordinal today < toordinal dt)
  /\ (forall dd mm yy,
        date_new (build_date_year yy today) mm dd = Some today ->
        _build_date dd mm yy today = None).
Proof.
  intro Hraw.
  split; [now apply parse_date_goes_through_validation|].
  split; [|split; [|split]].
  - intros d errors warnings out. unfold out, validate_parsed_date,
      before_minus_days, after_plus_days.
    split; [|split].
    + intro Hpast. apply Z.ltb_lt in Hpast. rewrite Hpast. reflexivity.
    + intros [Hlo Hhi].
      replace (toordinal d <? toordinal today - 1) with false
        by (symmetry; apply Z.ltb_ge; lia).
      replace (toordinal today + 365 * 20 <? toordinal d) with false
        by (symmetry; apply Z.ltb_ge; lia).
      reflexivity.
    + intro Hfar.
      replace (toordinal d <? toordinal today - 1) with false
        by (symmetry; apply Z.ltb_ge; lia).
      apply Z.ltb_lt in Hfar. rewrite Hfar. reflexivity.
  - intro self. unfold recorded_parse_date.
    destruct (_parse_date_with_pivot_and_validation dateparser_parse today raw)
      as [[parsed errors] warnings].
    exists (record_all self errors warnings). cbn [fst snd].
    split; [reflexivity|]. apply record_all_fields.
  - intros dd mm yy dt Hb. now apply build_date_some in Hb.
  - intros dd mm yy Hnew. unfold _build_date, date_ltb. rewrite Hnew.
    now rewrite Z.ltb_irrefl.
Qed.

Lemma date_validation_by_path_witness :
  let today := mkdate 2026 11 3 in
  let raw := "03.11.2026" in
  (exists parsed warnings,
      _parse_date_with_pivot_and_validation no_dateparser today raw
      = validate_parsed_date today raw parsed [] warnings)
  /\ (forall d errors warnings,
        let out := validate_parsed_date today raw (Some d) errors warnings in
        (toordinal d < toordinal today - 1 ->
         out = (None, errors ++ [("Date " ++ date_str d ++ " is in the past")%string],
                warnings))
        /\ (toordinal today <= toordinal d <= toordinal today + 365 * 20 ->
            out = (Some d, errors, warnings))
        /\ (toordinal today + 365 * 20 < toordinal d ->
            out = (Some d, errors,
                   warnings ++ [("Suspiciously far future date: " ++ date_str d)%string])))
  /\ (forall self : strategy,
        exists self',
          recorded_parse_date no_dateparser today raw self
          = inr (fst (fst (_parse_date_with_pivot_and_validation no_dateparser
                             today raw)), self')
          /\ _validation_errors self'
             = _validation_errors self
               ++ snd (fst (_parse_date_with_pivot_and_validation no_dateparser
                              today raw))
          /\ _warnings self'
             = _warnings self
               ++ snd (_parse_date_with_pivot_and_validation no_dateparser today raw))
  /\ (forall dd mm yy dt,
        _build_date dd mm yy today = Some dt -> toordinal today < toordinal dt)
  /\ (forall dd mm yy,
        date_new (build_date_year yy today) mm dd = Some today ->
        _build_date dd mm yy today = None).
Proof.
  exact (date_validation_by_path no_dateparser (mkdate 2026 11 3) "03.11.2026" eq_refl).
Defined.

(** ** The fallback stage of _find_expiration_date *)

Lemma date_max_cases (a b : date) :
  (date_max a b = a /\ toordinal b <= toordinal a)
  \/ (date_max a b = b /\ toordinal a < toordinal b).
Proof.
  unfold date_max, date_ltb. destruct (toordinal a <? toordinal b) eqn:E.
  - right. split; [reflexivity|]. now apply Z.ltb_lt.
  - left. split; [reflexivity|]. now apply Z.ltb_ge.
Qed.

(** [furthest] is a maximum: a member of the collection, not before any
    other member. *)
Lemma furthest_is_max (ds : list date) :
  forall d : date,
    In (furthest d ds) (d :: ds)
    /\ (forall x, In x (d :: ds) -> toordinal x <= toordinal (furthest d ds)).
Proof.
  unfold furthest.
  induction ds as [|d' ds IH]; intro d; cbn [fold_left].
  - split; [now left|]. intros x [<-|[]]. lia.
  - destruct (IH (date_max d d')) as [Hin Hmax]. split.
    + destruct Hin as [Heq|Hin]; [|right; now right].
      rewrite <- Heq. destruct (date_max_cases d d') as [[-> _]|[-> _]];
        [now left|right; now left].
    + intros x Hx.
      assert (Hstep : toordinal x <= toordinal (date_max d d')
                      \/ In x ds).
      { destruct Hx as [<-|[<-|Hx]]; [| |now right]; left;
          destruct (date_max_cases d d') as [[-> H]|[-> H]]; lia. }
      destruct Hstep as [Hle|Hx'].
      * specialize (Hmax (date_max d d') (or_introl eq_refl)). lia.
      * apply Hmax. now right.
Qed.




Section FallbackFacts.

Variable dateparser_parse : dp_settings -> string -> exn + option date.

(** Every candidate of the first loop is the parser's reading of a
    matched substring and is strictly after today. *)
Lemma parse_candidates_sound (today : date) (ms : list rematch) :
  forall cands,
    parse_candidates dateparser_parse ms today = inr cands ->
    forall d, In d cands ->
      toordinal today < toordinal d
      /\ exists m, In m ms /\ dateparser_parse settings_fallback (m_text m) = inr (Some d).
Proof.
  induction ms as [|m ms IH]; intros cands Hc d Hd; cbn [parse_candidates] in Hc.
  - injection Hc as <-. destruct Hd.
  - destruct (dateparser_parse settings_fallback (m_text m)) as [e|parsed] eqn:Hm;
      [discriminate|].
    destruct (parse_candidates dateparser_parse ms today) as [e|ds] eqn:Hrest;
      [discriminate|].
    assert (Htail : In d ds ->
              toordinal today < toordinal d
              /\ exists m', In m' (m :: ms)
                   /\ dateparser_parse settings_fallback (m_text m') = inr (Some d)).
    { intro Hin. destruct (IH ds eq_refl d Hin) as (Hlt & m' & Hm' & Hp).
      split; [exact Hlt|]. exists m'. split; [now right|exact Hp]. }
    destruct parsed as [dt|]; [|injection Hc as <-; now apply Htail].
    unfold date_ltb in Hc. destruct (toordinal today <? toordinal dt) eqn:Hlt;
      injection Hc as <-; [|now apply Htail].
    destruct Hd as [<-|Hin]; [|now apply Htail].
    split; [now apply Z.ltb_lt|]. exists m. split; [now left|exact Hm].
Qed.



End FallbackFacts.




(** ** Dates: the order of the ordinals is the order of (year, month, day) *)

Lemma valid_date_bounds (d : date) :
  valid_date d ->
  1 <= year d <= 9999 /\ 1 <= month d <= 12
  /\ 1 <= day d <= days_in_month (year d) (month d).
Proof.
  unfold valid_date, date_new. intro H.
  destruct ((1 <=? year d) && (year d <=? 9999) && (1 <=? month d) && (month d <=? 12)
            && (1 <=? day d) && (day d <=? days_in_month (year d) (month d))) eqn:E;
    [|discriminate].
  repeat (apply andb_prop in E; destruct E as [E ?]).
  repeat match goal with
         | H : (_ <=? _) = true |- _ => apply Z.leb_le in H
         end.
  lia.
Qed.

Lemma month_cases (m : Z) :
  1 <= m <= 12 ->
  m = 1 \/ m = 2 \/ m = 3 \/ m = 4 \/ m = 5 \/ m = 6 \/ m = 7 \/ m = 8 \/ m = 9
  \/ m = 10 \/ m = 11 \/ m = 12.
Proof. lia. Qed.

Lemma days_before_year_succ (y : Z) :
  days_before_year (y + 1) = days_before_year y + (if is_leap y then 366 else 365).
Proof.
  unfold days_before_year, is_leap. replace (y + 1 - 1) with y by lia.
  destruct (y mod 4 =? 0) eqn:E4; destruct (y mod 100 =? 0) eqn:E100;
    destruct (y mod 400 =? 0) eqn:E400; cbn [andb orb negb];
    repeat match goal with
           | H : (_ =? _) = true |- _ => apply Z.eqb_eq in H
           | H : (_ =? _) = false |- _ => apply Z.eqb_neq in H
           end;
    Z.div_mod_to_equations; lia.
Qed.

Lemma days_before_year_mono (y1 y2 : Z) :
  y1 < y2 ->
  days_before_year y1 + (if is_leap y1 then 366 else 365) <= days_before_year y2.
Proof.
  intro Hlt. rewrite <- (days_before_year_succ y1).
  assert (Hstep : forall n : nat,
             days_before_year (y1 + 1) <= days_before_year (y1 + 1 + Z.of_nat n)).
  { induction n as [|n IH]; [cbn [Z.of_nat]; rewrite Z.add_0_r; lia|].
    replace (y1 + 1 + Z.of_nat (S n)) with (y1 + 1 + Z.of_nat n + 1) by lia.
    rewrite (days_before_year_succ (y1 + 1 + Z.of_nat n)).
    destruct (is_leap (y1 + 1 + Z.of_nat n)); lia. }
  specialize (Hstep (Z.to_nat (y2 - y1 - 1))).
  replace (y1 + 1 + Z.of_nat (Z.to_nat (y2 - y1 - 1))) with y2 in Hstep by lia.
  exact Hstep.
Qed.

(** Evaluates the table lookups once the month is a numeral. *)
Ltac eval_month_tables :=
  repeat match goal with
         | |- context [Z.to_nat ?k] =>
             let v := eval vm_compute in (Z.to_nat k) in change (Z.to_nat k) with v
         | H : context [Z.to_nat ?k] |- _ =>
             let v := eval vm_compute in (Z.to_nat k) in change (Z.to_nat k) with v in H
         end;
  cbn [nth Z.eqb Z.ltb Z.compare Pos.compare Pos.compare_cont Pos.eqb andb] in *.

(** The day of the year of a valid date lies within the year. *)
Lemma day_of_year_bounds (d : date) :
  valid_date d ->
  1 <= days_before_month (year d) (month d) + day d
    <= (if is_leap (year d) then 366 else 365).
Proof.
  intro Hv. destruct (valid_date_bounds d Hv) as (_ & Hm & Hd).
  unfold days_in_month in Hd. unfold days_before_month.
  destruct (month_cases _ Hm) as [E|[E|[E|[E|[E|[E|[E|[E|[E|[E|[E|E]]]]]]]]]]];
    rewrite E in *; eval_month_tables; destruct (is_leap (year d)); cbn [andb] in *; lia.
Qed.

(** Within one year, an earlier month or an earlier day of the same
    month is an earlier day of the year. *)
Lemma day_of_year_lex (y m1 d1 m2 d2 : Z) :
  1 <= m1 <= 12 -> 1 <= m2 <= 12 ->
  1 <= d1 <= days_in_month y m1 -> 1 <= d2 <= days_in_month y m2 ->
  (days_before_month y m1 + d1 < days_before_month y m2 + d2
   <-> m1 < m2 \/ (m1 = m2 /\ d1 < d2)).
Proof.
  intros Hm1 Hm2 Hd1 Hd2. unfold days_in_month in Hd1, Hd2. unfold days_before_month.
  destruct (month_cases _ Hm1) as [E|[E|[E|[E|[E|[E|[E|[E|[E|[E|[E|E]]]]]]]]]]];
    rewrite E in *; clear E;
    destruct (month_cases _ Hm2) as [E|[E|[E|[E|[E|[E|[E|[E|[E|[E|[E|E]]]]]]]]]]];
    rewrite E in *; clear E;
    eval_month_tables; destruct (is_leap y); cbn [andb] in *; lia.
Qed.

(** On valid dates, comparing ordinals is comparing (year, month, day). *)
Lemma date_ltb_lex (a b : date) :
  valid_date a -> valid_date b -> date_ltb a b = date_lex_ltb a b.
Proof.
  intros Ha Hb.
  destruct (valid_date_bounds a Ha) as (Hya & Hma & Hda).
  destruct (valid_date_bounds b Hb) as (Hyb & Hmb & Hdb).
  assert (Hdoya := day_of_year_bounds a Ha).
  assert (Hdoyb := day_of_year_bounds b Hb).
  unfold date_ltb, date_lex_ltb, toordinal.
  destruct (Z.lt_trichotomy (year a) (year b)) as [Hlt|[Heq|Hgt]].
  - replace (year a <? year b) with true by (symmetry; apply Z.ltb_lt; lia).
    cbn [orb]. apply Z.ltb_lt.
    assert (H := days_before_year_mono _ _ Hlt).
    destruct (is_leap (year a)); lia.
  - replace (year a <? year b) with false by (symmetry; apply Z.ltb_ge; lia).
    replace (year a =? year b) with true by (symmetry; apply Z.eqb_eq; lia).
    cbn [orb andb]. rewrite Heq in *.
    assert (Hlex := day_of_year_lex (year b) (month a) (day a) (month b) (day b)
                      Hma Hmb Hda Hdb).
    destruct (month a <? month b) eqn:Em; cbn [orb].
    + apply Z.ltb_lt in Em. apply Z.ltb_lt. lia.
    + apply Z.ltb_ge in Em. destruct (month a =? month b) eqn:Ee; cbn [andb].
      * apply Z.eqb_eq in Ee. destruct (day a <? day b) eqn:Ed.
        -- apply Z.ltb_lt in Ed. apply Z.ltb_lt. lia.
        -- apply Z.ltb_ge in Ed. apply Z.ltb_ge. lia.
      * apply Z.eqb_neq in Ee. apply Z.ltb_ge. lia.
  - replace (year a <? year b) with false by (symmetry; apply Z.ltb_ge; lia).
    replace (year a =? year b) with false by (symmetry; apply Z.eqb_neq; lia).
    cbn [orb andb]. apply Z.ltb_ge.
    assert (H := days_before_year_mono _ _ Hgt).
    destruct (is_leap (year b)); lia.
Qed.

(** * Further properties *)

(** ** Validation helpers of the strategies *)

Lemma all_upper_all_alpha (l : chars) :
  all_chars is_upper l = true -> all_chars is_alpha l = true.
Proof.
  induction l as [|c l IH]; cbn [all_chars]; [reflexivity|].
  intro H. apply andb_prop in H. destruct H as [Hc Hl].
  rewrite (IH Hl). unfold is_alpha. rewrite Hc. reflexivity.
Qed.

Lemma str_truthy_length (s : string) :
  str_truthy s = negb (List.length (chars_of s) =? 0)%nat.
Proof. destruct s; reflexivity. Qed.

(** X1: on a country code of ASCII characters, the base
    _validate_country_code accepts exactly the strings of three
    upper-case letters A to Z; an accepted code leaves the strategy
    untouched, a rejected one records exactly one error and nothing
    else. (Outside ASCII, Python's isalpha and isupper also accept other
    upper-case letters.) *)
Theorem validate_country_code_spec (o : strategy) (country_code : string) :
  all_chars is_ascii (chars_of country_code) = true ->
  (fst (_validate_country_code o country_code) = true
   <-> List.length (chars_of country_code) = 3%nat
       /\ all_chars is_upper (chars_of country_code) = true)
  /\ (fst (_validate_country_code o country_code) = true ->
      snd (_validate_country_code o country_code) = o)
  /\ (fst (_validate_country_code o country_code) = false ->
      exists msg,
        snd (_validate_country_code o country_code) = strategy_add_error o msg)
  /\ _warnings (snd (_validate_country_code o country_code)) = _warnings o
  /\ _fallback_strategy (snd (_validate_country_code o country_code))
     = _fallback_strategy o.
Proof.
  intros _.
  unfold _validate_country_code. rewrite str_truthy_length.
  destruct (List.length (chars_of country_code) =? 3)%nat eqn:Hlen.
  - apply Nat.eqb_eq in Hlen. rewrite Hlen. cbn [Nat.eqb negb].
    destruct (all_chars is_upper (chars_of country_code)) eqn:Hup.
    + rewrite (all_upper_all_alpha _ Hup). cbn [negb fst snd].
      repeat split; try reflexivity; intros; try discriminate; auto.
    + destruct (all_chars is_alpha (chars_of country_code)); cbn [negb fst snd];
        (split; [split; [discriminate|intros [_ H]; discriminate H]|]);
        (split; [discriminate|]); (split; [eauto|]); split; reflexivity.
  - assert (Hne : List.length (chars_of country_code) <> 3%nat)
      by (now apply Nat.eqb_neq).
    destruct (List.length (chars_of country_code) =? 0)%nat; cbn [negb fst snd];
      (split; [split; [discriminate|intros [H _]; contradiction]|]);
      (split; [discriminate|]); (split; [eauto|]); split; reflexivity.
Qed.

Lemma validate_country_code_spec_witness :
  fst (_validate_country_code (strategy_init GenericStrategy) "ESP") = true
  /\ fst (_validate_country_code (strategy_init GenericStrategy) "Esp") = false.
Proof.
  split.
  - apply (proj1 (validate_country_code_spec (strategy_init GenericStrategy) "ESP"
                    eq_refl)).
    split; reflexivity.
  - destruct (fst (_validate_country_code (strategy_init GenericStrategy) "Esp"))
      eqn:E; [|reflexivity].
    apply (proj1 (validate_country_code_spec (strategy_init GenericStrategy) "Esp"
                    eq_refl)) in E.
    destruct E as [_ E]. discriminate E.
Defined.

(** X2: _validate_document_number accepts exactly the non-empty numbers
    of 6 to 12 characters; an accepted number leaves the strategy
    untouched, a rejected one records exactly one error. *)
Theorem validate_document_number_spec (o : strategy) (number doc_type : string) :
  (fst (_validate_document_number o number doc_type) = true
   <-> (6 <= List.length (chars_of number) <= 12)%nat)
  /\ (fst (_validate_document_number o number doc_type) = true ->
      snd (_validate_document_number o number doc_type) = o)
  /\ (fst (_validate_document_number o number doc_type) = false ->
      exists msg,
        snd (_validate_document_number o number doc_type) = strategy_add_error o msg).
Proof.
  unfold _validate_document_number. rewrite str_truthy_length.
  destruct (List.length (chars_of number) =? 0)%nat eqn:H0; cbn [negb].
  - apply Nat.eqb_eq in H0. cbn [fst snd].
    split; [split; [discriminate|lia]|]. split; [discriminate|eauto].
  - destruct (List.length (chars_of number) <? 6)%nat eqn:H6.
    + apply Nat.ltb_lt in H6. cbn [fst snd].
      split; [split; [discriminate|lia]|]. split; [discriminate|eauto].
    + apply Nat.ltb_ge in H6.
      destruct (12 <? List.length (chars_of number))%nat eqn:H12.
      * apply Nat.ltb_lt in H12. cbn [fst snd].
        split; [split; [discriminate|lia]|]. split; [discriminate|eauto].
      * apply Nat.ltb_ge in H12. cbn [fst snd].
        split; [split; [lia|reflexivity]|]. split; [reflexivity|discriminate].
Qed.

(** Closes the cases of a function that returns literal message lists. *)
Ltac settle_messages :=
  cbn; repeat split; intros;
  try discriminate; try lia; try congruence;
  try (exfalso; match goal with H : ?x <> ?x |- _ => now apply H end).

(** X3: _looks_valid_number reports a number invalid exactly when it
    returns an error; it returns at most one message in all; a warning
    comes only with doc_type "generic" and never with an error; the
    empty number is always invalid. *)
Theorem looks_valid_number_messages (number doc_type : string) :
  let is_valid := fst (fst (_looks_valid_number number doc_type)) in
  let errors := snd (fst (_looks_valid_number number doc_type)) in
  let warnings := snd (_looks_valid_number number doc_type) in
  (is_valid = false <-> errors <> [])
  /\ (List.length errors + List.length warnings <= 1)%nat
  /\ (warnings <> [] -> doc_type = "generic" /\ is_valid = true)
  /\ (number = "" -> is_valid = false).
Proof.
  unfold _looks_valid_number.
  destruct (str_truthy number) eqn:Ht; cbn [negb]; [|settle_messages].
  assert (Hne : number <> "") by (intros ->; discriminate Ht).
  destruct (str_truthy (strip number)); cbn [negb]; [|settle_messages].
  destruct (all_same_digit number); [settle_messages|].
  destruct (String.eqb doc_type "passport");
    [destruct (is_match (number_format 6 10) number); settle_messages|].
  destruct (String.eqb doc_type "id_card");
    [destruct (is_match (number_format 6 12) number); settle_messages|].
  destruct (String.eqb doc_type "visa");
    [destruct (is_match visa_number_format number); settle_messages|].
  destruct (String.eqb doc_type "generic") eqn:Hg.
  - apply String.eqb_eq in Hg.
    destruct (is_match (number_format 6 12) number); settle_messages.
  - settle_messages.
Qed.

(** ** Parsing and resolving expiration dates *)

Lemma date_new_valid (y m d : Z) (dt : date) :
  date_new y m d = Some dt -> valid_date dt.
Proof.
  unfold date_new.
  destruct ((1 <=? y) && (y <=? 9999) && (1 <=? m) && (m <=? 12) && (1 <=? d)
            && (d <=? days_in_month y m)) eqn:E; [|discriminate].
  intros [= <-]. unfold valid_date, date_new. cbn [year month day].
  rewrite E. reflexivity.
Qed.

Lemma date_new_err_valid (y m d : Z) (dt : date) :
  date_new_err y m d = inr dt -> valid_date dt.
Proof.
  unfold date_new_err. destruct (date_new y m d) as [dt'|] eqn:E.
  - intros [= <-]. now apply date_new_valid in E.
  - destruct (negb _); [discriminate|]. destruct (negb _); discriminate.
Qed.

Lemma try_pattern_valid (today : date) (raw : string) (i : nat) (m : rematch)
  (d : date) (ws : list string) :
  try_pattern today raw i m = Parsed d ws -> valid_date d.
Proof.
  unfold try_pattern.
  destruct i as [|[|[|[|i]]]].
  1,2: repeat match goal with
              | |- context [match date_new ?y ?mo ?dd with _ => _ end] =>
                  let E := fresh "E" in
                  destruct (date_new y mo dd) as [?d|] eqn:E;
                  [intros [= <- _]; now apply date_new_valid in E|]
              end; discriminate.
  - destruct (date_new_err _ _ _) as [ve|d1] eqn:E1; [discriminate|].
    intros [= <- _]. now apply date_new_err_valid in E1.
  - destruct (sliding_pivot_year today (group_int m 1)) as [full_year pivoted].
    destruct (date_new_err _ _ _) as [ve|d1] eqn:E1; [discriminate|].
    intros [= <- _]. now apply date_new_err_valid in E1.
  - destruct (dict_get month_map _) as [month_int|]; [|discriminate].
    destruct (date_new_err _ _ _) as [ve|d1] eqn:E1; [discriminate|].
    intros [= <- _]. now apply date_new_err_valid in E1.
Qed.

(** A date produced by the regex fallbacks is a date of the calendar. *)
Lemma regex_fallbacks_valid (today : date) (raw : string) (patterns : list regex) :
  forall (i : nat) (warnings warnings' : list string) (d : date),
    regex_fallbacks today raw i patterns warnings = (Some d, warnings') ->
    valid_date d.
Proof.
  induction patterns as [|pattern patterns IH]; intros i ws ws' d;
    cbn [regex_fallbacks]; [discriminate|].
  destruct (re_match pattern raw) as [m|]; [|apply IH].
  destruct (try_pattern today raw i m) as [d1 ws1| |ve ws1] eqn:Htry.
  - intros [= <- _]. now apply try_pattern_valid in Htry.
  - apply IH.
  - apply IH.
Qed.

(** X4: _parse_date_with_pivot_and_validation returns None exactly when
    it returns an error, and never more than one error; a date it returns
    is never earlier than the day before today, carries the far-future
    warning when it is more than 7300 days ahead, and is a date of the
    calendar whenever dateparser itself found nothing. *)
Theorem parse_date_result_shape
  (dateparser_parse : dp_settings -> string -> exn + option date)
  (today : date) (raw : string) :
  let parsed := fst (fst (_parse_date_with_pivot_and_validation dateparser_parse
                            today raw)) in
  let errors := snd (fst (_parse_date_with_pivot_and_validation dateparser_parse
                            today raw)) in
  let warnings := snd (_parse_date_with_pivot_and_validation dateparser_parse
                         today raw) in
  (parsed = None <-> errors <> [])
  /\ (List.length errors <= 1)%nat
  /\ (forall d, parsed = Some d ->
        toordinal today - 1 <= toordinal d
        /\ (toordinal today + 365 * 20 < toordinal d ->
            In ("Suspiciously far future date: " ++ date_str d)%string warnings)
        /\ (dateparser_parse settings_pivot raw <> inr (Some d) -> valid_date d)).
Proof.
  unfold _parse_date_with_pivot_and_validation.
  destruct (str_truthy raw); cbn [negb]; [|settle_messages].
  assert (Hval : forall (p : option date) (ws : list string),
             (forall d, p = Some d ->
                dateparser_parse settings_pivot raw <> inr (Some d) -> valid_date d) ->
             let out := validate_parsed_date today raw p [] ws in
             (fst (fst out) = None <-> snd (fst out) <> [])
             /\ (List.length (snd (fst out)) <= 1)%nat
             /\ (forall d, fst (fst out) = Some d ->
                   toordinal today - 1 <= toordinal d
                   /\ (toordinal today + 365 * 20 < toordinal d ->
                       In ("Suspiciously far future date: " ++ date_str d)%string
                          (snd out))
                   /\ (dateparser_parse settings_pivot raw <> inr (Some d) ->
                       valid_date d))).
  { intros p ws Hp. unfold validate_parsed_date, before_minus_days, after_plus_days.
    destruct p as [d|]; [|settle_messages].
    destruct (toordinal d <? toordinal today - 1) eqn:Hpast; [settle_messages|].
    apply Z.ltb_ge in Hpast.
    destruct (toordinal today + 365 * 20 <? toordinal d) eqn:Hfar; cbn [fst snd].
    - split; [split; [discriminate|now intros []]|]. split; [cbn; lia|].
      intros d' [= <-]. split; [lia|]. split; [|now apply Hp].
      intros _. apply in_or_app. right. now left.
    - apply Z.ltb_ge in Hfar.
      split; [split; [discriminate|now intros []]|]. split; [cbn; lia|].
      intros d' [= <-]. split; [lia|]. split; [lia|now apply Hp]. }
  destruct (dateparser_parse settings_pivot raw) as [e|[d0|]] eqn:Hdp.
  - destruct (regex_fallbacks today raw 0 regex_patterns _) as [p ws] eqn:Hre.
    apply Hval. intros d -> _. now apply regex_fallbacks_valid in Hre.
  - apply Hval. intros d [= <-] Hne. now contradiction Hne.
  - destruct (regex_fallbacks today raw 0 regex_patterns []) as [p ws] eqn:Hre.
    apply Hval. intros d -> _. now apply regex_fallbacks_valid in Hre.
Qed.

Lemma build_date_future (d m y : Z) (today dt : date) :
  _build_date d m y today = Some dt -> toordinal today < toordinal dt.
Proof. intro H. now apply build_date_some in H. Qed.

Lemma stage_mrz_future (mrz : option (list (string * option string)))
  (today dt : date) :
  stage_mrz mrz today = Some dt -> toordinal today < toordinal dt.
Proof.
  unfold stage_mrz.
  destruct mrz as [[|entry entries]|]; try discriminate.
  destruct (dict_get (entry :: entries) "expiration_date") as [[mrz_date|]|];
    try discriminate.
  destruct (String.length mrz_date =? 6)%nat; [|discriminate].
  destruct (int_of_string (slice mrz_date 0 2)) as [y|]; [|discriminate].
  destruct (int_of_string (slice mrz_date 2 4)) as [m|]; [|discriminate].
  destruct (int_of_string (slice mrz_date 4 6)) as [d|]; [|discriminate].
  apply build_date_future.
Qed.

Lemma first_dd_mon_yyyy_future (today dt : date) (ms : list rematch) :
  first_dd_mon_yyyy ms today = Some dt -> toordinal today < toordinal dt.
Proof.
  induction ms as [|m ms IH]; cbn [first_dd_mon_yyyy]; [discriminate|].
  destruct (_normalize_month_name (group_str m 2)) as [mo|]; [|exact IH].
  destruct (_build_date (group_int m 1) mo (group_int m 3) today) as [dt'|] eqn:Hb;
    [|exact IH].
  intros [= <-]. now apply build_date_future in Hb.
Qed.

Lemma try_block_future (block : string) (today : date) :
  expiry_in_future today (try_block block today).
Proof.
  unfold try_block.
  destruct (match re_search FULL_NUM block with
            | Some m => _build_date (group_int m 1) (group_int m 2) (group_int m 3) today
            | None => None
            end) as [dt|] eqn:Hfull.
  { destruct (re_search FULL_NUM block) as [m|]; [|discriminate].
    now apply build_date_future in Hfull. }
  destruct (match re_search NAME_MID block with
            | Some m => _
            | None => None
            end) as [dt|] eqn:Hnamed.
  { destruct (re_search NAME_MID block) as [m|]; [|discriminate].
    destruct (_normalize_month_name (group_str m 2)) as [mo|]; [|discriminate].
    now apply build_date_future in Hnamed. }
  destruct (re_search YEAR_ONLY block) as [m|]; [|exact I].
  destruct ((year today <? group_int m 1) && (group_int m 1 <=? year today + 20))
    eqn:Hy; [|exact I].
  apply andb_prop in Hy. destruct Hy as [H1 H2].
  apply Z.ltb_lt in H1. apply Z.leb_le in H2. cbn. lia.
Qed.

Lemma scan_lines_future (today : date) (lines : list chars) :
  expiry_in_future today (scan_lines lines today).
Proof.
  induction lines as [|line lines IH]; [exact I|].
  cbn [scan_lines].
  destruct (re_search KEYWORD_RE (string_of line)); [|exact IH].
  assert (H := try_block_future
                 (_clean (string_of (join_nl (firstn 4 (line :: lines))))) today).
  destruct (try_block _ today); [exact H|exact H|exact IH].
Qed.

(** The last day of a later year lies after every day of this year. *)
Lemma december_31_future (today : date) (y : Z) :
  valid_date today -> year today < y ->
  toordinal today < toordinal (mkdate y 12 31).
Proof.
  intros Hv Hy. unfold toordinal. cbn [year month day].
  assert (H1 := day_of_year_bounds today Hv).
  assert (H2 := days_before_year_mono _ _ Hy).
  assert (H3 : 0 <= days_before_month y 12).
  { unfold days_before_month. eval_month_tables. destruct (is_leap y); cbn; lia. }
  lia.
Qed.

Lemma add_year_candidates_future (today : date) (ms : list rematch) :
  valid_date today ->
  forall cands : list date,
    Forall (fun d => toordinal today < toordinal d) cands ->
    Forall (fun d => toordinal today < toordinal d)
           (add_year_candidates ms today cands).
Proof.
  intro Hv. induction ms as [|m ms IH]; intros cands Hc; cbn [add_year_candidates];
    [exact Hc|].
  apply IH.
  destruct ((year today <? group_int m 1) && (group_int m 1 <=? year today + 20))
    eqn:Hy; [|exact Hc].
  destruct cands; [|exact Hc].
  constructor; [|constructor].
  apply andb_prop in Hy. destruct Hy as [H1 _]. apply Z.ltb_lt in H1.
  now apply december_31_future.
Qed.

Section ResolverFacts.

Variable dateparser_parse : dp_settings -> string -> exn + option date.

(** An exception of the first loop of the fallback stage is one the
    parser raised on a date-like substring. *)
Lemma parse_candidates_raises (today : date) (e : exn) (ms : list rematch) :
  parse_candidates dateparser_parse ms today = inl e ->
  exists m, In m ms /\ dateparser_parse settings_fallback (m_text m) = inl e.
Proof.
  induction ms as [|m ms IH]; cbn [parse_candidates]; [discriminate|].
  destruct (dateparser_parse settings_fallback (m_text m)) as [e'|parsed] eqn:Hm.
  - intros [= <-]. exists m. split; [now left|exact Hm].
  - destruct (parse_candidates dateparser_parse ms today) as [e'|ds].
    + intros [= <-]. destruct (IH eq_refl) as (m' & Hin & Hm').
      exists m'. split; [now right|exact Hm'].
    + destruct parsed as [dt|]; [destruct (date_ltb today dt)|]; discriminate.
Qed.

Lemma stage_fallback_outcome (today : date) (text : string) :
  valid_date today ->
  resolver_outcome dateparser_parse today text
    (stage_fallback dateparser_parse text today).
Proof.
  intro Hv. unfold stage_fallback, resolver_outcome.
  destruct (parse_candidates dateparser_parse (re_finditer date_like_re text) today)
    as [e|parsed] eqn:Hp.
  { now apply parse_candidates_raises in Hp. }
  assert (Hall : Forall (fun d => toordinal today < toordinal d) parsed).
  { apply Forall_forall. intros d Hd.
    now destruct (parse_candidates_sound dateparser_parse today _ _ Hp d Hd). }
  apply (add_year_candidates_future today (re_finditer YEAR_ONLY text) Hv) in Hall.
  destruct (add_year_candidates (re_finditer YEAR_ONLY text) today parsed)
    as [|d ds]; [exact I|].
  cbn [expiry_in_future]. rewrite Forall_forall in Hall. apply Hall.
  apply furthest_is_max.
Qed.

End ResolverFacts.

Lemma find_expiration_date_outcome
  (dateparser_parse : dp_settings -> string -> exn + option date)
  (text doc_type : string) (mrz : option (list (string * option string)))
  (today : date) :
  valid_date today ->
  resolver_outcome dateparser_parse today text
    (_find_expiration_date dateparser_parse text doc_type mrz today).
Proof.
  intro Hv. unfold _find_expiration_date.
  destruct (stage_mrz mrz today) as [dt|] eqn:Hmrz.
  { now apply stage_mrz_future in Hmrz. }
  destruct (stage_dd_mon_yyyy text today) as [dt|] eqn:Hdd.
  { now apply first_dd_mon_yyyy_future in Hdd. }
  assert (Hkw := scan_lines_future today (split_nl (chars_of text))).
  fold (stage_keyword_window text today) in Hkw.
  destruct (stage_keyword_window text today) as [d|y|]; [exact Hkw|exact Hkw|].
  now apply stage_fallback_outcome.
Qed.

(** X5: whatever the text, the MRZ dictionary and the parser,
    _find_expiration_date never returns a date that is not strictly after
    today; a bare year it returns is one of the next twenty; and the only
    exceptions that leave it are those dateparser raised on a date-like
    substring of the text. *)
Theorem find_expiration_date_future
  (dateparser_parse : dp_settings -> string -> exn + option date)
  (text doc_type : string) (mrz : option (list (string * option string)))
  (today : date) :
  valid_date today ->
  match _find_expiration_date dateparser_parse text doc_type mrz today with
  | inr (ExpDate d) => toordinal today < toordinal d
  | inr (ExpYear y) => year today < y <= year today + 20
  | inr ExpNone => True
  | inl e =>
      exists m, In m (re_finditer date_like_re text)
                /\ dateparser_parse settings_fallback (m_text m) = inl e
  end.
Proof.
  intro Hv.
  assert (H := find_expiration_date_outcome dateparser_parse text doc_type mrz
                 today Hv).
  unfold resolver_outcome in H.
  destruct (_find_expiration_date dateparser_parse text doc_type mrz today)
    as [e|[d|y|]]; exact H.
Qed.

Lemma find_expiration_date_future_witness :
  valid_date (mkdate 2026 11 4)
  /\ match _find_expiration_date no_dateparser "EXPIRES 2031" "passport" None
             (mkdate 2026 11 4) with
     | inr (ExpDate d) => toordinal (mkdate 2026 11 4) < toordinal d
     | inr (ExpYear y) => 2026 < y <= 2026 + 20
     | inr ExpNone => True
     | inl e =>
         exists m, In m (re_finditer date_like_re "EXPIRES 2031")
                   /\ no_dateparser settings_fallback (m_text m) = inl e
     end.
Proof.
  split; [reflexivity|].
  apply (find_expiration_date_future no_dateparser "EXPIRES 2031" "passport" None
           (mkdate 2026 11 4)).
  reflexivity.
Defined.

(** ** The MRZ expiration date on its way through strftime('%y%m%d') *)

Lemma days_in_month_le_31 (y m : Z) : 1 <= m <= 12 -> days_in_month y m <= 31.
Proof.
  intro Hm. unfold days_in_month.
  destruct (month_cases _ Hm) as [E|[E|[E|[E|[E|[E|[E|[E|[E|[E|[E|E]]]]]]]]]]];
    rewrite E; eval_month_tables; destruct (is_leap y); cbn; lia.
Qed.

(** A date the MRZ reader found, rendered by strftime('%y%m%d') for the
    resolver and read back by it: the day and month survive, of the year
    only the last two digits. *)
Lemma stage_mrz_of_strftime (m : MRZData) (d today : date) :
  valid_date d ->
  mrz_expiration_date m = Some d ->
  opt_str_truthy (expiration_date_str m) = false ->
  stage_mrz (mrz_dict_of (Some m)) today
  = _build_date (day d) (month d) (year d mod 100) today.
Proof.
  intros Hv Hd Hs. destruct (valid_date_bounds d Hv) as (Hy & Hm & Hday).
  assert (H31 := days_in_month_le_31 (year d) _ Hm).
  unfold mrz_dict_of, stage_mrz. rewrite Hs, Hd. cbn [option_map dict_get].
  change ("expiration_date" =? "expiration_date")%string with true. cbv iota.
  unfold strftime_yymmdd.
  destruct (slices_of_yymmdd (year d mod 100) (month d) (day d)) as (_ & -> & -> & ->).
  change (String.length _ =? 6)%nat with true. cbv iota.
  rewrite !int_of_pad2 by (try lia; apply Z.mod_pos_bound; lia).
  reflexivity.
Qed.

(** X6: an MRZ expiration date of this century whose two-digit year is
    at most ten above today's, and which lies after today, comes back
    unchanged from the resolver of the Generic, Visa and ID-card
    strategies, whatever the text says and without the parser being
    asked. *)
Theorem mrz_expiration_round_trip
  (dateparser_parse : dp_settings -> string -> exn + option date)
  (today : date) (text doc_type : string) (m : MRZData) (d : date) :
  valid_date d ->
  mrz_expiration_date m = Some d ->
  opt_str_truthy (expiration_date_str m) = false ->
  2000 <= year d <= 2099 ->
  year d mod 100 <= year today mod 100 + 10 ->
  toordinal today < toordinal d ->
  resolve_expiration dateparser_parse today text doc_type (Some m) = inr (Some d).
Proof.
  intros Hv Hd Hs Hy Hpivot Hfuture.
  unfold resolve_expiration, _find_expiration_date.
  rewrite (stage_mrz_of_strftime m d today Hv Hd Hs).
  unfold _build_date, build_date_year.
  assert (Hyy : year d mod 100 = year d - 2000)
    by (symmetry; apply (Z.mod_unique _ _ 20); lia).
  replace (year d mod 100 <? 100) with true by (symmetry; apply Z.ltb_lt; lia).
  replace (year d mod 100 <=? year today mod 100 + 10) with true
    by (symmetry; now apply Z.leb_le).
  replace (year d mod 100 + 2000) with (year d) by lia.
  unfold valid_date in Hv. rewrite Hv.
  unfold date_ltb. replace (toordinal today <? toordinal d) with true
    by (symmetry; now apply Z.ltb_lt).
  reflexivity.
Qed.

Lemma mrz_expiration_round_trip_witness :
  resolve_expiration no_dateparser (mkdate 2026 11 4) "EXPIRES 01 JAN 2031" "visa"
    (Some (mkMRZ None None None (Some (mkdate 2036 5 6)) None))
  = inr (Some (mkdate 2036 5 6)).
Proof.
  apply mrz_expiration_round_trip;
    [reflexivity | reflexivity | reflexivity | cbn; lia | vm_compute; discriminate
    | vm_compute; reflexivity].
Defined.

(** X7: with today in the year 2000 or later, an MRZ expiration date
    whose two-digit year is more than ten above today's is read back in
    the 1900s and dropped: the resolver answers as if the MRZ had given
    no date. *)
Theorem mrz_expiration_beyond_pivot_dropped
  (dateparser_parse : dp_settings -> string -> exn + option date)
  (today : date) (text doc_type : string) (m : MRZData) (d : date) :
  valid_date today ->
  valid_date d ->
  mrz_expiration_date m = Some d ->
  opt_str_truthy (expiration_date_str m) = false ->
  2000 <= year today ->
  year today mod 100 + 10 < year d mod 100 ->
  resolve_expiration dateparser_parse today text doc_type (Some m)
  = resolve_expiration dateparser_parse today text doc_type None.
Proof.
  intros Hvt Hv Hd Hs Hy Hpivot.
  assert (Hmrz : stage_mrz (mrz_dict_of (Some m)) today = None).
  { rewrite (stage_mrz_of_strftime m d today Hv Hd Hs).
    destruct (_build_date (day d) (month d) (year d mod 100) today) as [dt|] eqn:Hb;
      [|reflexivity].
    apply build_date_some in Hb. destruct Hb as [Hnew Hlt].
    assert (Hvdt := date_new_valid _ _ _ _ Hnew).
    unfold date_new in Hnew.
    destruct (_ && _) in Hnew; [|discriminate]. injection Hnew as <-.
    assert (Hlex := date_ltb_lex today _ Hvt Hvdt).
    unfold date_ltb in Hlex.
    replace (toordinal today <? _) with true in Hlex
      by (symmetry; now apply Z.ltb_lt).
    unfold date_lex_ltb, build_date_year in Hlex. cbn [year month day] in Hlex.
    assert (Hmod := Z.mod_pos_bound (year d) 100 ltac:(lia)).
    replace (year d mod 100 <? 100) with true in Hlex
      by (symmetry; apply Z.ltb_lt; lia).
    replace (year d mod 100 <=? year today mod 100 + 10) with false in Hlex
      by (symmetry; apply Z.leb_gt; lia).
    replace (year today <? year d mod 100 + 1900) with false in Hlex
      by (symmetry; apply Z.ltb_ge; lia).
    replace (year today =? year d mod 100 + 1900) with false in Hlex
      by (symmetry; apply Z.eqb_neq; lia).
    discriminate Hlex. }
  unfold resolve_expiration, _find_expiration_date. rewrite Hmrz. reflexivity.
Qed.

Lemma mrz_expiration_beyond_pivot_dropped_witness :
  resolve_expiration no_dateparser (mkdate 2026 11 4) "EXPIRES 01 JAN 2031" "visa"
    (Some (mkMRZ None None None (Some (mkdate 2040 1 15)) None))
  = resolve_expiration no_dateparser (mkdate 2026 11 4) "EXPIRES 01 JAN 2031" "visa"
      None.
Proof.
  apply (mrz_expiration_beyond_pivot_dropped no_dateparser (mkdate 2026 11 4)
           "EXPIRES 01 JAN 2031" "visa" _ (mkdate 2040 1 15));
    [reflexivity | reflexivity | reflexivity | reflexivity | cbn; lia
    | vm_compute; reflexivity].
Defined.

(** X8: for MRZ data whose fields hold values of their declared types
    (expiration_date a date or None, expiration_date_str a string or
    None), the expiration date the Generic, Visa and ID-card strategies
    start from is strictly after today whenever there is one, also when
    it is the 31 December a bare year was turned into; the conversion
    never raises, and the only exceptions are the parser's. *)
Theorem resolve_expiration_future
  (dateparser_parse : dp_settings -> string -> exn + option date)
  (today : date) (text doc_type : string) (mrz_data : option MRZData) :
  valid_date today ->
  year today <= 9979 ->
  match resolve_expiration dateparser_parse today text doc_type mrz_data with
  | inr (Some d) => toordinal today < toordinal d
  | inr None => True
  | inl e =>
      exists m, In m (re_finditer date_like_re text)
                /\ dateparser_parse settings_fallback (m_text m) = inl e
  end.
Proof.
  intros Hv Hy. unfold resolve_expiration.
  assert (H := find_expiration_date_outcome dateparser_parse text doc_type
                 (mrz_dict_of mrz_data) today Hv).
  unfold resolver_outcome in H.
  destruct (_find_expiration_date dateparser_parse text doc_type
              (mrz_dict_of mrz_data) today) as [e|[d|y|]]; cbn in H |- *;
    [exact H|exact H| |exact I].
  destruct (valid_date_bounds today Hv) as (Hyt & _).
  unfold date_new_err, date_new.
  replace ((1 <=? y) && (y <=? 9999)) with true
    by (symmetry; apply andb_true_intro; split; apply Z.leb_le; lia).
  cbn. apply december_31_future; [exact Hv|lia].
Qed.

Lemma resolve_expiration_future_witness :
  match resolve_expiration no_dateparser (mkdate 2026 11 4) "EXPIRES 2031" "id_card"
          None with
  | inr (Some d) => toordinal (mkdate 2026 11 4) < toordinal d
  | inr None => True
  | inl e =>
      exists m, In m (re_finditer date_like_re "EXPIRES 2031")
                /\ no_dateparser settings_fallback (m_text m) = inl e
  end.
Proof.
  apply (resolve_expiration_future no_dateparser (mkdate 2026 11 4) "EXPIRES 2031"
           "id_card" None); [reflexivity | cbn; lia].
Defined.

(** ** Merging the results of a whole chain *)

Lemma last_cons_default {A : Type} (l : list A) (a b : A) :
  last (b :: l) a = last l b.
Proof.
  revert a b. induction l as [|c l IH]; intros a b; [reflexivity|].
  change (last (b :: c :: l) a) with (last (c :: l) a).
  now rewrite !IH.
Qed.

Lemma fold_or_str (l : list (option string)) :
  forall a : option string,
    fold_left or_str l a
    = if opt_str_truthy a then a
      else match find opt_str_truthy l with
           | Some x => x
           | None => last l a
           end.
Proof.
  induction l as [|b l IH]; intro a; cbn [fold_left find].
  - cbn. now destruct (opt_str_truthy a).
  - rewrite IH. unfold or_str.
    destruct (opt_str_truthy a) eqn:Ha.
    + now rewrite Ha.
    + destruct (opt_str_truthy b); [reflexivity|].
      destruct (find opt_str_truthy l); [reflexivity|].
      destruct l as [|c l]; [reflexivity|]. apply (last_cons_default (c :: l)).
Qed.

Lemma fold_or_date (l : list (option date)) :
  forall a : option date,
    fold_left or_date l a
    = match a with
      | Some _ => a
      | None => match find (fun x : option date =>
                              match x with Some _ => true | None => false end) l with
                | Some x => x
                | None => None
                end
      end.
Proof.
  induction l as [|b l IH]; intro a; cbn [fold_left find].
  - now destruct a.
  - rewrite IH. destruct a as [d|]; cbn [or_date]; [reflexivity|].
    now destruct b.
Qed.

Lemma merge_fold_fields (rs : list ExtractionResult) :
  forall r0 : ExtractionResult,
    let merged := fold_left _merge_results rs r0 in
    number merged = fold_left or_str (map number rs) (number r0)
    /\ issued_country merged
       = fold_left or_str (map issued_country rs) (issued_country r0)
    /\ expiration_date merged
       = fold_left or_date (map expiration_date rs) (expiration_date r0)
    /\ validation_errors merged
       = (validation_errors r0 ++ List.concat (map validation_errors rs))%list
    /\ warnings merged = (warnings r0 ++ List.concat (map warnings rs))%list.
Proof.
  induction rs as [|r rs IH]; intro r0; cbn [fold_left map List.concat].
  - cbn. now rewrite !app_nil_r.
  - destruct (IH (_merge_results r0 r)) as (Hn & Hc & Hd & He & Hw).
    cbn zeta in *. rewrite Hn, Hc, Hd, He, Hw. cbn [_merge_results number
      issued_country expiration_date validation_errors warnings].
    now rewrite <- !app_assoc.
Qed.

(** X9: the result chain_strategies builds from the results of the
    chain. Its errors and its warnings are those of all the results, in
    the order of the chain; it is valid exactly when every result is;
    its expiration date is the first one that is not None; its number
    and its country are the first non-empty ones, and when there is none
    they are those of the last result (None or the empty string). *)
Theorem merge_all_spec (r0 : ExtractionResult) (rs : list ExtractionResult) :
  let first_truthy (l : list (option string)) :=
    match find opt_str_truthy l with
    | Some x => x
    | None => last l None
    end in
  exists merged,
    merge_all (r0 :: rs) = Some merged
    /\ validation_errors merged = List.concat (map validation_errors (r0 :: rs))
    /\ warnings merged = List.concat (map warnings (r0 :: rs))
    /\ is_valid merged = forallb is_valid (r0 :: rs)
    /\ expiration_date merged
       = match find (fun x : option date =>
                       match x with Some _ => true | None => false end)
                 (map expiration_date (r0 :: rs)) with
         | Some x => x
         | None => None
         end
    /\ number merged = first_truthy (map number (r0 :: rs))
    /\ issued_country merged = first_truthy (map issued_country (r0 :: rs)).
Proof.
  intro first_truthy. exists (fold_left _merge_results rs r0).
  destruct (merge_fold_fields rs r0) as (Hn & Hc & Hd & He & Hw). cbn zeta in *.
  split; [reflexivity|]. split; [exact He|]. split; [exact Hw|]. split.
  - unfold is_valid at 1. rewrite He.
    change (validation_errors r0 ++ List.concat (map validation_errors rs))%list
      with (List.concat (map validation_errors (r0 :: rs))).
    generalize (r0 :: rs) as l. clear.
    induction l as [|r l IH]; [reflexivity|].
    cbn [map List.concat forallb]. rewrite <- IH, length_app. unfold is_valid.
    destruct (List.length (validation_errors r)); reflexivity.
  - split; [|split].
    + rewrite Hd, fold_or_date. cbn [map find].
      now destruct (expiration_date r0).
    + rewrite Hn, fold_or_str. unfold first_truthy. cbn [map find].
      destruct (opt_str_truthy (number r0)); [reflexivity|].
      destruct (find opt_str_truthy (map number rs)); [reflexivity|].
      symmetry. apply last_cons_default.
    + rewrite Hc, fold_or_str. unfold first_truthy. cbn [map find].
      destruct (opt_str_truthy (issued_country r0)); [reflexivity|].
      destruct (find opt_str_truthy (map issued_country rs)); [reflexivity|].
      symmetry. apply last_cons_default.
Qed.

(** ** The chains of the pipeline *)

(** No key of the registry starts with "PASSPORT_", and "passport_..."
    is none of the names get_strategy knows: the strategy looked up for
    a passport of any country is a fresh GenericStrategy. *)
Lemma get_strategy_passport_prefixed (cc : string) (h : heap) :
  get_strategy ("PASSPORT_" ++ cc) h = new_strategy GenericStrategy h.
Proof. reflexivity. Qed.

Lemma get_strategy_id_prefixed (cc : string) (h : heap) :
  get_strategy ("ID_" ++ cc) h
  = new_strategy (if String.eqb (lower cc) "card" then IDCardStrategy
                  else GenericStrategy) h.
Proof.
  unfold get_strategy. cbn.
  change (string_of (map to_lower (chars_of cc))) with (lower cc).
  destruct (lower cc =? "card")%string; reflexivity.
Qed.

Lemma get_strategy_chain (doc_type : string) :
  let primary := fst (get_strategy doc_type []) in
  let h := snd (get_strategy doc_type []) in
  exists nodes,
    chain_nodes 8 h (Some primary) = Some nodes
    /\ (1 <= List.length nodes <= 2)%nat
    /\ Forall (fun r => class_of h r <> None) nodes.
Proof.
  unfold get_strategy.
  destruct (lower doc_type =? "passport")%string.
  { exists [0; 5]%nat. split; [reflexivity|]. split; [cbn; lia|].
    repeat constructor; discriminate. }
  destruct (lower doc_type =? "visa")%string.
  { exists [0%nat]. split; [reflexivity|]. split; [cbn; lia|].
    repeat constructor; discriminate. }
  destruct (existsb _ _).
  { exists [0%nat]. split; [reflexivity|]. split; [cbn; lia|].
    repeat constructor; discriminate. }
  destruct (dict_get STRATEGY_REGISTRY doc_type) as [c|];
    (exists [0%nat]; split; [reflexivity|]; split; [cbn; lia|];
     repeat constructor; discriminate).
Qed.

(** The nodes of the chain [build_chain] makes for each document type. *)
Lemma build_chain_nodes (doc_type : string) (mrz_data_obj : option MRZData) :
  let primary := fst (build_chain doc_type mrz_data_obj []) in
  let h := snd (build_chain doc_type mrz_data_obj []) in
  let country :=
    match mrz_data_obj with
    | Some m => if opt_str_truthy (country_code m) then country_code m else None
    | None => None
    end in
  exists nodes,
    chain_nodes chain_fuel h (Some primary) = Some nodes
    /\ (1 <= List.length nodes <= 2)%nat
    /\ Forall (fun r => class_of h r <> None) nodes
    /\ (doc_type = "PASSPORT" ->
        map (class_of h) nodes = [Some MRZStrategy; Some GenericStrategy])
    /\ (doc_type = "VISA" ->
        map (class_of h) nodes = [Some VisaStrategy; Some GenericStrategy])
    /\ (doc_type = "ID_CARD" ->
        map (class_of h) nodes
        = match country with
          | Some cc =>
              [Some (if String.eqb (lower cc) "card" then IDCardStrategy
                     else GenericStrategy);
               Some GenericStrategy]
          | None => [Some IDCardStrategy]
          end).
Proof.
  intros primary h country. subst primary h. unfold build_chain.
  fold country.
  destruct (doc_type =? "PASSPORT")%string eqn:Hp.
  { apply String.eqb_eq in Hp. subst doc_type.
    exists [6; 7]%nat.
    destruct country as [cc|];
      (split; [reflexivity|]; split; [cbn; lia|]; split;
       [repeat constructor; discriminate|]; split; [reflexivity|];
       split; discriminate). }
  destruct (doc_type =? "ID_CARD")%string eqn:Hi.
  { apply String.eqb_eq in Hi. subst doc_type.
    change (get_strategy "ID_CARD" []) with (0%nat, [strategy_init IDCardStrategy]).
    cbv beta iota zeta.
    destruct country as [cc|].
    - rewrite get_strategy_id_prefixed.
      exists [1; 3]%nat.
      destruct (lower cc =? "card")%string;
        (split; [reflexivity|]; split; [cbn; lia|]; split;
         [repeat constructor; discriminate|]; split; [discriminate|];
         split; [discriminate|reflexivity]).
    - exists [0%nat]. split; [reflexivity|]. split; [cbn; lia|]. split;
        [repeat constructor; discriminate|]. split; [discriminate|].
      split; [discriminate|reflexivity]. }
  destruct (doc_type =? "VISA")%string eqn:Hv.
  { apply String.eqb_eq in Hv. subst doc_type.
    exists [1; 3]%nat. split; [reflexivity|]. split; [cbn; lia|]. split;
      [repeat constructor; discriminate|]. split; [discriminate|].
    split; [reflexivity|discriminate]. }
  destruct (get_strategy_chain doc_type) as (nodes & Hnodes & Hlen & Hcls).
  exists nodes.
  destruct (get_strategy doc_type []) as [primary h].
  split; [exact Hnodes|]. split; [exact Hlen|]. split; [exact Hcls|].
  apply String.eqb_neq in Hp, Hi, Hv.
  split; [intro; contradiction|]. split; intro; contradiction.
Qed.

(** X10: the chains _pipeline_extract builds. Every chain has one or
    two strategies, all of them existing objects, so chain_strategies
    ends on it. For "PASSPORT" the chain is the MRZ strategy followed by
    the Generic strategy, whatever the country code: the strategy looked
    up for the country is replaced as the fallback before it is used.
    For "VISA" it is the Visa strategy followed by the Generic strategy:
    the MRZ strategy created for it is never run. For "ID_CARD" with a
    country code it is the strategy looked up for the country followed by
    the Generic strategy, again without the MRZ strategy; without a
    country code it is the ID-card strategy alone. *)
Theorem pipeline_chains
  (dateparser_parse : dp_settings -> string -> exn + option date) (today : date)
  (extract_other :
     strategy_class -> string -> option MRZData -> option string -> M ExtractionResult)
  (doc_type : string) (mrz_data_obj : option MRZData) :
  let primary := fst (build_chain doc_type mrz_data_obj []) in
  let h := snd (build_chain doc_type mrz_data_obj []) in
  let country :=
    match mrz_data_obj with
    | Some m => if opt_str_truthy (country_code m) then country_code m else None
    | None => None
    end in
  exists nodes,
    chain_nodes chain_fuel h (Some primary) = Some nodes
    /\ (1 <= List.length nodes <= 2)%nat
    /\ Forall (fun r => class_of h r <> None) nodes
    /\ (forall (text : string) (file_path : option string),
          chain_strategies dateparser_parse today extract_other chain_fuel h primary
            text mrz_data_obj file_path <> None)
    /\ (doc_type = "PASSPORT" ->
        map (class_of h) nodes = [Some MRZStrategy; Some GenericStrategy])
    /\ (doc_type = "VISA" ->
        map (class_of h) nodes = [Some VisaStrategy; Some GenericStrategy])
    /\ (doc_type = "ID_CARD" ->
        map (class_of h) nodes
        = match country with
          | Some cc =>
              [Some (if String.eqb (lower cc) "card" then IDCardStrategy
                     else GenericStrategy);
               Some GenericStrategy]
          | None => [Some IDCardStrategy]
          end).
Proof.
  intros primary h country.
  destruct (build_chain_nodes doc_type mrz_data_obj)
    as (nodes & Hnodes & Hlen & Hcls & Hpass & Hvisa & Hid).
  exists nodes. split; [exact Hnodes|]. split; [exact Hlen|]. split; [exact Hcls|].
  split; [|split; [exact Hpass|split; [exact Hvisa|exact Hid]]].
  intros text file_path.
  destruct (chain_strategies_calls dateparser_parse today extract_other text
              mrz_data_obj file_path chain_fuel h primary nodes Hnodes)
    as (calls & out & k & Hrun & _).
  rewrite Hrun. discriminate.
Qed.

(** X11: the strategy the pipeline looks up for the country of a
    passport, get_strategy("PASSPORT_" + code), is a new GenericStrategy
    for every code, and so is the one for an ID card,
    get_strategy("ID_" + code), unless the code reads "card": the
    country-specialized classes of the registry are never reached this
    way. *)
Theorem country_lookup_is_generic (cc : string) (h : heap) :
  get_strategy ("PASSPORT_" ++ cc) h = new_strategy GenericStrategy h
  /\ (lower cc <> "card" ->
      get_strategy ("ID_" ++ cc) h = new_strategy GenericStrategy h)
  /\ (lower cc = "card" ->
      get_strategy ("ID_" ++ cc) h = new_strategy IDCardStrategy h).
Proof.
  split; [apply get_strategy_passport_prefixed|].
  rewrite get_strategy_id_prefixed.
  split; intro Hcc.
  - apply String.eqb_neq in Hcc. now rewrite Hcc.
  - apply String.eqb_eq in Hcc. now rewrite Hcc.
Qed.

(** ** The temporary directory of _extract_text and _pipeline_extract *)

Lemma fresh_succ (n : nat) (l : list nat) :
  forallb (fun p => (p <? n)%nat) l = true ->
  forallb (fun p => (p <? S n)%nat) l = true.
Proof.
  intro H. apply forallb_forall. intros p Hp.
  rewrite forallb_forall in H. specialize (H p Hp).
  apply Nat.ltb_lt in H. apply Nat.ltb_lt. lia.
Qed.

(** Removing the file made last. *)
Lemma try_remove_last (p nx : nat) (l : list nat) :
  forallb (fun q => (q <? p)%nat) l = true ->
  try_remove p (mkFs (p :: l) nx) = mkFs l nx.
Proof.
  intro Hfresh. unfold try_remove, exists_file, delete_file.
  cbn [files existsb next_name filter]. rewrite Nat.eqb_refl. cbn [orb negb].
  now rewrite (filter_fresh _ _ Hfresh).
Qed.

(** Removing the file made before the last one. *)
Lemma try_remove_previous (p nx : nat) (l : list nat) :
  forallb (fun q => (q <? p)%nat) l = true ->
  try_remove p (mkFs (S p :: p :: l) nx) = mkFs (S p :: l) nx.
Proof.
  intro Hfresh. unfold try_remove, exists_file, delete_file.
  cbn [files existsb next_name filter]. rewrite Nat.eqb_refl.
  replace (p =? S p)%nat with false by (symmetry; apply Nat.eqb_neq; lia).
  cbn [orb negb]. now rewrite (filter_fresh _ _ Hfresh).
Qed.

(** X13: _extract_text removes the temporary file it makes, for every
    kind of file: the directory holds the same files after the call as
    before, and at most one name was used. *)
Theorem extract_text_restores_files
  (filetype_guess : string -> option file_kind)
  (_extract_from_image _extract_from_pdf : string -> string)
  (file_content : string) (fs : fs_state) :
  forallb (fun p => (p <? next_name fs)%nat) (files fs) = true ->
  let fs' := snd (_extract_text filetype_guess _extract_from_image _extract_from_pdf
                    file_content fs) in
  files fs' = files fs
  /\ (next_name fs <= next_name fs' <= S (next_name fs))%nat
  /\ (filetype_guess file_content = None -> fs' = fs).
Proof.
  intro Hfresh. unfold _extract_text.
  destruct (filetype_guess file_content) as [kind|];
    [|cbn; repeat split; lia].
  unfold mktemp. cbn [fst snd].
  fold (try_remove (next_name fs)
          (mkFs (next_name fs :: files fs) (S (next_name fs)))).
  rewrite (try_remove_last _ _ _ Hfresh). cbn.
  split; [reflexivity|]. split; [lia|discriminate].
Qed.

Lemma extract_text_restores_files_witness :
  let fs := mkFs [4; 2]%nat 7 in
  let fs' := snd (_extract_text (fun _ => Some PdfKind) (fun _ => "")
                    (fun _ => "VISA 12345678") "pdf bytes" fs) in
  files fs' = files fs
  /\ (next_name fs <= next_name fs' <= S (next_name fs))%nat
  /\ ((fun _ : string => Some PdfKind) "pdf bytes" = None -> fs' = fs).
Proof.
  exact (extract_text_restores_files (fun _ => Some PdfKind) (fun _ => "")
           (fun _ => "VISA 12345678") "pdf bytes" (mkFs [4; 2]%nat 7) eq_refl).
Defined.

Lemma cons_neq {A : Type} (x : A) (l : list A) : x :: l <> l.
Proof. intro H. apply (f_equal (@List.length A)) in H. cbn in H. lia. Qed.

Lemma cons2_neq {A : Type} (x y : A) (l : list A) : x :: y :: l <> l.
Proof. intro H. apply (f_equal (@List.length A)) in H. cbn in H. lia. Qed.

Ltac fold_try_remove :=
  repeat match goal with
         | |- context [if exists_file ?p ?f then delete_file ?p ?f else ?f] =>
             change (if exists_file p f then delete_file p f else f)
               with (try_remove p f)
         end.

Ltac settle_files :=
  cbn [fst snd files next_name];
  split;
  [ match goal with
    | |- exists l, ?a :: ?b :: files ?fs = _ /\ _ => exists [a; b]
    | |- exists l, ?a :: files ?fs = _ /\ _ => exists [a]
    | |- exists l, files ?fs = _ /\ _ => exists []
    end;
    split; [reflexivity|]; split; [cbn; lia|]; repeat constructor; lia
  | intuition (try congruence; try discriminate) ].

(** X12: the temporary directory after a call of _pipeline_extract, for
    every file, document type, strategy behaviour and outcome of the PDF
    conversion. The call never removes a file it did not make and leaves
    at most two of its own behind. With no OCR text it returns None and
    leaves none. When it returns a payload, it leaves none exactly when
    the file is not a PDF whose conversion or whose saving of the first
    page raised. When the chain raises, it leaves none only for a PDF
    without pages. *)
Theorem pipeline_temp_files
  (dateparser_parse : dp_settings -> string -> exn + option date) (today : date)
  (extract_other :
     strategy_class -> string -> option MRZData -> option string -> M ExtractionResult)
  (filetype_guess : string -> option file_kind)
  (_extract_from_image _extract_from_pdf : string -> string)
  (convert_from_path : string -> exn + nat) (save_raises : string -> bool)
  (file_content doc_type : string) (raw_mrz_data : option (list (string * pyval)))
  (fs : fs_state) :
  forallb (fun p => (p <? next_name fs)%nat) (files fs) = true ->
  let out := _pipeline_extract dateparser_parse today extract_other filetype_guess
               _extract_from_image _extract_from_pdf convert_from_path save_raises
               file_content doc_type raw_mrz_data fs in
  let text := fst (_extract_text filetype_guess _extract_from_image _extract_from_pdf
                     file_content fs) in
  let prepared :=
    match filetype_guess file_content with
    | Some PdfKind =>
        match convert_from_path file_content with
        | inl _ => false
        | inr O => true
        | inr (S _) => negb (save_raises file_content)
        end
    | _ => true
    end in
  (exists leaked,
      files (snd out) = (leaked ++ files fs)%list
      /\ (List.length leaked <= 2)%nat
      /\ Forall (fun p => (next_name fs <= p)%nat) leaked)
  /\ (str_truthy text = false -> fst out = None /\ files (snd out) = files fs)
  /\ (fst out <> None -> (files (snd out) = files fs <-> prepared = true))
  /\ (str_truthy text = true -> fst out = None ->
      (files (snd out) = files fs
       <-> filetype_guess file_content = Some PdfKind
           /\ convert_from_path file_content = inr O)).
Proof.
  intros Hfresh out text prepared. subst out text prepared.
  assert (Hfresh1 := fresh_succ _ _ Hfresh).
  assert (Hfresh2 := fresh_succ _ _ Hfresh1).
  assert (Hne1 := cons_neq (S (next_name fs)) (files fs)).
  assert (Hne2 := cons_neq (S (S (next_name fs))) (files fs)).
  assert (Hne3 := cons2_neq (S (S (next_name fs))) (S (next_name fs)) (files fs)).
  unfold _pipeline_extract, _extract_text, materialize.
  destruct (filetype_guess file_content) as [[| |]|];
    unfold mktemp; cbv beta iota zeta; cbn [fst snd files next_name];
    fold_try_remove; rewrite ?(try_remove_last _ _ _ Hfresh);
    cbn [fst snd files next_name].
  - destruct (str_truthy (_extract_from_image file_content)) eqn:Htext;
      cbn [negb]; cbv beta iota zeta; [|settle_files].
    destruct (build_chain doc_type (standardize_mrz raw_mrz_data) [])
      as [primary h].
    destruct (chain_strategies _ _ _ _ _ _ _ _ _) as [[calls [e|[res h']]]|];
      cbn [fst snd option_map files next_name];
      rewrite ?(try_remove_last _ _ _ Hfresh1); settle_files.
  - destruct (str_truthy (_extract_from_pdf file_content)) eqn:Htext;
      cbn [negb]; cbv beta iota zeta; [|settle_files].
    destruct (build_chain doc_type (standardize_mrz raw_mrz_data) [])
      as [primary h].
    destruct (convert_from_path file_content) as [ce|[|pages]];
      [| |destruct (save_raises file_content)];
      cbv beta iota zeta; cbn [negb fst snd files next_name];
      rewrite ?(try_remove_last _ _ _ Hfresh1),
        ?(try_remove_previous _ _ _ Hfresh1);
      (destruct (chain_strategies _ _ _ _ _ _ _ _ _) as [[calls [e|[res h']]]|];
       cbn [fst snd option_map files next_name];
       rewrite ?(try_remove_last _ _ _ Hfresh2); settle_files).
  - cbn [str_truthy negb]. settle_files.
  - cbn [str_truthy negb]. settle_files.
Qed.

Lemma pipeline_temp_files_witness :
  let out := _pipeline_extract no_dateparser (mkdate 2026 11 4) extract_nothing
               (fun _ => Some PdfKind) (fun _ => "") (fun _ => "VISA 12345678")
               (fun _ => inl (OtherError "conversion failed")) (fun _ => false)
               "pdf bytes" "VISA" None (mkFs [] 0) in
  fst out <> None /\ files (snd out) = [1%nat]
  /\ (files (snd out) = files (mkFs [] 0) <-> false = true).
Proof.
  intro out.
  assert (Hout : fst out <> None) by (vm_compute; discriminate).
  split; [exact Hout|]. split; [reflexivity|].
  exact (proj1 (proj2 (proj2
           (pipeline_temp_files no_dateparser (mkdate 2026 11 4) extract_nothing
              (fun _ => Some PdfKind) (fun _ => "") (fun _ => "VISA 12345678")
              (fun _ => inl (OtherError "conversion failed")) (fun _ => false)
              "pdf bytes" "VISA" None (mkFs [] 0) eq_refl))) Hout).
Defined.

(** ** ESPassportStrategy.extract *)

Lemma bookkeeping_extends_refl (self : strategy) : bookkeeping_extends self self.
Proof.
  repeat split; try (exists []; now rewrite app_nil_r).
Qed.

Lemma bookkeeping_extends_trans (a b c : strategy) :
  bookkeeping_extends a b -> bookkeeping_extends b c -> bookkeeping_extends a c.
Proof.
  intros (Hc1 & Hf1 & [e1 He1] & [w1 Hw1]) (Hc2 & Hf2 & [e2 He2] & [w2 Hw2]).
  split; [congruence|]. split; [congruence|]. split.
  - exists (e1 ++ e2)%list. now rewrite He2, He1, app_assoc.
  - exists (w1 ++ w2)%list. now rewrite Hw2, Hw1, app_assoc.
Qed.

Lemma record_all_links (o : strategy) (errors warnings : list string) :
  cls (record_all o errors warnings) = cls o
  /\ _fallback_strategy (record_all o errors warnings) = _fallback_strategy o.
Proof.
  unfold record_all.
  assert (He : forall l o', cls (fold_left strategy_add_error l o') = cls o'
                            /\ _fallback_strategy (fold_left strategy_add_error l o')
                               = _fallback_strategy o').
  { induction l as [|e l IH]; intro o'; cbn [fold_left]; [now split|].
    destruct (IH (strategy_add_error o' e)) as [-> ->]. now split. }
  assert (Hw : forall l o', cls (fold_left strategy_add_warning l o') = cls o'
                            /\ _fallback_strategy (fold_left strategy_add_warning l o')
                               = _fallback_strategy o').
  { induction l as [|w l IH]; intro o'; cbn [fold_left]; [now split|].
    destruct (IH (strategy_add_warning o' w)) as [-> ->]. now split. }
  destruct (Hw warnings (fold_left strategy_add_error errors o)) as [-> ->].
  apply He.
Qed.

Lemma record_all_extends (o : strategy) (errors warnings : list string) :
  bookkeeping_extends o (record_all o errors warnings).
Proof.
  destruct (record_all_links o errors warnings) as [Hc Hf].
  destruct (record_all_fields o errors warnings) as [He Hw].
  split; [exact Hc|]. split; [exact Hf|]. split; eauto.
Qed.

Section ESPassport.

Variable dateparser_parse : dp_settings -> string -> exn + option date.
Variable today : date.

Lemma checked_passport_number_spec (candidate : string) (self : strategy) :
  exists v self',
    checked_passport_number candidate self = inr (v, self')
    /\ bookkeeping_extends self self'
    /\ (forall n, v = Some n ->
          n = candidate /\ fst (fst (_looks_valid_number n "passport")) = true).
Proof.
  unfold checked_passport_number.
  destruct (_looks_valid_number candidate "passport") as [[valid errors] warnings]
    eqn:Hlook.
  eexists _, _. split; [reflexivity|]. split; [apply record_all_extends|].
  intros n Hn. destruct valid; [|discriminate].
  injection Hn as <-. now rewrite Hlook.
Qed.

Lemma recorded_parse_date_spec (raw : string) (self : strategy) :
  exists v self',
    recorded_parse_date dateparser_parse today raw self = inr (v, self')
    /\ bookkeeping_extends self self'.
Proof.
  unfold recorded_parse_date.
  destruct (_parse_date_with_pivot_and_validation _ _ _) as [[parsed errors] warnings].
  eexists _, _. split; [reflexivity|]. apply record_all_extends.
Qed.

End ESPassport.

(** X14: ESPassportStrategy.extract. On an empty text it raises the
    ValueError of _validate_input. On any other text it returns: the
    country is "ESP"; confidence, errors and warnings are those of the
    strategy after the call, which only gained errors and warnings; a
    number it returns passed _looks_valid_number for passports and is
    the MRZ number or the first match of _NUM_RE in the text; the
    expiration date is the one of the MRZ data when that holds a date,
    and None when there is no MRZ data, whatever the text says (_EXP_RE
    is never used). *)
Theorem es_passport_extract_spec
  (dateparser_parse : dp_settings -> string -> exn + option date) (today : date)
  (text : string) (mrz_data : option MRZData) (file_path : option string)
  (self : strategy) :
  let run := ESPassportStrategy_extract dateparser_parse today text mrz_data
               file_path self in
  (str_truthy text = false ->
   run = inl (ValueError "text must be a non-empty string"))
  /\ (str_truthy text = true ->
      exists r self',
        run = inr (r, self')
        /\ r = _create_result self' (number r) (Some "ESP") (expiration_date r)
        /\ bookkeeping_extends self self'
        /\ (forall n, number r = Some n ->
              fst (fst (_looks_valid_number n "passport")) = true
              /\ ((exists m, mrz_data = Some m /\ mrz_number m = Some n)
                  \/ (exists found, re_search ES_NUM_RE text = Some found
                                    /\ m_text found = n)))
        /\ (mrz_data = None -> expiration_date r = None)
        /\ (forall m d, mrz_data = Some m -> mrz_expiration_date m = Some d ->
              expiration_date r = Some d)).
Proof.
  intro run. subst run. unfold ESPassportStrategy_extract, _validate_input.
  destruct (str_truthy text); split; try discriminate; [|reflexivity].
  intros _. unfold bind, update, ret.
  set (from_text :=
         match re_search ES_NUM_RE text with
         | Some num_match => checked_passport_number (m_text num_match)
         | None => fun self0 => inr (None, self0)
         end).
  assert (Htext : exists v self1,
             from_text self = inr (v, self1)
             /\ bookkeeping_extends self self1
             /\ (forall n, v = Some n ->
                   fst (fst (_looks_valid_number n "passport")) = true
                   /\ exists found, re_search ES_NUM_RE text = Some found
                                    /\ m_text found = n)).
  { unfold from_text. destruct (re_search ES_NUM_RE text) as [found|].
    - destruct (checked_passport_number_spec (m_text found) self)
        as (v & self1 & Hrun & Hext & Hv).
      exists v, self1. split; [exact Hrun|]. split; [exact Hext|].
      intros n Hn. destruct (Hv n Hn) as [-> Hvalid]. split; [exact Hvalid|].
      now exists found.
    - exists None, self. split; [reflexivity|].
      split; [apply bookkeeping_extends_refl|]. discriminate. }
  assert (Hnum : exists v self1,
             match mrz_data with
             | Some mrz =>
                 if opt_str_truthy (mrz_number mrz)
                 then checked_passport_number
                        match mrz_number mrz with Some n => n | None => "" end
                 else from_text
             | None => from_text
             end self = inr (v, self1)
             /\ bookkeeping_extends self self1
             /\ (forall n, v = Some n ->
                   fst (fst (_looks_valid_number n "passport")) = true
                   /\ ((exists m, mrz_data = Some m /\ mrz_number m = Some n)
                       \/ (exists found, re_search ES_NUM_RE text = Some found
                                         /\ m_text found = n)))).
  { destruct Htext as (v & self1 & Hrun & Hext & Hv).
    destruct mrz_data as [mrz|].
    - destruct (mrz_number mrz) as [mn|] eqn:Hmn; cbn [opt_str_truthy].
      + destruct (str_truthy mn).
        * destruct (checked_passport_number_spec mn self)
            as (v' & self1' & Hrun' & Hext' & Hv').
          exists v', self1'. split; [exact Hrun'|]. split; [exact Hext'|].
          intros n Hn. destruct (Hv' n Hn) as [-> Hvalid]. split; [exact Hvalid|].
          left. now exists mrz.
        * exists v, self1. split; [exact Hrun|]. split; [exact Hext|].
          intros n Hn. destruct (Hv n Hn) as [Hvalid Hfound]. now split; [|right].
      + exists v, self1. split; [exact Hrun|]. split; [exact Hext|].
        intros n Hn. destruct (Hv n Hn) as [Hvalid Hfound]. now split; [|right].
    - exists v, self1. split; [exact Hrun|]. split; [exact Hext|].
      intros n Hn. destruct (Hv n Hn) as [Hvalid Hfound]. now split; [|right]. }
  destruct Hnum as (v & self1 & Hrun & Hext & Hv). fold from_text. rewrite Hrun.
  cbv beta iota.
  match goal with
  | |- context [match ?step self1 with inl _ => _ | inr _ => _ end] =>
      set (exp_step := step)
  end.
  assert (Hexp : exists d self2,
             exp_step self1 = inr (d, self2)
             /\ bookkeeping_extends self1 self2
             /\ (mrz_data = None -> d = None)
             /\ (forall m d', mrz_data = Some m -> mrz_expiration_date m = Some d' ->
                   d = Some d')).
  { unfold exp_step. clear exp_step. destruct mrz_data as [mrz|].
    - destruct (mrz_expiration_date mrz) as [d|] eqn:Hd.
      + exists (Some d), self1. split; [reflexivity|].
        split; [apply bookkeeping_extends_refl|]. split; [discriminate|].
        intros m d' [= <-] Hd'. congruence.
      + destruct (opt_str_truthy (expiration_date_str mrz)).
        * destruct (recorded_parse_date_spec dateparser_parse today
                      match expiration_date_str mrz with Some s => s | None => "" end
                      self1) as (d & self2 & Hrun2 & Hext2).
          exists d, self2. split; [exact Hrun2|]. split; [exact Hext2|].
          split; [discriminate|]. intros m d' [= <-] Hd'. congruence.
        * exists None, self1. split; [reflexivity|].
          split; [apply bookkeeping_extends_refl|]. split; [discriminate|].
          intros m d' [= <-] Hd'. congruence.
    - exists None, self1. split; [reflexivity|].
      split; [apply bookkeeping_extends_refl|]. split; [reflexivity|]. discriminate. }
  destruct Hexp as (d & self2 & Hrun2 & Hext2 & Hnone & Hsome).
  eexists _, _. rewrite Hrun2. cbv beta iota.
  change (snd (_validate_country_code self2 "ESP")) with self2.
  split; [reflexivity|].
  cbn [_create_result number expiration_date].
  split; [reflexivity|].
  split; [now apply (bookkeeping_extends_trans _ self1)|].
  split; [exact Hv|]. split; [exact Hnone|exact Hsome].
Qed.

(** ** The whitespace normalisation of the keyword window *)

Lemma chars_of_string_of (l : chars) : chars_of (string_of l) = l.
Proof. induction l as [|c l IH]; cbn; [reflexivity|now rewrite IH]. Qed.

Lemma clean_chars_single_spaced (l : chars) :
  forall b : bool, single_spaced (clean_chars l b) b = true.
Proof.
  induction l as [|c l IH]; intro b; cbn [clean_chars]; [reflexivity|].
  destruct (is_space c) eqn:Hc.
  - destruct b; [apply IH|]. cbn [single_spaced].
    change (is_space " ") with true. cbv iota. now rewrite IH.
  - cbn [single_spaced]. rewrite Hc. apply IH.
Qed.

Lemma clean_chars_fixed (l : chars) :
  forall b : bool, single_spaced l b = true -> clean_chars l b = l.
Proof.
  induction l as [|c l IH]; intros b H; cbn [clean_chars single_spaced] in *;
    [reflexivity|].
  destruct (is_space c).
  - apply andb_prop in H. destruct H as [H Hl]. apply andb_prop in H.
    destruct H as [Hb Hc]. apply Ascii.eqb_eq in Hc. subst c.
    destruct b; [discriminate|]. now rewrite IH.
  - now rewrite IH.
Qed.

Lemma clean_chars_keeps_others (l : chars) :
  forall b : bool,
    filter (fun c => negb (is_space c)) (clean_chars l b)
    = filter (fun c => negb (is_space c)) l.
Proof.
  induction l as [|c l IH]; intro b; cbn [clean_chars filter]; [reflexivity|].
  destruct (is_space c) eqn:Hc; cbn [negb].
  - destruct b; [apply IH|]. cbn [filter]. change (is_space " ") with true.
    cbn [negb]. apply IH.
  - cbn [filter]. rewrite Hc. cbn [negb]. now rewrite IH.
Qed.

Lemma single_spaced_whitespace (l : chars) :
  forall b : bool,
    single_spaced l b = true ->
    forall c, In c l -> is_space c = true -> c = " "%char.
Proof.
  induction l as [|x l IH]; intros b H c Hin Hc; [destruct Hin|].
  cbn [single_spaced] in H. destruct Hin as [<-|Hin].
  - rewrite Hc in H. apply andb_prop in H. destruct H as [H _].
    apply andb_prop in H. destruct H as [_ H]. now apply Ascii.eqb_eq in H.
  - destruct (is_space x).
    + apply andb_prop in H. destruct H as [_ H]. exact (IH _ H c Hin Hc).
    + exact (IH _ H c Hin Hc).
Qed.

Lemma single_spaced_no_double (pre post : chars) :
  forall b : bool,
    single_spaced (pre ++ " "%char :: " "%char :: post) b = false.
Proof.
  induction pre as [|x pre IH]; intro b; cbn [app single_spaced].
  - change (is_space " ") with true. cbv iota. cbn [negb andb].
    now rewrite !andb_false_r.
  - destruct (is_space x); [|apply IH]. rewrite IH. apply andb_false_r.
Qed.

(** X15: _clean (re.sub(r'\s+', ' ', text)), through which every keyword
    window passes before the date patterns are tried. Its result holds no
    whitespace character but the space (so no line break) and no two
    spaces in a row; the other characters are those of the text, in
    order; and cleaning a cleaned text changes nothing. *)
Theorem clean_spec (text : string) :
  let cleaned := chars_of (_clean text) in
  (forall c, In c cleaned -> is_space c = true -> c = " "%char)
  /\ (forall pre post, cleaned <> (pre ++ " "%char :: " "%char :: post)%list)
  /\ filter (fun c => negb (is_space c)) cleaned
     = filter (fun c => negb (is_space c)) (chars_of text)
  /\ _clean (_clean text) = _clean text.
Proof.
  intro cleaned. subst cleaned. unfold _clean. rewrite !chars_of_string_of.
  assert (H := clean_chars_single_spaced (chars_of text) false).
  split; [exact (single_spaced_whitespace _ _ H)|]. split.
  - intros pre post Heq. rewrite Heq, single_spaced_no_double in H. discriminate.
  - split; [apply clean_chars_keeps_others|].
    now rewrite (clean_chars_fixed _ _ H).
Qed.

(** ** The country the resolver selects *)

Lemma in_insert_desc (x c : candidate) (sorted : list candidate) :
  In c (insert_desc x sorted) <-> c = x \/ In c sorted.
Proof.
  induction sorted as [|y sorted IH]; cbn [insert_desc].
  - cbn. intuition.
  - destruct (key_lt (sort_key y) (sort_key x)); cbn [In] in *; intuition.
Qed.

Lemma length_insert_desc (x : candidate) (sorted : list candidate) :
  List.length (insert_desc x sorted) = S (List.length sorted).
Proof.
  induction sorted as [|y sorted IH]; cbn [insert_desc]; [reflexivity|].
  destruct (key_lt (sort_key y) (sort_key x)); cbn [List.length]; [reflexivity|].
  now rewrite IH.
Qed.

Lemma sort_fold_members (l : list candidate) :
  forall acc : list candidate,
    let sorted := fold_left (fun sorted x => insert_desc x sorted) l acc in
    (forall c, In c sorted <-> In c acc \/ In c l)
    /\ List.length sorted = (List.length acc + List.length l)%nat.
Proof.
  induction l as [|x l IH]; intro acc; cbn [fold_left].
  - cbn. split; [intuition|lia].
  - destruct (IH (insert_desc x acc)) as [Hin Hlen]. cbn zeta in *. split.
    + intro c. rewrite Hin, in_insert_desc. cbn [In]. intuition.
    + rewrite Hlen, length_insert_desc. cbn [List.length]. lia.
Qed.

(** X16: the sort of the country candidates neither loses nor invents a
    candidate, and the country selected is the value of one of them:
    None exactly when there is no candidate. *)
Theorem select_country_member (country_candidates : list candidate) :
  (forall c, In c (sort_candidates country_candidates) <-> In c country_candidates)
  /\ List.length (sort_candidates country_candidates)
     = List.length country_candidates
  /\ (select_country country_candidates = None <-> country_candidates = [])
  /\ (forall v, select_country country_candidates = Some v ->
        exists c, In c country_candidates /\ cand_value c = v).
Proof.
  destruct (sort_fold_members country_candidates []) as [Hin Hlen].
  cbn zeta in *. fold (sort_candidates country_candidates) in Hin, Hlen.
  cbn [List.length In Nat.add] in Hin, Hlen.
  split; [intro c; rewrite Hin; intuition|]. split; [exact Hlen|].
  unfold select_country.
  destruct (sort_candidates country_candidates) as [|best rest].
  - split.
    + split; [intros _|reflexivity].
      destruct country_candidates; [reflexivity|discriminate].
    + discriminate.
  - split.
    + split; [discriminate|]. intros ->. discriminate.
    + intros v [= <-]. exists best. split; [|reflexivity].
      destruct (proj1 (Hin best) (or_introl eq_refl)) as [[]|Hbest]. exact Hbest.
Qed.

Lemma insert_desc_head_kept (best y : candidate) (sorted : list candidate) :
  key_lt (sort_key best) (sort_key y) = false ->
  insert_desc y (best :: sorted) = best :: insert_desc y sorted.
Proof. intro H. cbn [insert_desc]. now rewrite H. Qed.

Lemma insert_desc_head_new (best : candidate) (sorted : list candidate) :
  (forall y, In y sorted -> key_lt (sort_key y) (sort_key best) = true) ->
  exists rest, insert_desc best sorted = best :: rest.
Proof.
  intro H. destruct sorted as [|y sorted]; cbn [insert_desc]; [now exists []|].
  rewrite (H y) by now left. now exists (y :: sorted).
Qed.

Lemma sort_fold_head_kept (best : candidate) (l : list candidate) :
  (forall y, In y l -> key_lt (sort_key best) (sort_key y) = false) ->
  forall rest : list candidate,
    exists rest',
      fold_left (fun sorted x => insert_desc x sorted) l (best :: rest)
      = best :: rest'.
Proof.
  induction l as [|y l IH]; intros Hl rest; cbn [fold_left]; [now exists rest|].
  rewrite insert_desc_head_kept by (apply Hl; now left).
  apply IH. intros z Hz. apply Hl. now right.
Qed.

(** X17: the candidate selected is the first one that is strictly above
    every candidate before it and has none strictly above it after it
    (in the order of the sort key). *)
Theorem select_country_first_best (pre post : list candidate) (best : candidate) :
  (forall y, In y pre -> key_lt (sort_key y) (sort_key best) = true) ->
  (forall y, In y post -> key_lt (sort_key best) (sort_key y) = false) ->
  select_country (pre ++ best :: post) = Some (cand_value best).
Proof.
  intros Hpre Hpost. unfold select_country, sort_candidates.
  rewrite fold_left_app. cbn [fold_left].
  destruct (sort_fold_members pre []) as [Hin _]. cbn zeta in Hin.
  destruct (insert_desc_head_new best
              (fold_left (fun sorted x => insert_desc x sorted) pre []))
    as [rest ->].
  { intros y Hy. apply Hpre. apply Hin in Hy. destruct Hy as [[]|Hy]. exact Hy. }
  destruct (sort_fold_head_kept best post Hpost rest) as [rest' ->].
  reflexivity.
Qed.

Lemma select_country_first_best_witness :
  select_country [("XXX", 3, "Generic"); ("ESP", 10, "MRZ"); ("USA", 10, "MRZ")]%float
  = Some "ESP".
Proof.
  apply (select_country_first_best [("XXX", 3, "Generic")]%float
           [("USA", 10, "MRZ")]%float ("ESP", 10, "MRZ")%float).
  - intros y [<-|[]]. reflexivity.
  - intros y [<-|[]]. reflexivity.
Defined.

(** ** extract_with_country_overwrite *)

(** X18: extract_with_country_overwrite, the entry point the module
    recommends for passports. When the country merged from the MRZ and
    Generic results is "USA", the call never returns a result: it ends
    in the exception of USPassportStrategy.extract. When the merged
    country is None or none of "EGY", "ESP", "USA", it returns the merge
    of the MRZ result and the Generic result unchanged. *)
Theorem country_overwrite_by_country
  (dateparser_parse : dp_settings -> string -> exn + option date) (today : date)
  (extract_other :
     strategy_class -> string -> option MRZData -> option string -> M ExtractionResult)
  (text : string) (mrz_data : option MRZData)
  (mrz_result generic_result : ExtractionResult) (s1 s2 : strategy) :
  extract_other MRZStrategy text mrz_data None (strategy_init MRZStrategy)
  = inr (mrz_result, s1) ->
  extract_other GenericStrategy text mrz_data None (strategy_init GenericStrategy)
  = inr (generic_result, s2) ->
  let merged := _merge_results mrz_result generic_result in
  let run := extract_with_country_overwrite dateparser_parse today extract_other
               text mrz_data in
  (issued_country merged = Some "USA" ->
   run = inl (if str_truthy text then AttributeError "errors"
              else ValueError "text must be a non-empty string"))
  /\ (match issued_country merged with
      | Some country => dict_get country_strategies country = None
      | None => True
      end -> run = inr merged).
Proof.
  intros Hmrz Hgen merged run. subst run.
  unfold extract_with_country_overwrite. cbn [extract]. rewrite Hmrz, Hgen.
  fold merged. split.
  - intros ->. cbn [dict_get country_strategies String.eqb Ascii.eqb Bool.eqb].
    cbn [extract]. rewrite us_extract_raises. now destruct (str_truthy text).
  - destruct (issued_country merged) as [country|]; [|reflexivity].
    now intros ->.
Qed.

Lemma country_overwrite_by_country_witness :
  let extract_usa (c : strategy_class) (text : string) (mrz_data : option MRZData)
        (file_path : option string) : M ExtractionResult :=
    fun self => inr (_create_result self None (Some "USA") None, self) in
  extract_with_country_overwrite no_dateparser (mkdate 2026 11 4) extract_usa
    "P<USASMITH<<JOHN" None
  = inl (AttributeError "errors").
Proof.
  intro extract_usa.
  exact (proj1 (country_overwrite_by_country no_dateparser (mkdate 2026 11 4)
                  extract_usa "P<USASMITH<<JOHN" None _ _ _ _ eq_refl eq_refl)
           eq_refl).
Defined.
